(** * DeckCheck actors: a shallow embedding of the polling substrate

    The development follows the TypeScript sources of the actor system:
    the pricing table and [calculateCost] (config/openai-pricing.ts), the
    session logger (utils/logger.ts), the Extractor (actors/extractor),
    the Critic's work finder and completion check (actors/critic) and the
    scheduler's overlap guard (actors/scheduler).

    Conventions of the embedding.
    - The text of a file and of a page is the list of its UTF-16 code units
      ([JS.Text]); names, ids, paths and messages, whose characters are
      never inspected, are [string]s.
    - Integral JavaScript numbers (lengths, page numbers, counts) are [nat]
      or [Z]; prices and costs are IEEE binary64 values ([float]).
    - Awaited calls to Firestore, Cloud Storage and pdf-parse may reject.
      The environment decides the outcome of the k-th awaited call of a run;
      a rejected call leaves the store as it was.
    - Exceptions are values of a result type; state changes made before a
      throw are kept, as in JavaScript.
    - A job runs alone on the logger singleton: the interleaving of two
      jobs at their awaits is not part of the embedding. The overlap guard
      is a state machine over the calls of the guarded function and the
      settlements of the promises it awaits. *)

From Stdlib Require Import ZArith Lia List String Ascii Decimal DecimalString.
From Stdlib Require DecimalFacts DecimalNat.
From Stdlib Require Import Floats.PrimFloat.
From stdpp Require Import gmap strings list sorting.

#[local] Set Warnings "-inexact-float".
Local Open Scope string_scope.
Local Open Scope list_scope.

(** ** JavaScript primitives used by the actors *)

Module JS.

(** A text as the sequence of its UTF-16 code units. *)
Abbreviation Text := (list N).

(** A string literal of the source (its characters are ASCII). *)
Definition lit (s : string) : Text :=
  map N_of_ascii (list_ascii_of_string s).

(** The code units of [WhiteSpace] and [LineTerminator]: the set removed by
    [String.prototype.trim] and matched by the class [\s] of a regular
    expression. *)
Definition isWhiteSpace (c : N) : bool :=
  ((9 <=? c) && (c <=? 13) || (c =? 32) || (c =? 160) || (c =? 5760)
   || (8192 <=? c) && (c <=? 8202) || (c =? 8232) || (c =? 8233)
   || (c =? 8239) || (c =? 8287) || (c =? 12288) || (c =? 65279))%N.

Fixpoint trimStart (s : Text) : Text :=
  match s with
  | [] => []
  | c :: r => if isWhiteSpace c then trimStart r else s
  end.

Fixpoint trimEnd (s : Text) : Text :=
  match s with
  | [] => []
  | c :: r =>
      match trimEnd r with
      | [] => if isWhiteSpace c then [] else [c]
      | r' => c :: r'
      end
  end.

(** [s.trim()] *)
Definition trim (s : Text) : Text := trimEnd (trimStart s).

(** [s.substring(start, end)] for non-negative integral arguments: both
    indices are clamped to the length and swapped when out of order. *)
Definition substring (s : Text) (start end_ : nat) : Text :=
  let len := length s in
  let a := Nat.min start len in
  let b := Nat.min end_ len in
  take (Nat.max a b - Nat.min a b) (drop (Nat.min a b) s).

(** [s.split(/\s+/)]: the pieces between maximal runs of white space. A run
    at either end of the text leaves an empty piece there, and the empty
    text splits into one empty piece. [inRun] tells that the previous code
    unit belonged to a run already closed by a cut. *)
Fixpoint splitRuns (s cur : Text) (inRun : bool) : list Text :=
  match s with
  | [] => [cur]
  | c :: r =>
      if isWhiteSpace c
      then (if inRun then splitRuns r [] true
            else cur :: splitRuns r [] true)
      else splitRuns r (cur ++ [c]) false
  end.

Definition splitWhitespace (s : Text) : list Text :=
  splitRuns s [] false.

(** Truthiness of a text: only the empty text is falsy. *)
Definition nonEmpty (s : Text) : bool :=
  match s with
  | [] => false
  | _ :: _ => true
  end.

(** Truthiness of a string: only the empty string is falsy. *)
Definition truthy (s : string) : bool :=
  negb (Nat.eqb (String.length s) 0).

(** [`${n}`] for a non-negative integer. *)
Definition showNat (n : nat) : string :=
  NilZero.string_of_uint (Nat.to_uint n).

(** A thrown value: an [Error] object with its [message], or any other
    value, of which only [String(value)] is ever observed. *)
Inductive Thrown :=
| ErrorObject (message : string)
| OtherValue (rendered : string).

(** [error instanceof Error ? error.message : String(error)] *)
Definition errorText (e : Thrown) : string :=
  match e with
  | ErrorObject m => m
  | OtherValue r => r
  end.

(** The same expression applied to an optional argument: an absent argument
    is [undefined], which is rendered as the text "undefined". *)
Definition errorTextOpt (e : option Thrown) : string :=
  match e with
  | Some v => errorText v
  | None => "undefined"
  end.

(** [Math.ceil(a / b)] for non-negative integers below 2^53 and [b > 0],
    where the binary64 quotient rounds to the exact ceiling. For [b = 0]
    JavaScript yields [Infinity] or [NaN]; the only caller never uses the
    value in that case, and the embedding returns 0 there. *)
Definition ceilDiv (a b : nat) : nat :=
  match b with
  | 0 => 0
  | _ => (a + b - 1) / b
  end.

End JS.

(** ** Cost ledger: the pricing table and [calculateCost] *)

Module Pricing.

Local Open Scope float_scope.

Record ModelPricing := { input : float; output : float }.

(** The own properties of the object literal [MODEL_PRICING]. *)
Definition MODEL_PRICING : gmap string ModelPricing :=
  list_to_map
    [ ("gpt-4o"%string, {| input := 2.50; output := 10.00 |});
      ("gpt-4o-2024-11-20"%string, {| input := 2.50; output := 10.00 |});
      ("gpt-4o-mini"%string, {| input := 0.150; output := 0.600 |});
      ("gpt-4o-mini-2024-07-18"%string, {| input := 0.150; output := 0.600 |});
      ("gpt-4-turbo"%string, {| input := 10.00; output := 30.00 |});
      ("gpt-4-turbo-2024-04-09"%string, {| input := 10.00; output := 30.00 |});
      ("gpt-3.5-turbo"%string, {| input := 0.50; output := 1.50 |});
      ("gpt-3.5-turbo-0125"%string, {| input := 0.50; output := 1.50 |}) ].

(** [MODEL_PRICING] is an object literal, so its prototype is
    [Object.prototype]; a property read [MODEL_PRICING[model]] that finds no
    own property continues there. These are the property names of
    [Object.prototype]; each holds a function, or for [__proto__] the
    prototype object itself. *)
Definition objectPrototypeKeys : list string :=
  [ "constructor"; "__defineGetter__"; "__defineSetter__"; "hasOwnProperty";
    "__lookupGetter__"; "__lookupSetter__"; "isPrototypeOf";
    "propertyIsEnumerable"; "toString"; "valueOf"; "__proto__";
    "toLocaleString" ]%string.

(** What the read [MODEL_PRICING[model]] evaluates to, [None] standing for
    [undefined]. *)
Inductive PropertyValue :=
| OwnPricing (pricing : ModelPricing)
| Inherited (name : string).

Definition getProperty (model : string) : option PropertyValue :=
  match MODEL_PRICING !! model with
  | Some pricing => Some (OwnPricing pricing)
  | None =>
      if bool_decide (model ∈ objectPrototypeKeys)
      then Some (Inherited model)
      else None
  end.

(** [pricing.input] and [pricing.output] converted to a number: the members
    of [Object.prototype] have neither property, the read gives
    [undefined], and [undefined] converts to [NaN]. *)
Definition inputOf (v : PropertyValue) : float :=
  match v with
  | OwnPricing pricing => input pricing
  | Inherited _ => nan
  end.

Definition outputOf (v : PropertyValue) : float :=
  match v with
  | OwnPricing pricing => output pricing
  | Inherited _ => nan
  end.

(** The text of the [console.warn] call, without its leading glyph. *)
Definition warning (model : string) : string :=
  ("No pricing data for model: " +:+ model +:+ ". Using gpt-4o-mini pricing.")%string.

(** [calculateCost], with the depth of its self-recursion bounded by
    [fuel]. The result carries the console warnings in the order they are
    printed: one for every recursive call. *)
Fixpoint calculateCost (fuel : nat) (model : string)
    (promptTokens completionTokens : float) : option (float * list string) :=
  match fuel with
  | O => None
  | S fuel' =>
      match getProperty model with
      | None =>
          match calculateCost fuel' "gpt-4o-mini" promptTokens completionTokens with
          | Some (cost, warnings) => Some (cost, warning model :: warnings)
          | None => None
          end
      | Some pricing =>
          let inputCost := (promptTokens / 1000000) * inputOf pricing in
          let outputCost := (completionTokens / 1000000) * outputOf pricing in
          Some (inputCost + outputCost, [])
      end
  end.

End Pricing.

(** ** Documents of the store (types/types.ts, firebaseConstants.ts) *)

Inductive DeckStatus := UPLOADED | EXTRACTING | ANALYZING | COMPLETE | ERROR.
Inductive PageStatus := PENDING | EXTRACTED | ANALYZED.
Inductive InsightType :=
  PROBLEM | SOLUTION | MARKET | TRACTION | TEAM | DESIGN | MONETIZATION | NARRATIVE.
Inductive SessionStatus := Completed | Failed | NoItemsFound.

#[global] Instance DeckStatus_eq_dec : EqDecision DeckStatus.
Proof. solve_decision. Defined.
#[global] Instance InsightType_eq_dec : EqDecision InsightType.
Proof. solve_decision. Defined.
#[global] Instance SessionStatus_eq_dec : EqDecision SessionStatus.
Proof. solve_decision. Defined.

(** Values found in log payloads and session metadata. *)
Inductive JsValue := VNum (z : Z) | VStr (s : string).

(** A [Record<string, any>] literal. *)
Abbreviation Data := (gmap string JsValue).

Module Deck.
Record t := mk {
  fileName : string;
  fileSize : Z;
  fileType : string;
  storagePath : string;
  uploadedAt : Z;
  processedAt : option Z;
  status : DeckStatus;
  pageCount : Z;
  uploadedBy : option string;
  errorMessage : option string }.

Definition withStatus (s : DeckStatus) (d : t) : t :=
  mk (fileName d) (fileSize d) (fileType d) (storagePath d) (uploadedAt d)
     (processedAt d) s (pageCount d) (uploadedBy d) (errorMessage d).
Definition withPageCount (n : Z) (d : t) : t :=
  mk (fileName d) (fileSize d) (fileType d) (storagePath d) (uploadedAt d)
     (processedAt d) (status d) n (uploadedBy d) (errorMessage d).
Definition withProcessedAt (ts : Z) (d : t) : t :=
  mk (fileName d) (fileSize d) (fileType d) (storagePath d) (uploadedAt d)
     (Some ts) (status d) (pageCount d) (uploadedBy d) (errorMessage d).
Definition withErrorMessage (m : string) (d : t) : t :=
  mk (fileName d) (fileSize d) (fileType d) (storagePath d) (uploadedAt d)
     (processedAt d) (status d) (pageCount d) (uploadedBy d) (Some m).
End Deck.

Module Page.
Record t := mk {
  pageNumber : nat;
  text : JS.Text;
  extractedAt : Z;
  wordCount : nat;
  status : PageStatus }.
End Page.

Module Insight.
Record t := mk {
  type : InsightType;
  pageNumber : nat;
  rating : Z;
  feedback : string;
  reasoning : string;
  actorName : string;
  generatedAt : Z }.
End Insight.

Module LogEntry.
Record t := mk {
  timestamp : Z;
  message : string;
  data : option Data }.
End LogEntry.

(** The session object the logger builds ([Partial<AutomationLog>]); the
    [errors] list is the one field the logger itself treats as possibly
    missing. *)
Module AutomationLog.
Record t := mk {
  action : string;
  deckId : option string;
  status : SessionStatus;
  startedAt : Z;
  completedAt : option Z;
  logs : list LogEntry.t;
  errors : option (list string);
  metadata : Data }.

Definition withDeckId (i : string) (s : t) : t :=
  mk (action s) (Some i) (status s) (startedAt s) (completedAt s) (logs s)
     (errors s) (metadata s).
Definition withStatus (st : SessionStatus) (s : t) : t :=
  mk (action s) (deckId s) st (startedAt s) (completedAt s) (logs s)
     (errors s) (metadata s).
Definition withErrors (es : list string) (s : t) : t :=
  mk (action s) (deckId s) (status s) (startedAt s) (completedAt s) (logs s)
     (Some es) (metadata s).
Definition withMetadata (m : Data) (s : t) : t :=
  mk (action s) (deckId s) (status s) (startedAt s) (completedAt s) (logs s)
     (errors s) m.
Definition withCompletedAt (ts : Z) (s : t) : t :=
  mk (action s) (deckId s) (status s) (startedAt s) (Some ts) (logs s)
     (errors s) (metadata s).
Definition withLogs (ls : list LogEntry.t) (s : t) : t :=
  mk (action s) (deckId s) (status s) (startedAt s) (completedAt s) ls
     (errors s) (metadata s).
End AutomationLog.

(** ** The world the actors run in *)

(** The collections: [decks] by document id; under each deck id the [pages]
    (with their generated ids) and [insights] in creation order; and the
    append-only [automationLogs]. *)
Record Firestore := mkFirestore {
  decks : gmap string Deck.t;
  pages : gmap string (list (string * Page.t));
  insights : gmap string (list Insight.t);
  automationLogs : list AutomationLog.t }.

(** The deck context of the logger: [{ deckId?, fileName? }]. *)
Record DeckContext := mkDeckContext {
  ctxDeckId : option string;
  ctxFileName : option string }.

Definition emptyContext : DeckContext := mkDeckContext None None.

(** The three private fields of the logger singleton. *)
Record LoggerState := mkLogger {
  session : option AutomationLog.t;
  logs : list LogEntry.t;
  deckContext : DeckContext }.

(** Lines written to the console, the side channel. Glyphs that decorate
    the texts in the source are left out. *)
Inductive ConsoleLine :=
| ConsoleLog (text : string) (data : option Data)
| ConsoleWarn (text : string)
| ConsoleError (text : string) (error : option JS.Thrown).

(** The awaited calls that leave the process. *)
Inductive Call :=
| QueryDecks (status : DeckStatus)
| UpdateDeck (deckId : string)
| Download (path : string)
| ParsePdf
| CommitBatch (deckId : string) (size : nat)
| AddAutomationLog
| QueryPages (deckId : string)
| QueryInsights (deckId : string).

(** The state a job runs in: the store, the logger singleton, the console,
    the awaited calls made so far, the time [Timestamp.now()] reports, and
    the number of document ids generated so far. *)
Record World := mkWorld {
  store : Firestore;
  logger : LoggerState;
  console : list ConsoleLine;
  calls : list Call;
  clock : Z;
  generatedIds : nat }.

Definition withStore (f : Firestore -> Firestore) (w : World) : World :=
  mkWorld (f (store w)) (logger w) (console w) (calls w) (clock w) (generatedIds w).
Definition withLogger (f : LoggerState -> LoggerState) (w : World) : World :=
  mkWorld (store w) (f (logger w)) (console w) (calls w) (clock w) (generatedIds w).
Definition withConsoleLine (l : ConsoleLine) (w : World) : World :=
  mkWorld (store w) (logger w) (console w ++ [l]) (calls w) (clock w) (generatedIds w).
Definition withCall (c : Call) (w : World) : World :=
  mkWorld (store w) (logger w) (console w) (calls w ++ [c]) (clock w) (generatedIds w).
Definition withGeneratedId (w : World) : World :=
  mkWorld (store w) (logger w) (console w) (calls w) (clock w) (S (generatedIds w)).

(** What pdf-parse reports for a file. *)
Record PdfData := mkPdfData { pdfText : JS.Text; numpages : nat }.

Definition Buffer := list Byte.byte.

(** The environment of a run. [fault k] is the value the k-th awaited call
    rejects with, if it rejects. *)
Record Env := mkEnv {
  fault : nat -> option JS.Thrown;
  blob : string -> Buffer;
  parse : Buffer -> PdfData;
  autoId : nat -> string;
  showMegabytes : Z -> string }.

(** ** Computations that change the world and may throw *)

Inductive Outcome (A : Type) :=
| Returned (a : A)
| Threw (e : JS.Thrown).
Arguments Returned {A} a.
Arguments Threw {A} e.

Definition M (A : Type) : Type := World -> Outcome A * World.

Definition ret {A} (a : A) : M A := fun w => (Returned a, w).

Definition bind {A B} (m : M A) (k : A -> M B) : M B :=
  fun w =>
    match m w with
    | (Returned a, w') => k a w'
    | (Threw e, w') => (Threw e, w')
    end.

Definition throw {A} (e : JS.Thrown) : M A := fun w => (Threw e, w).

(** [try { body } catch (error) { handler }] *)
Definition tryCatch {A} (body : M A) (handler : JS.Thrown -> M A) : M A :=
  fun w =>
    match body w with
    | (Returned a, w') => (Returned a, w')
    | (Threw e, w') => handler e w'
    end.

Definition get : M World := fun w => (Returned w, w).
Definition modify (f : World -> World) : M unit := fun w => (Returned tt, f w).

Declare Scope m_scope.
Delimit Scope m_scope with M.
Notation "x <- m ;; k" := (bind m (fun x => k))
  (at level 100, m at next level, right associativity) : m_scope.
Notation "m ;; k" := (bind m (fun _ => k))
  (at level 100, right associativity) : m_scope.
Local Open Scope m_scope.

(** [Timestamp.now()] *)
Definition now : M Z := fun w => (Returned (clock w), w).

Definition consoleWrite (l : ConsoleLine) : M unit := modify (withConsoleLine l).

(** ** The awaited calls: Firestore, Cloud Storage, pdf-parse *)

Module Db.
Section WithEnv.
Variable env : Env.

(** An awaited call is recorded, and rejects when the environment says so. *)
Definition await (c : Call) : M unit :=
  fun w =>
    match fault env (length (calls w)) with
    | Some e => (Threw e, withCall c w)
    | None => (Returned tt, withCall c w)
    end.

Definition withDecks (f : gmap string Deck.t -> gmap string Deck.t)
    (fs : Firestore) : Firestore :=
  mkFirestore (f (decks fs)) (pages fs) (insights fs) (automationLogs fs).

Definition pagesOf (deckId : string) (fs : Firestore) : list (string * Page.t) :=
  default [] (pages fs !! deckId).

Definition insightsOf (deckId : string) (fs : Firestore) : list Insight.t :=
  default [] (insights fs !! deckId).

(** [orderBy(field, 'asc')] on a timestamp field. *)
Definition byField (field : Deck.t -> option Z) : relation (string * Deck.t) :=
  fun a b => (default 0 (field a.2) <= default 0 (field b.2))%Z.

#[global] Instance byField_dec field a b : Decision (byField field a b).
Proof. unfold byField. apply _. Defined.

(** [where('status', '==', st).orderBy(field, 'asc').limit(n)]: a document
    without the ordering field is not part of an ordered query. Documents
    with equal timestamps come in an order the listing of the collection
    fixes. *)
Definition selectDecks (st : DeckStatus) (field : Deck.t -> option Z)
    (limit : nat) (fs : Firestore) : list (string * Deck.t) :=
  take limit
    (merge_sort (byField field)
       (List.filter
          (fun d => bool_decide (Deck.status d.2 = st) && bool_decide (is_Some (field d.2)))
          (map_to_list (decks fs)))).

Definition queryDecks (st : DeckStatus) (field : Deck.t -> option Z)
    (limit : nat) : M (list (string * Deck.t)) :=
  await (QueryDecks st) ;;
  w <- get ;;
  ret (selectDecks st field limit (store w)).

(** [doc(id).update(patch)]: Firestore rejects the update of a document
    that does not exist. *)
Definition updateDeck (id : string) (patch : Deck.t -> Deck.t) : M unit :=
  await (UpdateDeck id) ;;
  w <- get ;;
  match decks (store w) !! id with
  | Some d => modify (withStore (withDecks (insert id (patch d))))
  | None => throw (JS.ErrorObject "NOT_FOUND: No document to update")
  end.

(** [bucket.file(path).download()] *)
Definition download (path : string) : M Buffer :=
  await (Download path) ;;
  ret (blob env path).

(** [pdfParse(buffer)] *)
Definition pdfParse (buffer : Buffer) : M PdfData :=
  await ParsePdf ;;
  ret (parse env buffer).

(** [doc()]: a reference with a freshly generated id. *)
Definition newDocId : M string :=
  w <- get ;;
  modify withGeneratedId ;;
  ret (autoId env (generatedIds w)).

(** [batch.commit()]: all the documents of the batch are written, or none. *)
Definition commitBatch (deckId : string) (batch : list (string * Page.t)) : M unit :=
  await (CommitBatch deckId (length batch)) ;;
  modify (withStore (fun fs =>
    mkFirestore (decks fs)
      (<[deckId := pagesOf deckId fs ++ batch]> (pages fs))
      (insights fs) (automationLogs fs))).

(** [collection(AUTOMATION_LOGS).add(session)] *)
Definition addAutomationLog (s : AutomationLog.t) : M unit :=
  await AddAutomationLog ;;
  modify (withStore (fun fs =>
    mkFirestore (decks fs) (pages fs) (insights fs) (automationLogs fs ++ [s]))).

(** [orderBy('pageNumber', 'asc')] *)
Definition byPageNumber : relation (string * Page.t) :=
  fun a b => Page.pageNumber a.2 <= Page.pageNumber b.2.

#[global] Instance byPageNumber_dec a b : Decision (byPageNumber a b).
Proof. unfold byPageNumber. apply _. Defined.

Definition selectPages (deckId : string) (fs : Firestore) : list (string * Page.t) :=
  merge_sort byPageNumber (pagesOf deckId fs).

Definition queryPages (deckId : string) : M (list (string * Page.t)) :=
  await (QueryPages deckId) ;;
  w <- get ;;
  ret (selectPages deckId (store w)).

(** [where('pageNumber', '==', n).where('type', '==', ty).limit(1)] *)
Definition selectInsights (deckId : string) (n : nat) (ty : InsightType)
    (fs : Firestore) : list Insight.t :=
  take 1
    (List.filter
       (fun i => Nat.eqb (Insight.pageNumber i) n && bool_decide (Insight.type i = ty))
       (insightsOf deckId fs)).

Definition queryInsights (deckId : string) (n : nat) (ty : InsightType) :
    M (list Insight.t) :=
  await (QueryInsights deckId) ;;
  w <- get ;;
  ret (selectInsights deckId n ty (store w)).

(** The whole [insights] collection of a deck. *)
Definition queryAllInsights (deckId : string) : M (list Insight.t) :=
  await (QueryInsights deckId) ;;
  w <- get ;;
  ret (insightsOf deckId (store w)).

End WithEnv.
End Db.

(** ** Session logger (utils/logger.ts) *)

Module Logger.

Definition showStatus (s : SessionStatus) : string :=
  match s with
  | Completed => "completed"
  | Failed => "failed"
  | NoItemsFound => "no_items_found"
  end.

Definition showZ (z : Z) : string := NilZero.string_of_int (Z.to_int z).

Definition truthyOpt (s : option string) : bool :=
  match s with
  | Some v => JS.truthy v
  | None => false
  end.

Definition setSession (s : option AutomationLog.t) (l : LoggerState) : LoggerState :=
  mkLogger s (logs l) (deckContext l).
Definition setLogs (ls : list LogEntry.t) (l : LoggerState) : LoggerState :=
  mkLogger (session l) ls (deckContext l).
Definition setContext (c : DeckContext) (l : LoggerState) : LoggerState :=
  mkLogger (session l) (logs l) c.

Definition startSession (action : string) (deckId : option string) : M unit :=
  t <- now ;;
  modify (withLogger (fun _ =>
    mkLogger
      (Some (AutomationLog.mk action deckId Completed t None [] (Some []) ∅))
      []
      (if truthyOpt deckId then mkDeckContext deckId None else emptyContext))) ;;
  consoleWrite (ConsoleLog ("Starting session: " +:+ action) None).

Definition setDeckContext (deckId : string) (fileName : option string) : M unit :=
  modify (withLogger (setContext (mkDeckContext (Some deckId) fileName))) ;;
  w <- get ;;
  match session (logger w) with
  | Some s => modify (withLogger (setSession (Some (AutomationLog.withDeckId deckId s))))
  | None => ret tt
  end ;;
  consoleWrite
    (ConsoleLog
       ("Deck context: " +:+ (if truthyOpt fileName then default "" fileName else deckId))
       None).

Definition add (message : string) (data : option Data) : M unit :=
  t <- now ;;
  modify (withLogger (fun l => setLogs (logs l ++ [LogEntry.mk t message data]) l)) ;;
  consoleWrite (ConsoleLog message data).

Definition error (message : string) (error : option JS.Thrown) : M unit :=
  let errorMessage := JS.errorTextOpt error in
  w <- get ;;
  match session (logger w) with
  | None => consoleWrite (ConsoleError (message +:+ ": " +:+ errorMessage) None)
  | Some s =>
      let es := match AutomationLog.errors s with
                | Some es => es
                | None => []
                end in
      modify (withLogger (setSession (Some
        (AutomationLog.withStatus Failed
           (AutomationLog.withErrors (es ++ [message +:+ ": " +:+ errorMessage]) s))))) ;;
      consoleWrite (ConsoleError (message +:+ ": " +:+ errorMessage) None)
  end.

Definition getDeckContext : M DeckContext :=
  w <- get ;;
  ret (deckContext (logger w)).

Section WithEnv.
Variable env : Env.

(** The record [endSession] hands to the store: the session with the
    optional status override, the merged metadata, the completion time and
    the buffered log entries. *)
Definition finalRecord (status : option SessionStatus) (metadata : option Data)
    (t : Z) (buffered : list LogEntry.t) (s : AutomationLog.t) : AutomationLog.t :=
  let s1 := match status with
            | Some st => AutomationLog.withStatus st s
            | None => s
            end in
  let s2 := match metadata with
            | Some m => AutomationLog.withMetadata (m ∪ AutomationLog.metadata s1) s1
            | None => s1
            end in
  AutomationLog.withLogs buffered (AutomationLog.withCompletedAt t s2).

Definition endSession (status : option SessionStatus) (metadata : option Data) : M unit :=
  w <- get ;;
  match session (logger w) with
  | None => consoleWrite (ConsoleWarn "No active session to end")
  | Some s =>
      t <- now ;;
      let s' := finalRecord status metadata t (logs (logger w)) s in
      modify (withLogger (setSession (Some s'))) ;;
      tryCatch
        (Db.addAutomationLog env s' ;;
         consoleWrite
           (ConsoleLog
              ("Session ended: " +:+ showStatus (AutomationLog.status s') +:+ " ("
               +:+ showZ (t - AutomationLog.startedAt s') +:+ "ms)")
              None))
        (fun error =>
           consoleWrite (ConsoleError "Failed to write automation log:" (Some error))) ;;
      modify (withLogger (fun _ => mkLogger None [] emptyContext))
  end.

End WithEnv.
End Logger.

(** ** Extractor (actors/extractor/index.ts) *)

Module Extractor.

Definition placeholder (n : nat) : JS.Text :=
  JS.lit ("[Page " +:+ JS.showNat n +:+ " - No text extracted]").

(** The body of the [for] loop of [extractPDFText], from counter [i] on for
    [remaining] more rounds; [pages] is the array filled so far. *)
Fixpoint pageLoop (fullText : JS.Text) (avgCharsPerPage remaining i : nat)
    (pages : list JS.Text) : list JS.Text :=
  match remaining with
  | O => pages
  | S remaining' =>
      let start := i * avgCharsPerPage in
      let end_ := Nat.min ((i + 1) * avgCharsPerPage) (length fullText) in
      let pageText := JS.trim (JS.substring fullText start end_) in
      pageLoop fullText avgCharsPerPage remaining' (S i)
        (pages ++ [if JS.nonEmpty pageText then pageText else placeholder (i + 1)])
  end.

(** [extractPDFText] after the call to pdf-parse. *)
Definition splitPages (pdfData : PdfData) : list JS.Text :=
  let fullText := pdfText pdfData in
  let pageCount := numpages pdfData in
  let avgCharsPerPage := JS.ceilDiv (length fullText) pageCount in
  pageLoop fullText avgCharsPerPage pageCount 0 [].

(** [pageText.split(/\s+/).filter(w => w.length > 0).length] *)
Definition wordCount (pageText : JS.Text) : nat :=
  length (List.filter (fun w => Nat.ltb 0 (length w)) (JS.splitWhitespace pageText)).

Section WithEnv.
Variable env : Env.

Definition findDeckToExtract : M (option (string * Deck.t)) :=
  snapshot <- Db.queryDecks env UPLOADED (fun d => Some (Deck.uploadedAt d)) 1 ;;
  match snapshot with
  | [] => ret None
  | doc :: _ => ret (Some doc)
  end.

Definition downloadPDF (storagePath : string) : M Buffer :=
  Db.download env storagePath.

Definition extractPDFText (pdfBuffer : Buffer) : M (list JS.Text) :=
  pdfData <- Db.pdfParse env pdfBuffer ;;
  ret (splitPages pdfData).

(** The [forEach] of [createPageDocuments]: one [batch.set] per page text. *)
Fixpoint fillBatch (pages : list JS.Text) (index : nat)
    (batch : list (string * Page.t)) : M (list (string * Page.t)) :=
  match pages with
  | [] => ret batch
  | pageText :: rest =>
      pageRef <- Db.newDocId env ;;
      t <- now ;;
      fillBatch rest (S index)
        (batch ++ [(pageRef, Page.mk (index + 1) pageText t (wordCount pageText) EXTRACTED)])
  end.

Definition createPageDocuments (deckId : string) (pages : list JS.Text) : M unit :=
  batch <- fillBatch pages 0 [] ;;
  Db.commitBatch env deckId batch.

Definition extractPDFPages : M unit :=
  Logger.startSession "extract_pdf" None ;;
  tryCatch
    (deck <- findDeckToExtract ;;
     match deck with
     | None => Logger.endSession env (Some NoItemsFound) None
     | Some (id, data) =>
         Logger.setDeckContext id (Some (Deck.fileName data)) ;;
         Db.updateDeck env id (Deck.withStatus EXTRACTING) ;;
         Logger.add "Downloading PDF from storage"
           (Some (<["storagePath" := VStr (Deck.storagePath data)]>
                    (<["fileSize" := VStr (showMegabytes env (Deck.fileSize data))]> ∅))) ;;
         pdfBuffer <- downloadPDF (Deck.storagePath data) ;;
         Logger.add "Extracting text from PDF" None ;;
         pages <- extractPDFText pdfBuffer ;;
         Logger.add "Creating page documents"
           (Some (<["pageCount" := VNum (Z.of_nat (length pages))]> ∅)) ;;
         createPageDocuments id pages ;;
         t <- now ;;
         Db.updateDeck env id
           (fun d => Deck.withProcessedAt t
                       (Deck.withPageCount (Z.of_nat (length pages))
                          (Deck.withStatus ANALYZING d))) ;;
         Logger.add "PDF extraction complete"
           (Some (<["pageCount" := VNum (Z.of_nat (length pages))]> ∅)) ;;
         Logger.endSession env (Some Completed)
           (Some (<["pageCount" := VNum (Z.of_nat (length pages))]> ∅))
     end)
    (fun error =>
       Logger.error "PDF extraction failed" (Some error) ;;
       Logger.endSession env (Some Failed) None ;;
       deckContext <- Logger.getDeckContext ;;
       match ctxDeckId deckContext with
       | Some deckId =>
           if JS.truthy deckId
           then Db.updateDeck env deckId
                  (fun d => Deck.withErrorMessage (JS.errorText error)
                              (Deck.withStatus ERROR d))
           else ret tt
       | None => ret tt
       end).

End WithEnv.
End Extractor.

(** ** Critic: work finder and completion check (actors/critic/index.ts) *)

Module Critic.

Record Item := mkItem {
  deckId : string;
  pageId : string;
  page : Page.t;
  deck : Deck.t }.

Section WithEnv.
Variable env : Env.

(** The inner loop of [findPageToCritique] over the pages of one deck. *)
Fixpoint scanPages (deckId : string) (deck : Deck.t)
    (pageDocs : list (string * Page.t)) : M (option Item) :=
  match pageDocs with
  | [] => ret None
  | (pageId, page) :: rest =>
      insightsSnapshot <- Db.queryInsights env deckId (Page.pageNumber page) PROBLEM ;;
      match insightsSnapshot with
      | [] => ret (Some (mkItem deckId pageId page deck))
      | _ :: _ => scanPages deckId deck rest
      end
  end.

(** The outer loop over the decks of the snapshot. *)
Fixpoint scanDecks (deckDocs : list (string * Deck.t)) : M (option Item) :=
  match deckDocs with
  | [] => ret None
  | (deckId, deck) :: rest =>
      pagesSnapshot <- Db.queryPages env deckId ;;
      found <- scanPages deckId deck pagesSnapshot ;;
      match found with
      | Some item => ret (Some item)
      | None => scanDecks rest
      end
  end.

Definition findPageToCritique : M (option Item) :=
  decksSnapshot <- Db.queryDecks env ANALYZING Deck.processedAt 10 ;;
  match decksSnapshot with
  | [] => ret None
  | _ :: _ => scanDecks decksSnapshot
  end.

Definition checkIfDeckComplete (deckId : string) (pageCount : Z) : M unit :=
  insightsSnapshot <- Db.queryAllInsights env deckId ;;
  let insightCount := Z.of_nat (length insightsSnapshot) in
  let expectedInsights := (pageCount * 1)%Z in
  if (expectedInsights <=? insightCount)%Z
  then
    Db.updateDeck env deckId (Deck.withStatus COMPLETE) ;;
    Logger.add "Deck analysis complete! ðŸŽ‰"
      (Some (<["totalInsights" := VNum insightCount]> ∅))
  else ret tt.

End WithEnv.
End Critic.

(** ** Scheduler: the overlap guard (actors/scheduler/index.ts) *)

Module Scheduler.

(** How the promise returned by a job function settles. A job function that
    throws before returning a promise is covered by [Rejected]. *)
Inductive Settlement :=
| Resolved
| Rejected (error : JS.Thrown).

(** [runningJobs] is the module-level map. [inFlight] lists the job bodies
    that were started and have not settled, [invocations] every call of an
    underlying job function so far. *)
Record State := mkState {
  runningJobs : gmap string bool;
  inFlight : list string;
  invocations : list string;
  console : list ConsoleLine }.

Definition initial : State := mkState ∅ [] [] [].

(** [runningJobs.get(jobName)] used as a condition. *)
Definition isRunning (jobName : string) (st : State) : bool :=
  match runningJobs st !! jobName with
  | Some b => b
  | None => false
  end.

(** A call of the function [preventOverlap(jobName, jobFn)] returns, up to
    the point where it awaits the promise of [jobFn]. *)
Definition call (jobName : string) (st : State) : State :=
  if isRunning jobName st
  then mkState (runningJobs st) (inFlight st) (invocations st)
         (console st ++ [ConsoleLog ("Skipping " +:+ jobName +:+ " (previous run still active)") None])
  else mkState (<[jobName := true]> (runningJobs st))
         (inFlight st ++ [jobName]) (invocations st ++ [jobName]) (console st).

Fixpoint removeFirst (jobName : string) (l : list string) : list string :=
  match l with
  | [] => []
  | x :: r => if bool_decide (x = jobName) then r else x :: removeFirst jobName r
  end.

(** The awaited promise of a started body settles: the [catch] block logs a
    rejection, the [finally] block clears the flag, and the promise of the
    wrapper resolves. There is nothing to resume when no body of that job
    is in flight. *)
Definition resume (jobName : string) (s : Settlement) (st : State) : option State :=
  if bool_decide (jobName ∈ inFlight st)
  then
    let console' :=
      match s with
      | Resolved => console st
      | Rejected e => console st ++ [ConsoleError (jobName +:+ " error:") (Some e)]
      end in
    Some (mkState (<[jobName := false]> (runningJobs st))
            (removeFirst jobName (inFlight st)) (invocations st) console')
  else None.

Inductive Event :=
| Tick (jobName : string)
| Settle (jobName : string) (s : Settlement).

Definition step (e : Event) (st : State) : option State :=
  match e with
  | Tick jobName => Some (call jobName st)
  | Settle jobName s => resume jobName s st
  end.

Fixpoint run (events : list Event) (st : State) : option State :=
  match events with
  | [] => Some st
  | e :: rest =>
      match step e st with
      | Some st' => run rest st'
      | None => None
      end
  end.

Definition occurrences (jobName : string) (l : list string) : nat :=
  length (List.filter (fun x => bool_decide (x = jobName)) l).

(** How often the underlying function of a job has been called. *)
Definition invoked (jobName : string) (st : State) : nat :=
  occurrences jobName (invocations st).

(** How many bodies of a job are in flight. *)
Definition running (jobName : string) (st : State) : nat :=
  occurrences jobName (inFlight st).

(** The flag of a job is set exactly while one body of it is in flight. *)
Definition guarded (st : State) : Prop :=
  forall jobName,
    running jobName st = if isRunning jobName st then 1 else 0.

End Scheduler.

(** ** Vocabulary of the specification *)

Module Spec.

(** The characters of [s] at the positions [a], ..., [b - 1]: the slice of
    the text "from character a to b". *)
Definition charSlice (s : JS.Text) (a b : nat) : JS.Text :=
  take (b - a) (drop a s).

(** The number of words of a text: the positions where a character that
    is not white space follows white space or starts the text. *)
Fixpoint wordStarts (s : JS.Text) (afterSpace : bool) : nat :=
  match s with
  | [] => 0
  | c :: r =>
      if JS.isWhiteSpace c then wordStarts r true
      else (if afterSpace then 1 else 0) + wordStarts r false
  end.

Definition wordsIn (s : JS.Text) : nat := wordStarts s true.

(** The code units a trim removes, one by one: the white space and the line
    terminators of JavaScript. *)
Definition whiteSpace : list N :=
  [9; 10; 11; 12; 13; 32; 160; 5760; 8192; 8193; 8194; 8195; 8196; 8197; 8198;
   8199; 8200; 8201; 8202; 8232; 8233; 8239; 8287; 12288; 65279]%N.

(** [t] is [s] trimmed: [s] is [t] between two runs of white space, and [t]
    neither starts nor ends with white space. *)
Definition trimmed (s t : JS.Text) : Prop :=
  exists l r,
    s = l ++ t ++ r /\
    Forall (fun c => c ∈ whiteSpace) l /\
    Forall (fun c => c ∈ whiteSpace) r /\
    (forall c, head t = Some c -> c ∉ whiteSpace) /\
    (forall c, last t = Some c -> c ∉ whiteSpace).

(** The number a text of decimal digits denotes, read from the left on top
    of [acc]. *)
Definition digitsValue (acc : nat) (ds : JS.Text) : nat :=
  fold_left (fun acc c => 10 * acc + (N.to_nat c - 48)) ds acc.

(** [ds] is the decimal numeral of [n]: digits "0" to "9" that denote [n],
    without a leading zero. *)
Definition numeral (n : nat) (ds : JS.Text) : Prop :=
  ds <> [] /\
  Forall (fun c => (48 <= c <= 57)%N) ds /\
  (head ds = Some 48%N -> ds = [48%N]) /\
  digitsValue 0 ds = n.

(** [t] is the text "[Page {i} - No text extracted]". *)
Definition placeholderText (i : nat) (t : JS.Text) : Prop :=
  exists ds,
    numeral i ds /\
    t = JS.lit "[Page " ++ ds ++ JS.lit " - No text extracted]".

(** [t] is the text of page [i], counted from 1, when [c] characters go to
    a page: the trimmed slice of the full text from character [(i - 1) * c]
    to [min (i * c) L], or the placeholder when that is empty. *)
Definition pageText (fullText : JS.Text) (c i : nat) (t : JS.Text) : Prop :=
  exists slice,
    trimmed (charSlice fullText ((i - 1) * c) (Nat.min (i * c) (length fullText)))
      slice /\
    match slice with
    | [] => placeholderText i t
    | _ :: _ => t = slice
    end.

(** The outcome of extracting a deck whose file holds two pages' worth of
    text: two page documents, numbered 1 and 2 and stored in one batch,
    the first with the trimmed characters before position [cut], the second
    with the trimmed characters from [cut] up to [total], each with the
    number of its words; the deck is under analysis with a page count
    of 2. *)
Definition twoPageOutcome (fullText : JS.Text) (cut total : nat) (deckId : string)
    (w' : World) : Prop :=
  exists id1 id2 p1 p2,
    pages (store w') !! deckId = Some [(id1, p1); (id2, p2)] /\
    CommitBatch deckId 2 ∈ calls w' /\
    Page.pageNumber p1 = 1 /\ Page.pageNumber p2 = 2 /\
    Page.text p1 = JS.trim (charSlice fullText 0 cut) /\
    Page.text p2 = JS.trim (charSlice fullText cut total) /\
    Page.wordCount p1 = wordsIn (Page.text p1) /\
    Page.wordCount p2 = wordsIn (Page.text p2) /\
    Deck.status <$> decks (store w') !! deckId = Some ANALYZING /\
    Deck.pageCount <$> decks (store w') !! deckId = Some 2%Z.

(** No call of the run is rejected. *)
Definition faultless (env : Env) : Prop := forall k, fault env k = None.

(** The deck holds an insight of type "problem" for page number [n]. *)
Definition hasProblemInsight (fs : Firestore) (deckId : string) (n : nat) : Prop :=
  Exists (fun i => Insight.pageNumber i = n /\ Insight.type i = PROBLEM)
    (Db.insightsOf deckId fs).

Definition critiqued (fs : Firestore) (it : Critic.Item) : Prop :=
  hasProblemInsight fs (Critic.deckId it) (Page.pageNumber (Critic.page it)).

(** The pages of the given decks in scanning order: deck after deck, the
    pages of each deck as the page query lists them. *)
Definition candidates (fs : Firestore) (scanned : list (string * Deck.t)) :
    list Critic.Item :=
  flat_map
    (fun dd => map (fun pp => Critic.mkItem dd.1 pp.1 pp.2 dd.2) (Db.selectPages dd.1 fs))
    scanned.

(** [r] is what a scan of [items] in order has to return: the first item
    that is not critiqued, or nothing when every item is critiqued. *)
Definition firstUncritiqued (fs : Firestore) (items : list Critic.Item)
    (r : option Critic.Item) : Prop :=
  match r with
  | Some it =>
      exists before after,
        items = before ++ it :: after /\
        ~ critiqued fs it /\
        forall x, x ∈ before -> critiqued fs x
  | None => forall x, x ∈ items -> critiqued fs x
  end.

(** [triple P m Q E]: started in a world that satisfies [P], the
    computation [m] either returns a value [a] in a world that satisfies
    [Q a], or throws a value [e] in a world that satisfies [E e]. *)
Definition triple {A} (P : World -> Prop) (m : M A) (Q : A -> World -> Prop)
    (E : JS.Thrown -> World -> Prop) : Prop :=
  forall w, P w ->
    match m w with
    | (Returned a, w') => Q a w'
    | (Threw e, w') => E e w'
    end.

(** The computation changes neither the decks nor the logger. *)
Definition inert {A} (m : M A) : Prop :=
  forall w, decks (store (m w).2) = decks (store w) /\ logger (m w).2 = logger w.

(** Every deck in status error in [w] was the same in [w0]. *)
Definition noNewError (w0 w : World) : Prop :=
  forall id d, decks (store w) !! id = Some d -> Deck.status d = ERROR ->
               decks (store w0) !! id = Some d.

Definition inSession (w : World) : Prop := is_Some (session (logger w)).

Definition working (w0 w : World) : Prop := noNewError w0 w /\ inSession w.

End Spec.

(** ** Concrete worlds *)

Module Sample.

(** A deck as the upload page creates it. *)
Definition uploaded : Deck.t :=
  Deck.mk "pitch.pdf" 2048 "application/pdf" "decks/pitch.pdf" 100 None
    UPLOADED 0 None None.

Definition freshLogger : LoggerState := mkLogger None [] emptyContext.

(** One uploaded deck and nothing else. *)
Definition world : World :=
  mkWorld (mkFirestore (<["d1" := uploaded]> ∅) ∅ ∅ []) freshLogger [] [] 1000 0.

(** Every call succeeds; the file parses to two pages' worth of text. *)
Definition env : Env :=
  mkEnv (fun _ => None) (fun _ => [])
    (fun _ => mkPdfData (JS.lit "PageOneText" ++ JS.lit "PageTwoText") 2)
    (fun n => "page-" +:+ JS.showNat n) (fun _ => "0.00 MB").

(** The third awaited call of a run, the download of the file, rejects. *)
Definition envDownloadFails : Env :=
  mkEnv (fun k => if Nat.eqb k 2 then Some (JS.ErrorObject "No such object") else None)
    (fun _ => [])
    (fun _ => mkPdfData (JS.lit "PageOneText" ++ JS.lit "PageTwoText") 2)
    (fun n => "page-" +:+ JS.showNat n) (fun _ => "0.00 MB").

(** Every call succeeds; the file parses to ten characters reported as
    two pages: a blank, "ab", a tab and a line feed, then five blanks. *)
Definition envBlankPage : Env :=
  mkEnv (fun _ => None) (fun _ => [])
    (fun _ => mkPdfData (JS.lit " ab" ++ [9; 10]%N ++ JS.lit "     ") 2)
    (fun n => "page-" +:+ JS.showNat n) (fun _ => "0.00 MB").

(** The write of the automation log rejects. *)
Definition envLogFails : Env :=
  mkEnv (fun _ => Some (JS.ErrorObject "UNAVAILABLE")) (fun _ => [])
    (fun _ => mkPdfData [] 0) (fun n => "page-" +:+ JS.showNat n) (fun _ => "0.00 MB").

Definition openSession : AutomationLog.t :=
  AutomationLog.mk "critique_problem" None Completed 1000 None [] (Some []) ∅.

(** A session of the Extractor on the deck "d1". *)
Definition deckSession : AutomationLog.t :=
  AutomationLog.mk "extract_pdf" (Some "d1") Completed 1000 None [] (Some []) ∅.

(** The world of the uploaded deck after the session has been started and
    the deck context set. *)
Definition worldInDeckSession : World :=
  mkWorld (mkFirestore (<["d1" := uploaded]> ∅) ∅ ∅ [])
    (mkLogger (Some deckSession) [] (mkDeckContext (Some "d1") (Some "pitch.pdf")))
    [] [] 1000 0.

(** A world in which a session has been started. *)
Definition worldInSession : World :=
  mkWorld (mkFirestore ∅ ∅ ∅ []) (mkLogger (Some openSession) [] emptyContext)
    [] [] 1000 0.

Definition analyzing (processedAt : Z) (pageCount : Z) : Deck.t :=
  Deck.mk "pitch.pdf" 2048 "application/pdf" "decks/pitch.pdf" 100
    (Some processedAt) ANALYZING pageCount None None.

Definition page (n : nat) (text : string) : Page.t :=
  Page.mk n (JS.lit text) 1000 (Extractor.wordCount (JS.lit text)) EXTRACTED.

Definition problem (n : nat) : Insight.t :=
  Insight.mk PROBLEM n 7 "ok" "fine" "Critic" 2000.

(** A deck of three pages, each with its "problem" insight. *)
Definition worldCritiqued : World :=
  mkWorld
    (mkFirestore
       (<["d1" := analyzing 1000 3]> ∅)
       (<["d1" := [("p1", page 1 "one"); ("p2", page 2 "two"); ("p3", page 3 "three")]]> ∅)
       (<["d1" := [problem 1; problem 2; problem 3]]> ∅)
       [])
    freshLogger [] [] 3000 0.

(** Two decks under analysis; the older one, "d2", has its first page
    critiqued and its second page not yet. *)
Definition worldHalfCritiqued : World :=
  mkWorld
    (mkFirestore
       (<["d1" := analyzing 1500 1]> (<["d2" := analyzing 1000 2]> ∅))
       (<["d1" := [("q1", page 1 "uno")]]>
          (<["d2" := [("p2", page 2 "two"); ("p1", page 1 "one")]]> ∅))
       (<["d2" := [problem 1]]> ∅)
       [])
    freshLogger [] [] 3000 0.

End Sample.

(** ** Display helpers of the cost ledger (config/openai-pricing.ts) *)

Module Display.

Local Open Scope float_scope.

(** [formatCost]; [toFixed4 x] stands for [x.toFixed(4)]. *)
Definition formatCost (toFixed4 : float -> string) (costUSD : float) : string :=
  if costUSD <? 0.01
  then ("$" +:+ toFixed4 (costUSD * 1000) +:+ "‰")%string
  else ("$" +:+ toFixed4 costUSD)%string.

(** The own properties of the object literal [names]. *)
Definition names : gmap string string :=
  list_to_map
    [ ("gpt-4o", "GPT-4o"); ("gpt-4o-mini", "GPT-4o Mini");
      ("gpt-4-turbo", "GPT-4 Turbo"); ("gpt-3.5-turbo", "GPT-3.5 Turbo") ]%string.

(** What [names[model] || model] evaluates to: a string, or the member of
    [Object.prototype] the read finds for one of its property names. *)
Inductive DisplayName :=
| Name (text : string)
| Member (key : string).

Definition getModelDisplayName (model : string) : DisplayName :=
  match names !! model with
  | Some name => if JS.truthy name then Name name else Name model
  | None =>
      if bool_decide (model ∈ Pricing.objectPrototypeKeys)
      then Member model
      else Name model
  end.

End Display.

(** ** The AI service and the cost records (actors/servicer, utils/costTracker.ts) *)

Module AICost.
Record t := mk {
  model : string;
  tokensPrompt : float;
  tokensCompletion : float;
  totalTokens : float;
  costUSD : float;
  action : string;
  actorName : string;
  deckId : option string;
  pageNumber : option nat;
  timestamp : Z }.
End AICost.

Module AI.

(** [CritiqueResult] *)
Record CritiqueResult := mkCritiqueResult {
  rating : Z;
  feedback : string;
  reasoning : string }.

Record Usage := mkUsage {
  promptTokens : float;
  completionTokens : float;
  totalTokens : float;
  costUSD : float }.

(** [AIResponse<CritiqueResult>] *)
Record Response := mkResponse {
  result : CritiqueResult;
  usage : Usage }.

Definition withCostUSD (cost : float) (r : Response) : Response :=
  mkResponse (result r)
    (mkUsage (promptTokens (usage r)) (completionTokens (usage r))
       (totalTokens (usage r)) cost).

(** The arguments of [openai.chat.completions.create] that vary. *)
Record ChatRequest := mkChatRequest {
  model : string;
  systemMessage : string;
  prompt : JS.Text;
  temperature : float }.

Record CompletionUsage := mkCompletionUsage {
  prompt_tokens : float;
  completion_tokens : float;
  total_tokens : float }.

(** What the service answers: of each choice the [message.content], which
    may be [null], and the [usage], which may be missing. *)
Record ChatCompletion := mkChatCompletion {
  choices : list (option string);
  completionUsage : option CompletionUsage }.

(** The [options] argument of [callOpenAI]. *)
Record Options := mkOptions {
  optModel : option string;
  optTemperature : option float;
  optSystemMessage : option string }.

End AI.

(** The awaited calls of the Critic beyond those of [Call]. *)
Inductive Request :=
| CreateChatCompletion (request : AI.ChatRequest)
| AddAICost
| AddInsight (deckId : string).

(** The world of the Critic: the world of the other actors, the [aiCosts]
    collection in creation order, and the requests made so far. *)
Record Office := mkOffice {
  world : World;
  aiCosts : list AICost.t;
  requests : list Request }.

(** What the Critic's run depends on besides [Env]. [refuse k] is the value
    the k-th request rejects with, if it rejects; [complete] is the answer
    of the service to a request it accepts; [parseJson s] is the outcome of
    [JSON.parse(s) as CritiqueResult], a thrown value or a result of the
    asserted type; the remaining fields render or store a number that need
    not be integral, and render a member of [Object.prototype]. *)
Record Service := mkService {
  refuse : nat -> option JS.Thrown;
  complete : AI.ChatRequest -> AI.ChatCompletion;
  parseJson : string -> JS.Thrown + AI.CritiqueResult;
  toFixed4 : float -> string;
  showNumber : float -> string;
  showMember : string -> string;
  numberValue : float -> JsValue }.

Definition G (A : Type) : Type := Office -> Outcome A * Office.

Definition retG {A} (a : A) : G A := fun o => (Returned a, o).

Definition bindG {A B} (m : G A) (k : A -> G B) : G B :=
  fun o =>
    match m o with
    | (Returned a, o') => k a o'
    | (Threw e, o') => (Threw e, o')
    end.

Definition throwG {A} (e : JS.Thrown) : G A := fun o => (Threw e, o).

Definition tryCatchG {A} (body : G A) (handler : JS.Thrown -> G A) : G A :=
  fun o =>
    match body o with
    | (Returned a, o') => (Returned a, o')
    | (Threw e, o') => handler e o'
    end.

(** A computation of the other actors, run on the world of the office. *)
Definition lift {A} (m : M A) : G A :=
  fun o =>
    match m (world o) with
    | (r, w') => (r, mkOffice w' (aiCosts o) (requests o))
    end.

Declare Scope g_scope.
Delimit Scope g_scope with G.
Notation "x <- m ;; k" := (bindG m (fun x => k))
  (at level 100, m at next level, right associativity) : g_scope.
Notation "m ;; k" := (bindG m (fun _ => k))
  (at level 100, right associativity) : g_scope.

(** Runs of a job of the Critic one after the other. *)
Fixpoint rounds {E : Type} (job : E -> G unit) (envs : list E) : G unit :=
  match envs with
  | [] => retG tt
  | env :: rest => bindG (job env) (fun _ => rounds job rest)
  end.

Module Prompter.

Definition quote : string := String (Ascii.ascii_of_nat 34) EmptyString.

(** [CritiqueContext] *)
Record CritiqueContext := mkContext {
  pageNumber : nat;
  totalPages : Z;
  fileName : string }.

(** [promptCritiqueProblem] *)
Definition promptCritiqueProblem (pageText : JS.Text) (context : CritiqueContext) :
    JS.Text :=
  JS.lit "You are an expert venture capitalist who has reviewed thousands of pitch decks.

You are analyzing slide "
  ++ JS.lit (JS.showNat (pageNumber context))
  ++ JS.lit " of "
  ++ JS.lit (Logger.showZ (totalPages context))
  ++ JS.lit " from "
  ++ JS.lit quote ++ JS.lit (fileName context) ++ JS.lit quote
  ++ JS.lit ".

SLIDE CONTENT:
"
  ++ pageText
  ++ JS.lit "

TASK:
Evaluate the problem statement presented on this slide. A strong problem statement should:
- Clearly articulate a specific, significant pain point
- Quantify the problem's impact or scale when possible
- Resonate emotionally with the audience
- Be specific rather than generic
- Demonstrate deep understanding of the customer

Provide your analysis in the following JSON format:
{
  "
  ++ JS.lit quote ++ JS.lit "rating" ++ JS.lit quote ++ JS.lit ": <number 1-10>,
  "
  ++ JS.lit quote ++ JS.lit "feedback" ++ JS.lit quote ++ JS.lit ": "
  ++ JS.lit quote ++ JS.lit "<2-3 sentences of constructive criticism>" ++ JS.lit quote
  ++ JS.lit ",
  "
  ++ JS.lit quote ++ JS.lit "reasoning" ++ JS.lit quote ++ JS.lit ": "
  ++ JS.lit quote ++ JS.lit "<1-2 sentences explaining your rating>" ++ JS.lit quote
  ++ JS.lit "
}

Rating scale:
- 9-10: Exceptional - compelling, quantified, emotionally resonant
- 7-8: Strong - clear and specific, minor improvements needed
- 5-6: Adequate - problem stated but generic or lacks impact
- 3-4: Weak - vague, doesn't quantify, or poorly articulated
- 1-2: Poor - problem unclear or missing entirely

Be direct and honest. VCs appreciate brutal honesty over false encouragement.".

End Prompter.

(** A request is recorded, and rejects when the service says so. *)
Definition sendRequest (svc : Service) (r : Request) : G unit :=
  fun o =>
    match refuse svc (length (requests o)) with
    | Some e => (Threw e, mkOffice (world o) (aiCosts o) (requests o ++ [r]))
    | None => (Returned tt, mkOffice (world o) (aiCosts o) (requests o ++ [r]))
    end.

(** [collection(AI_COSTS).add(costData)], once the request is accepted. *)
Definition withAICost (costData : AICost.t) (o : Office) : Office :=
  mkOffice (world o) (aiCosts o ++ [costData]) (requests o).

Module CostTracker.

Local Open Scope g_scope.

(** [calculateCost] as its caller sees it: the warnings go to the console.
    Two levels of calls are all the function ever makes; running out of
    them would be a stack overflow. *)
Definition calculateCost (model : string) (promptTokens completionTokens : float) :
    G float :=
  match Pricing.calculateCost 2 model promptTokens completionTokens with
  | Some (cost, warnings) =>
      lift (fold_right (fun text rest => bind (consoleWrite (ConsoleWarn text)) (fun _ => rest))
              (ret tt) warnings) ;;
      retG cost
  | None => throwG (JS.ErrorObject "Maximum call stack size exceeded")
  end.

Section WithService.
Variable svc : Service.

(** [`${getModelDisplayName(model)}`] *)
Definition showDisplayName (n : Display.DisplayName) : string :=
  match n with
  | Display.Name text => text
  | Display.Member key => showMember svc key
  end.

(** [trackAICost]; the [context] argument is given by its three fields. *)
Definition trackAICost (model : string) (usage : AI.CompletionUsage) (action : string)
    (actorName : string) (deckId : option string) (pageNumber : option nat) :
    G AICost.t :=
  costUSD <- calculateCost model (AI.prompt_tokens usage) (AI.completion_tokens usage) ;;
  t <- lift now ;;
  let costData :=
    AICost.mk model (AI.prompt_tokens usage) (AI.completion_tokens usage)
      (AI.total_tokens usage) costUSD action actorName deckId pageNumber t in
  sendRequest svc AddAICost ;;
  (fun o => (Returned tt, withAICost costData o)) ;;
  lift (consoleWrite
          (ConsoleLog
             (showDisplayName (Display.getModelDisplayName model) +:+ ": "
              +:+ showNumber svc (AI.total_tokens usage) +:+ " tokens = "
              +:+ Display.formatCost (toFixed4 svc) costUSD)
             None)) ;;
  retG costData.

End WithService.
End CostTracker.

Module Servicer.

Local Open Scope g_scope.

Definition DEFAULT_MODEL : string := "gpt-4o-mini".
Definition DEFAULT_TEMPERATURE : float := 0.3%float.

(** [value || fallback] for an optional string. *)
Definition orElse (value : option string) (fallback : string) : string :=
  match value with
  | Some s => if JS.truthy s then s else fallback
  | None => fallback
  end.

Section WithService.
Variable svc : Service.

(** [callOpenAI] for the result type [CritiqueResult]. *)
Definition callOpenAI (prompt : JS.Text) (options : AI.Options) : G AI.Response :=
  let model := orElse (AI.optModel options) DEFAULT_MODEL in
  let temperature := default DEFAULT_TEMPERATURE (AI.optTemperature options) in
  let systemMessage :=
    orElse (AI.optSystemMessage options)
      "You are a helpful assistant that responds in JSON format." in
  tryCatchG
    (let req := AI.mkChatRequest model systemMessage prompt temperature in
     sendRequest svc (CreateChatCompletion req) ;;
     let response := complete svc req in
     content <- match AI.choices response with
                | [] =>
                    throwG (JS.ErrorObject
                      "Cannot read properties of undefined (reading 'message')")
                | first :: _ => retG (orElse first "{}")
                end ;;
     result <- match parseJson svc content with
               | inl error => throwG error
               | inr value => retG value
               end ;;
     match AI.completionUsage response with
     | None =>
         throwG (JS.ErrorObject
           "Cannot read properties of undefined (reading 'prompt_tokens')")
     | Some usage =>
         retG (AI.mkResponse result
                 (AI.mkUsage (AI.prompt_tokens usage) (AI.completion_tokens usage)
                    (AI.total_tokens usage) 0%float))
     end)
    (fun error =>
       lift (consoleWrite (ConsoleError "OpenAI API error:" (Some error))) ;;
       throwG error).

(** [critiquePage]; the [context] argument is given by its four fields. *)
Definition critiquePage (prompt : JS.Text) (deckId : string) (pageNumber : nat)
    (actorName action : string) : G AI.Response :=
  response <- callOpenAI prompt
    (AI.mkOptions None None
       (Some "You are an expert venture capitalist reviewing pitch decks. Respond in JSON format.")) ;;
  costData <- CostTracker.trackAICost svc DEFAULT_MODEL
    (AI.mkCompletionUsage (AI.promptTokens (AI.usage response))
       (AI.completionTokens (AI.usage response)) (AI.totalTokens (AI.usage response)))
    action actorName (Some deckId) (Some pageNumber) ;;
  retG (AI.withCostUSD (AICost.costUSD costData) response).

End WithService.
End Servicer.

(** ** Critic: the job (actors/critic/index.ts) *)

Module CriticJob.

Local Open Scope g_scope.

Definition ACTOR_NAME : string := "Critic".

Section WithEnv.
Variable env : Env.
Variable svc : Service.

(** [collection(DECKS).doc(deckId).collection(INSIGHTS).add(insightData)] *)
Definition addInsight (deckId : string) (insightData : Insight.t) : G unit :=
  sendRequest svc (AddInsight deckId) ;;
  lift (modify (withStore (fun fs =>
    mkFirestore (decks fs) (pages fs)
      (<[deckId := Db.insightsOf deckId fs ++ [insightData]]> (insights fs))
      (automationLogs fs)))).

Definition critiqueProblemStatement : G unit :=
  lift (Logger.startSession "critique_problem" None) ;;
  tryCatchG
    (item <- lift (Critic.findPageToCritique env) ;;
     match item with
     | None => lift (Logger.endSession env (Some NoItemsFound) None)
     | Some (Critic.mkItem deckId pageId page deck) =>
         lift (Logger.setDeckContext deckId (Some (Deck.fileName deck))) ;;
         lift (Logger.add "Analyzing page"
                 (Some (<["pageNumber" := VNum (Z.of_nat (Page.pageNumber page))]>
                          (<["wordCount" := VNum (Z.of_nat (Page.wordCount page))]> ∅)))) ;;
         let prompt :=
           Prompter.promptCritiqueProblem (Page.text page)
             (Prompter.mkContext (Page.pageNumber page) (Deck.pageCount deck)
                (Deck.fileName deck)) in
         response <- Servicer.critiquePage svc prompt deckId (Page.pageNumber page)
                       ACTOR_NAME "critique_problem" ;;
         let rating := AI.rating (AI.result response) in
         let feedback := AI.feedback (AI.result response) in
         let reasoning := AI.reasoning (AI.result response) in
         lift (Logger.add "Critique complete"
                 (Some (<["rating" := VNum rating]>
                          (<["cost" := VStr ("$" +:+ toFixed4 svc
                                               (AI.costUSD (AI.usage response)))]> ∅)))) ;;
         t <- lift now ;;
         addInsight deckId
           (Insight.mk PROBLEM (Page.pageNumber page) rating feedback reasoning
              ACTOR_NAME t) ;;
         lift (Logger.add "Insight saved to Firestore" None) ;;
         lift (Critic.checkIfDeckComplete env deckId (Deck.pageCount deck)) ;;
         lift (Logger.endSession env (Some Completed)
                 (Some (<["pageNumber" := VNum (Z.of_nat (Page.pageNumber page))]>
                          (<["rating" := VNum rating]>
                             (<["costUSD" := numberValue svc
                                               (AI.costUSD (AI.usage response))]> ∅)))))
     end)
    (fun error =>
       lift (Logger.error "Critique failed" (Some error)) ;;
       lift (Logger.endSession env (Some Failed) None)).

End WithEnv.
End CriticJob.

(** ** The two jobs side by side *)

Module Pipeline.

(** A run of one of the two jobs the scheduler starts. *)
Inductive Run :=
| RunExtractor (env : Env)
| RunCritic (env : Env) (svc : Service).

Definition runJob (r : Run) : G unit :=
  match r with
  | RunExtractor env => lift (Extractor.extractPDFPages env)
  | RunCritic env svc => CriticJob.critiqueProblemStatement env svc
  end.

(** Runs of the jobs one after the other, in any order. *)
Definition schedule (runs : list Run) : G unit := rounds runJob runs.

End Pipeline.
(** ** Vocabulary of the further properties *)

(** Counting over a run of the scheduler. *)
Module Tally.
Import Scheduler.

(** The timer ticks of a job among the events. *)
Fixpoint ticks (jobName : string) (events : list Event) : nat :=
  match events with
  | [] => 0
  | Tick j :: rest => (if bool_decide (j = jobName) then 1 else 0) + ticks jobName rest
  | Settle _ _ :: rest => ticks jobName rest
  end.

(** The settlements of bodies of a job among the events. *)
Fixpoint settlements (jobName : string) (events : list Event) : nat :=
  match events with
  | [] => 0
  | Tick _ :: rest => settlements jobName rest
  | Settle j _ :: rest =>
      (if bool_decide (j = jobName) then 1 else 0) + settlements jobName rest
  end.

(** The line a skipped tick of the job writes. *)
Definition isSkipOf (jobName : string) (l : ConsoleLine) : bool :=
  match l with
  | ConsoleLog text None =>
      bool_decide (text = "Skipping " +:+ jobName +:+ " (previous run still active)")
  | _ => false
  end.

(** How many ticks of the job have been skipped so far. *)
Definition skipped (jobName : string) (st : State) : nat :=
  length (List.filter (isSkipOf jobName) (console st)).

End Tally.

(** What a job says to the logger between the start and the end of a
    session. *)
Module Transcript.

Inductive Entry :=
| Add (message : string) (data : option Data)
| Error (message : string) (error : option JS.Thrown)
| SetDeckContext (deckId : string) (fileName : option string).

Definition say (e : Entry) : M unit :=
  match e with
  | Add message data => Logger.add message data
  | Error message error => Logger.error message error
  | SetDeckContext deckId fileName => Logger.setDeckContext deckId fileName
  end.

Fixpoint perform (script : list Entry) : M unit :=
  match script with
  | [] => ret tt
  | e :: rest => say e ;; perform rest
  end.

(** The log entries of a script, stamped with the time [t]. *)
Definition added (t : Z) (script : list Entry) : list LogEntry.t :=
  flat_map (fun e => match e with
                     | Add message data => [LogEntry.mk t message data]
                     | _ => []
                     end) script.

(** The error texts of a script. *)
Definition reported (script : list Entry) : list string :=
  flat_map (fun e => match e with
                     | Error message error => [message +:+ ": " +:+ JS.errorTextOpt error]
                     | _ => []
                     end) script.

(** The deck id the session carries after the script. *)
Definition lastDeck (script : list Entry) (start : option string) : option string :=
  fold_left (fun acc e => match e with
                          | SetDeckContext deckId _ => Some deckId
                          | _ => acc
                          end) script start.

End Transcript.

(** Words for the texts of pages. *)
Module Wording.

(** The code units of the decimal digits. *)
Definition isDigit (c : N) : Prop := (48 <= c <= 57)%N.

End Wording.

(** Runs of a job one after the other, each in an environment of its own. *)
Fixpoint repeatedly {E : Type} (job : E -> M unit) (envs : list E) : M unit :=
  match envs with
  | [] => ret tt
  | env :: rest => job env ;; repeatedly job rest
  end.

(** What a job leaves alone. *)
Module Frame.

(** The computation changes neither the store nor the logger. *)
Definition quiet {A} (m : M A) : Prop :=
  forall w, store (m w).2 = store w /\ logger (m w).2 = logger w.

(** The deck [id] is the document [d], its pages are [ps], and the
    insights of all decks are [ins]. *)
Definition holds (id : string) (d : Deck.t) (ps : option (list (string * Page.t)))
    (ins : gmap string (list Insight.t)) (w : World) : Prop :=
  decks (store w) !! id = Some d /\
  pages (store w) !! id = ps /\
  insights (store w) = ins.

Definition holdsInSession (id : string) (d : Deck.t)
    (ps : option (list (string * Page.t))) (ins : gmap string (list Insight.t))
    (w : World) : Prop :=
  holds id d ps ins w /\ Spec.inSession w.

End Frame.

(** ** Vocabulary for the job of the Critic *)

Module Ledger.

(** What the Critic's job can change besides the logger, the console and
    the automation log: the decks, the pages, the insights and the cost
    records. *)
Definition View : Type :=
  gmap string Deck.t * gmap string (list (string * Page.t)) *
  gmap string (list Insight.t) * list AICost.t.

Definition view (o : Office) : View :=
  (decks (store (world o)), pages (store (world o)), insights (store (world o)),
   aiCosts o).

(** Triples for computations on the office, as [Spec.triple]. *)
Definition tripleG {A} (P : Office -> Prop) (m : G A) (Q : A -> Office -> Prop)
    (E : JS.Thrown -> Office -> Prop) : Prop :=
  forall o, P o ->
    match m o with
    | (Returned a, o') => Q a o'
    | (Threw e, o') => E e o'
    end.

(** The computation leaves the view as it is. *)
Definition gquiet {A} (m : G A) : Prop := forall o, view (m o).2 = view o.

(** The same for a computation of the other actors. *)
Definition quietly {A} (m : M A) : Prop :=
  forall w,
    decks (store (m w).2) = decks (store w) /\
    pages (store (m w).2) = pages (store w) /\
    insights (store (m w).2) = insights (store w).

(** The computation never throws. *)
Definition returns {A} (m : M A) : Prop := forall w, exists a, (m w).1 = Returned a.

(** An item the job may work on: a page of a deck under analysis that has
    no insight of type "problem". *)
Definition candidate (fs : Firestore) (it : Critic.Item) : Prop :=
  decks fs !! Critic.deckId it = Some (Critic.deck it) /\
  Deck.status (Critic.deck it) = ANALYZING /\
  (Critic.pageId it, Critic.page it) ∈ Db.pagesOf (Critic.deckId it) fs /\
  ~ Spec.critiqued fs it.

(** A run wrote the insight [i] for the item [it] and the cost record [c]. *)
Definition wrote (o o' : Office) (it : Critic.Item) (i : Insight.t) (c : AICost.t) :
    Prop :=
  candidate (store (world o)) it /\
  Insight.type i = PROBLEM /\
  Insight.pageNumber i = Page.pageNumber (Critic.page it) /\
  insights (store (world o')) =
    <[Critic.deckId it := Db.insightsOf (Critic.deckId it) (store (world o)) ++ [i]]>
      (insights (store (world o))) /\
  (decks (store (world o')) = decks (store (world o)) \/
   decks (store (world o')) =
     <[Critic.deckId it := Deck.withStatus COMPLETE (Critic.deck it)]>
       (decks (store (world o)))) /\
  aiCosts o' = aiCosts o ++ [c] /\
  AICost.deckId c = Some (Critic.deckId it) /\
  AICost.pageNumber c = Some (Page.pageNumber (Critic.page it)).

(** What a run of the job may have done: nothing but perhaps write one cost
    record, or write one insight and its cost record and perhaps complete
    the deck. *)
Definition outcome (o o' : Office) : Prop :=
  pages (store (world o')) = pages (store (world o)) /\
  ((decks (store (world o')) = decks (store (world o)) /\
    insights (store (world o')) = insights (store (world o)) /\
    exists l, aiCosts o' = aiCosts o ++ l /\ length l <= 1) \/
   exists it i c, wrote o o' it i c).

(** The stages a run goes through, as conditions on the view, given the
    office [o0] it started in: nothing written yet; the cost record
    written; the insight written as well; the deck completed as well. *)
Definition same (o0 : Office) (v : View) : Prop := v = view o0.

Definition costed (o0 : Office) (c : AICost.t) (v : View) : Prop :=
  v = (decks (store (world o0)), pages (store (world o0)), insights (store (world o0)),
       aiCosts o0 ++ [c]).

Definition insighted (o0 : Office) (it : Critic.Item) (i : Insight.t) (c : AICost.t)
    (v : View) : Prop :=
  v = (decks (store (world o0)), pages (store (world o0)),
       <[Critic.deckId it := Db.insightsOf (Critic.deckId it) (store (world o0)) ++ [i]]>
         (insights (store (world o0))),
       aiCosts o0 ++ [c]).

Definition completed (o0 : Office) (it : Critic.Item) (i : Insight.t) (c : AICost.t)
    (v : View) : Prop :=
  v = (<[Critic.deckId it := Deck.withStatus COMPLETE (Critic.deck it)]>
         (decks (store (world o0))),
       pages (store (world o0)),
       <[Critic.deckId it := Db.insightsOf (Critic.deckId it) (store (world o0)) ++ [i]]>
         (insights (store (world o0))),
       aiCosts o0 ++ [c]).

(** A view that is one of the outcomes of a run started in [o0]. *)
Definition any (o0 : Office) (v : View) : Prop :=
  forall o, view o = v -> outcome o0 o.

(** The number of insights of type "problem" for a page. *)
Definition problemInsights (fs : Firestore) (deckId : string) (n : nat) : nat :=
  length
    (List.filter
       (fun i => Nat.eqb (Insight.pageNumber i) n && bool_decide (Insight.type i = PROBLEM))
       (Db.insightsOf deckId fs)).

(** No page has two insights of type "problem". *)
Definition oneProblemPerPage (fs : Firestore) : Prop :=
  forall deckId n, problemInsights fs deckId n <= 1.

(** What a run without work may do to the office: nothing but append up to
    [n] records to the automation log. No request is sent. *)
Definition idle (n : nat) (o o' : Office) : Prop :=
  decks (store (world o')) = decks (store (world o)) /\
  pages (store (world o')) = pages (store (world o)) /\
  insights (store (world o')) = insights (store (world o)) /\
  aiCosts o' = aiCosts o /\
  requests o' = requests o /\
  exists l,
    automationLogs (store (world o')) = automationLogs (store (world o)) ++ l /\
    length l <= n.

(** A computation of the other actors that does no more to the store. *)
Definition logging (n : nat) {A} (m : M A) : Prop :=
  forall w,
    decks (store (m w).2) = decks (store w) /\
    pages (store (m w).2) = pages (store w) /\
    insights (store (m w).2) = insights (store w) /\
    exists l,
      automationLogs (store (m w).2) = automationLogs (store w) ++ l /\
      length l <= n.

End Ledger.

(** ** Vocabulary and samples for single runs of the Critic *)

Module Desk.

Local Open Scope float_scope.

(** The request [critiquePage] sends for an item. *)
Definition chatRequest (it : Critic.Item) : AI.ChatRequest :=
  AI.mkChatRequest "gpt-4o-mini"
    "You are an expert venture capitalist reviewing pitch decks. Respond in JSON format."
    (Prompter.promptCritiqueProblem (Page.text (Critic.page it))
       (Prompter.mkContext (Page.pageNumber (Critic.page it))
          (Deck.pageCount (Critic.deck it)) (Deck.fileName (Critic.deck it))))
    0.3.

(** The line [trackAICost] prints for a call of the default model. *)
Definition costLine (svc : Service) (usage : AI.CompletionUsage) (cost : float) :
    ConsoleLine :=
  ConsoleLog
    ("GPT-4o Mini: " +:+ showNumber svc (AI.total_tokens usage) +:+ " tokens = "
     +:+ Display.formatCost (toFixed4 svc) cost)%string
    None.

(** The page the Critic works on next when no query is rejected: the first
    page without a "problem" insight among the pages of the scanned decks. *)
Definition next (fs : Firestore) (it : Critic.Item) : Prop :=
  Spec.firstUncritiqued fs
    (Spec.candidates fs (Db.selectDecks ANALYZING Deck.processedAt 10 fs)) (Some it).

(** The world differs from [w] at most in the awaited calls made. *)
Definition onlyCalls (w w' : World) : Prop :=
  exists made,
    w' = mkWorld (store w) (logger w) (console w) (calls w ++ made) (clock w)
           (generatedIds w).

Definition verdict : AI.CritiqueResult :=
  AI.mkCritiqueResult 7 "Quantify the pain." "Clear but generic.".

(** A member of a JSON object whose value is a text. *)
Definition member (name value : string) : string :=
  Prompter.quote +:+ name +:+ Prompter.quote +:+ ": " +:+
  Prompter.quote +:+ value +:+ Prompter.quote.

(** The JSON text of [verdict]. *)
Definition answerText : string :=
  "{ " +:+ Prompter.quote +:+ "rating" +:+ Prompter.quote +:+ ": 7, "
  +:+ member "feedback" "Quantify the pain." +:+ ", "
  +:+ member "reasoning" "Clear but generic." +:+ " }".

Definition answer : AI.ChatCompletion :=
  AI.mkChatCompletion [Some answerText]
    (Some (AI.mkCompletionUsage 1200 80 1280)).

(** An answer that is not JSON. *)
Definition garbled : AI.ChatCompletion :=
  AI.mkChatCompletion [Some "{ rating: 7 }"%string]
    (Some (AI.mkCompletionUsage 1200 80 1280)).

(** A service that accepts every request. *)
Definition service : Service :=
  mkService (fun _ => None) (fun _ => answer) (fun _ => inr verdict)
    (fun _ => "0.0002"%string) (fun _ => "1280"%string)
    (fun _ => "function () { [native code] }"%string) (fun _ => VStr "0.000228").

(** The service rejects the chat completion, the first request of a run. *)
Definition serviceDown : Service :=
  mkService (fun k => if Nat.eqb k 0 then Some (JS.ErrorObject "429 Too Many Requests")
                      else None)
    (fun _ => answer) (fun _ => inr verdict)
    (fun _ => "0.0002"%string) (fun _ => "1280"%string)
    (fun _ => "function () { [native code] }"%string) (fun _ => VStr "0.000228").

(** The write of the insight, the third request of a run, is rejected. *)
Definition serviceInsightFails : Service :=
  mkService (fun k => if Nat.eqb k 2 then Some (JS.ErrorObject "UNAVAILABLE") else None)
    (fun _ => answer) (fun _ => inr verdict)
    (fun _ => "0.0002"%string) (fun _ => "1280"%string)
    (fun _ => "function () { [native code] }"%string) (fun _ => VStr "0.000228").

(** The service answers with a text that is not JSON. *)
Definition serviceGarbled : Service :=
  mkService (fun _ => None) (fun _ => garbled)
    (fun _ => inl (JS.ErrorObject "Unexpected token r in JSON at position 2"))
    (fun _ => "0.0002"%string) (fun _ => "1280"%string)
    (fun _ => "function () { [native code] }"%string) (fun _ => VStr "0.000228").

(** The service rejects every request. *)
Definition serviceOff : Service :=
  mkService (fun _ => Some (JS.ErrorObject "ECONNREFUSED")) (fun _ => answer)
    (fun _ => inr verdict)
    (fun _ => "0.0002"%string) (fun _ => "1280"%string)
    (fun _ => "function () { [native code] }"%string) (fun _ => VStr "0.000228").

(** Two decks under analysis, the older one with its second page not yet
    critiqued; no cost record and no request so far. *)
Definition office : Office := mkOffice Sample.worldHalfCritiqued [] [].

(** The page the Critic finds in [office]. *)
Definition item : Critic.Item :=
  Critic.mkItem "d2" "p2" (Sample.page 2 "two") (Sample.analyzing 1000 2).

(** A deck left in status extracting, and a deck that was extracted from a
    file without pages. *)
Definition stranded : Deck.t := Deck.withStatus EXTRACTING Sample.uploaded.

Definition officeStranded : Office :=
  mkOffice
    (mkWorld (mkFirestore (<["d1" := stranded]> ∅) ∅ ∅ []) Sample.freshLogger [] [] 2000 0)
    [] [].

(** The file of every deck parses to no page at all. *)
Definition envNoPages : Env :=
  mkEnv (fun _ => None) (fun _ => []) (fun _ => mkPdfData [] 0)
    (fun n => "page-" +:+ JS.showNat n) (fun _ => "0.00 MB").

Definition officeUploaded : Office := mkOffice Sample.world [] [].

(** Ten decks under analysis that have no pages, and a newer deck under
    analysis whose one page has not been critiqued. *)
Definition pageless (n : Z) : Deck.t := Sample.analyzing n 0.

Definition officeCrowded : Office :=
  mkOffice
    (mkWorld
       (mkFirestore
          (list_to_map
             [ ("a0", pageless 1000); ("a1", pageless 1001); ("a2", pageless 1002);
               ("a3", pageless 1003); ("a4", pageless 1004); ("a5", pageless 1005);
               ("a6", pageless 1006); ("a7", pageless 1007); ("a8", pageless 1008);
               ("a9", pageless 1009); ("b0", Sample.analyzing 2000 1) ])
          (<["b0" := [("p1", Sample.page 1 "one")]]> ∅)
          ∅ [])
       Sample.freshLogger [] [] 3000 0)
    [] [].

End Desk.

(** * Properties *)

(** ** Cost ledger *)

Section PricingFacts.
Import Pricing.
Local Open Scope float_scope.

Lemma getProperty_fallback :
  getProperty "gpt-4o-mini" = Some (OwnPricing {| input := 0.150; output := 0.600 |}).
Proof. vm_compute. reflexivity. Qed.

Lemma getProperty_own model pricing :
  MODEL_PRICING !! model = Some pricing ->
  getProperty model = Some (OwnPricing pricing).
Proof. intros H. unfold getProperty. rewrite H. reflexivity. Qed.

Lemma getProperty_None model :
  getProperty model = None ->
  MODEL_PRICING !! model = None /\ model ∉ objectPrototypeKeys.
Proof.
  unfold getProperty. destruct (MODEL_PRICING !! model) eqn:E; [discriminate|].
  case_bool_decide; [discriminate|]. auto.
Qed.

Lemma calculateCost_S fuel model p c :
  calculateCost (S fuel) model p c =
    match getProperty model with
    | None =>
        match calculateCost fuel "gpt-4o-mini" p c with
        | Some (cost, warnings) => Some (cost, warning model :: warnings)
        | None => None
        end
    | Some pricing =>
        Some ((p / 1000000) * inputOf pricing + (c / 1000000) * outputOf pricing, [])
    end.
Proof. reflexivity. Qed.

(** For a model with an entry of its own the cost is the formula of the
    source, and no warning is printed. *)
Lemma calculateCost_known fuel model pricing p c :
  MODEL_PRICING !! model = Some pricing ->
  calculateCost (S fuel) model p c =
    Some ((p / 1000000) * input pricing + (c / 1000000) * output pricing, []).
Proof.
  intros H. rewrite calculateCost_S, (getProperty_own _ _ H). reflexivity.
Qed.

(** The fallback law for a model name that is neither in the table nor a
    property name of [Object.prototype]. *)
Lemma calculateCost_unknown fuel model p c :
  MODEL_PRICING !! model = None ->
  model ∉ objectPrototypeKeys ->
  exists cost,
    calculateCost (S (S fuel)) "gpt-4o-mini" p c = Some (cost, []) /\
    calculateCost (S (S fuel)) model p c = Some (cost, [warning model]).
Proof.
  intros Hown Hproto.
  exists ((p / 1000000) * 0.150 + (c / 1000000) * 0.600).
  assert (Hmini : forall n, calculateCost (S n) "gpt-4o-mini" p c =
            Some ((p / 1000000) * 0.150 + (c / 1000000) * 0.600, [])).
  { intros n. rewrite calculateCost_S, getProperty_fallback. reflexivity. }
  split; [apply Hmini|].
  rewrite calculateCost_S. unfold getProperty. rewrite Hown.
  rewrite bool_decide_eq_false_2 by assumption.
  rewrite Hmini. reflexivity.
Qed.

(** C9, at the input where the code departs from it: "constructor" is not a
    model of the pricing table, yet the table object answers the read with
    the member it inherits, so no fallback is taken: the cost of 1000 prompt
    and 1000 completion tokens comes out as NaN, without a warning, and
    differs from the cost under the fallback model. *)
Theorem calculateCost_constructor_is_nan :
  MODEL_PRICING !! "constructor" = None /\
  calculateCost 2 "constructor" 1000 1000 = Some (nan, []) /\
  (exists cost, calculateCost 2 "gpt-4o-mini" 1000 1000 = Some (cost, []) /\
                PrimFloat.is_nan cost = false) /\
  calculateCost 2 "constructor" 1000 1000 <> calculateCost 2 "gpt-4o-mini" 1000 1000.
Proof.
  split; [vm_compute; reflexivity|].
  split; [vm_compute; reflexivity|].
  split.
  - eexists. split; [vm_compute; reflexivity|]. vm_compute. reflexivity.
  - intros H.
    apply (f_equal (fun r => match r with
                             | Some (cost, _) => PrimFloat.is_nan cost
                             | None => false
                             end)) in H.
    vm_compute in H. discriminate.
Qed.

(** C10: [calculateCost] returns for every model and every pair of token
    counts as soon as two levels of calls are allowed: the fallback model is
    a key of the table, a recursive call is made (and a warning printed)
    only for a model without an entry in the table, and at most one is
    made. *)
Theorem calculateCost_total (model : string) (p c : float) :
  is_Some (MODEL_PRICING !! "gpt-4o-mini") /\
  exists cost warnings,
    (forall fuel, 2 <= fuel -> calculateCost fuel model p c = Some (cost, warnings)) /\
    length warnings <= 1 /\
    (warnings <> [] -> MODEL_PRICING !! model = None).
Proof.
  split; [vm_compute; eauto|].
  destruct (getProperty model) as [v|] eqn:E.
  - exists ((p / 1000000) * inputOf v + (c / 1000000) * outputOf v), [].
    split; [|split; [simpl; lia|congruence]].
    intros [|[|fuel]] Hf; try lia. rewrite calculateCost_S, E. reflexivity.
  - exists ((p / 1000000) * 0.150 + (c / 1000000) * 0.600), [warning model].
    split; [|split; [simpl; lia|]].
    + intros [|[|fuel]] Hf; try lia. rewrite calculateCost_S, E.
      rewrite calculateCost_S, getProperty_fallback. reflexivity.
    + intros _. apply getProperty_None in E. tauto.
Qed.

End PricingFacts.

(** ** Text primitives *)

Section TextFacts.

Example isWhiteSpace_samples :
  map JS.isWhiteSpace [9; 10; 13; 32; 160; 8200; 12288; 65279]%N = repeat true 8 /\
  map JS.isWhiteSpace [0; 8; 14; 65; 8203; 8234]%N = repeat false 6.
Proof. split; reflexivity. Qed.

Lemma trimStart_spec (s : JS.Text) :
  exists l,
    s = l ++ JS.trimStart s /\
    Forall (fun c => JS.isWhiteSpace c = true) l /\
    (forall c, head (JS.trimStart s) = Some c -> JS.isWhiteSpace c = false).
Proof.
  induction s as [|c s (l & Hs & Hl & Hh)]; cbn [JS.trimStart].
  - exists []. repeat split; [constructor|discriminate].
  - destruct (JS.isWhiteSpace c) eqn:Hc.
    + exists (c :: l). cbn. rewrite <- Hs. repeat split; [constructor|]; assumption.
    + exists []. repeat split; [constructor|]. intros c' [= <-]. exact Hc.
Qed.

Lemma trimEnd_spec (s : JS.Text) :
  exists r,
    s = JS.trimEnd s ++ r /\
    Forall (fun c => JS.isWhiteSpace c = true) r /\
    (forall c, last (JS.trimEnd s) = Some c -> JS.isWhiteSpace c = false) /\
    (JS.trimEnd s = [] \/ head (JS.trimEnd s) = head s).
Proof.
  induction s as [|c s (r & Hs & Hr & Hl & Hh)]; cbn [JS.trimEnd].
  - exists []. repeat split; [constructor|discriminate|left; reflexivity].
  - destruct (JS.trimEnd s) as [|x t] eqn:Ht.
    + cbn [app] in Hs. subst r. destruct (JS.isWhiteSpace c) eqn:Hc.
      * exists (c :: s). split; [reflexivity|]. split; [constructor; assumption|].
        split; [discriminate|left; reflexivity].
      * exists s. split; [reflexivity|]. split; [assumption|].
        split; [intros c' [= <-]; exact Hc|right; reflexivity].
    + exists r. split; [cbn [app]; rewrite Hs at 1; reflexivity|].
      split; [assumption|]. split; [|right; reflexivity].
      intros c' Hc'. apply Hl. rewrite <- Hc'. reflexivity.
Qed.

(** [trim] removes white space, and nothing else, from both ends. *)
Lemma trim_spec (s : JS.Text) :
  exists l r,
    s = l ++ JS.trim s ++ r /\
    Forall (fun c => JS.isWhiteSpace c = true) l /\
    Forall (fun c => JS.isWhiteSpace c = true) r /\
    (forall c, head (JS.trim s) = Some c -> JS.isWhiteSpace c = false) /\
    (forall c, last (JS.trim s) = Some c -> JS.isWhiteSpace c = false).
Proof.
  destruct (trimStart_spec s) as (l & Hs & Hl & Hh).
  destruct (trimEnd_spec (JS.trimStart s)) as (r & Ht & Hr & Hlast & Hhead).
  exists l, r. unfold JS.trim. rewrite <- Ht.
  repeat split; try assumption.
  intros c Hc. destruct Hhead as [Hnil|Heq].
  - rewrite Hnil in Hc. discriminate.
  - apply Hh. rewrite <- Heq. exact Hc.
Qed.

(** The [substring] of JavaScript is the slice of the specification
    whenever the end index is inside the text and the indices are in order,
    or the end index is the end of the text. *)
Lemma substring_charSlice (s : JS.Text) (a b : nat) :
  b <= length s ->
  a <= b \/ b = length s ->
  JS.substring s a b = Spec.charSlice s a b.
Proof.
  intros Hb Hab. unfold JS.substring, Spec.charSlice.
  destruct (decide (a <= b)) as [Hle|Hgt].
  - replace (Nat.min a (length s)) with a by lia.
    replace (Nat.min b (length s)) with b by lia.
    replace (Nat.min a b) with a by lia.
    replace (Nat.max a b) with b by lia. reflexivity.
  - destruct Hab as [? | ->]; [lia|].
    replace (length s - a) with 0 by lia.
    replace (Nat.min a (length s)) with (length s) by lia.
    rewrite !Nat.min_id, !Nat.max_id.
    replace (length s - length s) with 0 by lia. reflexivity.
Qed.

Lemma lit_app (a b : string) : JS.lit (a +:+ b) = JS.lit a ++ JS.lit b.
Proof.
  unfold JS.lit. induction a as [|c a IH]; [reflexivity|].
  simpl. f_equal. exact IH.
Qed.

Lemma ceilDiv_unique (a b c : nat) :
  1 <= b -> a <= c * b < a + b -> JS.ceilDiv a b = c.
Proof.
  intros Hb [Hlo Hhi]. unfold JS.ceilDiv. destruct b as [|b']; [lia|].
  symmetry. apply (Nat.div_unique _ _ c (a + S b' - 1 - c * S b')); lia.
Qed.

End TextFacts.

(** ** Extractor: page splitting *)

Section SplitFacts.
Import Extractor.

Example placeholder_3 : placeholder 3 = JS.lit "[Page 3 - No text extracted]".
Proof. reflexivity. Qed.

(** The text the loop pushes in round [i]. *)
Lemma pageLoop_rounds fullText avg remaining i pages :
  pageLoop fullText avg remaining i pages =
  pages ++
  map (fun i =>
         let pageText :=
           JS.trim (JS.substring fullText (i * avg)
                      (Nat.min ((i + 1) * avg) (length fullText))) in
         if JS.nonEmpty pageText then pageText else placeholder (i + 1))
      (seq i remaining).
Proof.
  revert i pages. induction remaining as [|r IH]; intros i pages; simpl.
  - rewrite app_nil_r. reflexivity.
  - rewrite IH, <- app_assoc. reflexivity.
Qed.

Lemma isWhiteSpace_whiteSpace (c : N) :
  JS.isWhiteSpace c = true <-> c ∈ Spec.whiteSpace.
Proof.
  unfold JS.isWhiteSpace, Spec.whiteSpace. rewrite !elem_of_cons, elem_of_nil.
  rewrite !orb_true_iff, !andb_true_iff, !N.leb_le, !N.eqb_eq. lia.
Qed.

(** The [trim] of JavaScript trims in the sense of the specification. *)
Lemma trimmed_trim (s : JS.Text) : Spec.trimmed s (JS.trim s).
Proof.
  destruct (trim_spec s) as (l & r & Hs & Hl & Hr & Hh & Hlast).
  exists l, r. split; [exact Hs|].
  split; [eapply Forall_impl; [exact Hl|]; intros c; apply isWhiteSpace_whiteSpace|].
  split; [eapply Forall_impl; [exact Hr|]; intros c; apply isWhiteSpace_whiteSpace|].
  split; intros c Hc Hin; apply isWhiteSpace_whiteSpace in Hin.
  - rewrite (Hh c Hc) in Hin. discriminate.
  - rewrite (Hlast c Hc) in Hin. discriminate.
Qed.

Lemma digitsValue_of_uint (d : Decimal.uint) (acc : nat) :
  Spec.digitsValue acc (JS.lit (NilEmpty.string_of_uint d)) = Nat.of_uint_acc d acc.
Proof.
  unfold Spec.digitsValue.
  revert acc. induction d; intros acc; cbn [NilEmpty.string_of_uint Nat.of_uint_acc];
    [reflexivity|..];
    (change (JS.lit (String ?a ?s)) with (N_of_ascii a :: JS.lit s);
     cbn [fold_left]; rewrite IHd; f_equal; rewrite Nat.tail_mul_spec;
     cbn; lia).
Qed.

Lemma digits_of_uint (d : Decimal.uint) :
  Forall (fun c => (48 <= c <= 57)%N) (JS.lit (NilEmpty.string_of_uint d)).
Proof. induction d; cbn; constructor; (cbn; lia) || assumption. Qed.

(** The text a template literal makes of a number is its decimal numeral. *)
Lemma numeral_showNat (n : nat) : Spec.numeral n (JS.lit (JS.showNat n)).
Proof.
  unfold JS.showNat, NilZero.string_of_uint.
  pose proof (DecimalNat.Unsigned.of_to n) as Hval.
  pose proof (DecimalNat.Unsigned.to_of (Nat.to_uint n)) as Hnorm.
  rewrite Hval in Hnorm.
  destruct (Nat.to_uint n) as [|d|d|d|d|d|d|d|d|d|d] eqn:Hd.
  1: { cbn in Hval. subst n. split; [discriminate|]. split; [|split; reflexivity].
       repeat constructor; cbn; lia. }
  1: { assert (d = Nil) as ->.
       { unfold unorm in Hnorm. rewrite DecimalFacts.nzhead_D0 in Hnorm.
         destruct (nzhead d) eqn:Hz; try discriminate Hnorm.
         - injection Hnorm as Hnorm. exact Hnorm.
         - exfalso. exact (DecimalFacts.nzhead_nonzero d _ Hz). }
       cbn in Hval. subst n. split; [discriminate|]. split; [|split; reflexivity].
       repeat constructor; cbn; lia. }
  all: split; [discriminate|]; split; [apply digits_of_uint|];
    split; [discriminate|]; rewrite digitsValue_of_uint; exact Hval.
Qed.

Lemma placeholderText_placeholder (i : nat) : Spec.placeholderText i (placeholder i).
Proof.
  exists (JS.lit (JS.showNat i)). split; [apply numeral_showNat|].
  unfold placeholder. rewrite !lit_app. reflexivity.
Qed.

(** C5: when pdf-parse answers with a text of length [L] and a page count
    [N >= 1], [extractPDFText] returns exactly [N] page texts; with
    [c = ceil(L / N)], page [i] (counted from 1) is the slice of the text
    from character [(i - 1) * c] to [min (i * c) L] without the white space
    at its two ends, or, when nothing is left of the slice, the text
    "[Page {i} - No text extracted]" with the decimal numeral of [i]. *)
Theorem extractPDFText_pages env (w : World) (pdfBuffer : Buffer)
    (fullText : JS.Text) (N c : nat) :
  fault env (length (calls w)) = None ->
  parse env pdfBuffer = mkPdfData fullText N ->
  1 <= N ->
  length fullText <= c * N < length fullText + N ->
  exists pages w',
    extractPDFText env pdfBuffer w = (Returned pages, w') /\
    length pages = N /\
    forall i, 1 <= i <= N ->
      exists t, pages !! (i - 1) = Some t /\ Spec.pageText fullText c i t.
Proof.
  intros Hfault Hparse HN Hc.
  unfold extractPDFText, Db.pdfParse, Db.await, bind, ret.
  rewrite Hfault, Hparse. eexists _, _. split; [reflexivity|].
  unfold splitPages. cbn [pdfText numpages].
  rewrite (ceilDiv_unique _ _ c HN Hc), pageLoop_rounds. cbn [app].
  split; [rewrite length_map, length_seq; reflexivity|].
  intros i Hi. cbn zeta.
  rewrite list_lookup_fmap, lookup_seq_lt by lia. cbn [fmap option_fmap option_map].
  replace (0 + (i - 1) + 1) with i by lia.
  replace (0 + (i - 1)) with (i - 1) by lia.
  eexists. split; [reflexivity|].
  rewrite substring_charSlice.
  - exists (JS.trim (Spec.charSlice fullText ((i - 1) * c)
                       (Nat.min (i * c) (length fullText)))).
    split; [apply trimmed_trim|].
    destruct (JS.trim _); [apply placeholderText_placeholder|reflexivity].
  - lia.
  - destruct (decide ((i - 1) * c <= Nat.min (i * c) (length fullText)));
      [left; assumption|right].
    assert ((i - 1) * c <= i * c) by nia. lia.
Qed.

End SplitFacts.

(** Unfolds the plumbing of [M]. *)
Ltac unfold_m :=
  unfold tryCatch, consoleWrite, now, bind, get, modify, ret, throw.

(** ** The store and its queries *)

Section StoreFacts.

#[global] Instance byField_total field : Total (Db.byField field).
Proof. intros a b. unfold Db.byField. lia. Qed.

#[global] Instance byField_trans field : Transitive (Db.byField field).
Proof. intros a b c. unfold Db.byField. lia. Qed.

#[global] Instance byPageNumber_total : Total Db.byPageNumber.
Proof. intros a b. unfold Db.byPageNumber. lia. Qed.

Lemma selectDecks_elem st field n fs id d :
  (id, d) ∈ Db.selectDecks st field n fs ->
  decks fs !! id = Some d /\ Deck.status d = st /\ is_Some (field d).
Proof.
  unfold Db.selectDecks. intros H. apply subseteq_take in H.
  rewrite merge_sort_Permutation in H.
  apply list_elem_of_In, filter_In in H. destruct H as [H1 H2].
  apply list_elem_of_In, elem_of_map_to_list in H1.
  apply andb_prop in H2. destruct H2 as [H2 H3].
  apply bool_decide_eq_true in H2. apply bool_decide_eq_true in H3.
  auto.
Qed.


Lemma selectDecks_oldest st field n fs id d :
  decks fs !! id = Some d -> Deck.status d = st -> is_Some (field d) ->
  (id, d) ∉ Db.selectDecks st field n fs ->
  length (Db.selectDecks st field n fs) = n /\
  forall x, x ∈ Db.selectDecks st field n fs -> Db.byField field x (id, d).
Proof.
  unfold Db.selectDecks. intros Hd Hst Hf Hnot.
  set (sorted := merge_sort _ _) in *.
  assert (Hin : (id, d) ∈ sorted).
  { unfold sorted. rewrite merge_sort_Permutation.
    apply list_elem_of_In, filter_In. split.
    - apply list_elem_of_In, elem_of_map_to_list. exact Hd.
    - cbn. rewrite !bool_decide_eq_true_2 by assumption. reflexivity. }
  assert (Hs : StronglySorted (Db.byField field) sorted)
    by (apply StronglySorted_merge_sort; apply _).
  rewrite <- (take_drop n sorted) in Hin, Hs.
  apply elem_of_app in Hin. destruct Hin as [Hin|Hin]; [contradiction|].
  split.
  - apply length_take_le.
    destruct (decide (n <= length sorted)) as [|Hgt]; [assumption|].
    rewrite drop_ge in Hin by lia. inversion Hin.
  - intros x Hx. eapply StronglySorted_app_1_elem_of; eassumption.
Qed.

Lemma await_ok env c w :
  Spec.faultless env -> Db.await env c w = (Returned tt, withCall c w).
Proof. intros H. unfold Db.await. rewrite H. reflexivity. Qed.

Lemma queryInsights_ok env deckId n ty w :
  Spec.faultless env ->
  Db.queryInsights env deckId n ty w =
    (Returned (Db.selectInsights deckId n ty (store w)), withCall (QueryInsights deckId) w).
Proof.
  intros H. unfold Db.queryInsights. unfold_m. rewrite (await_ok _ _ _ H). reflexivity.
Qed.

Lemma queryPages_ok env deckId w :
  Spec.faultless env ->
  Db.queryPages env deckId w =
    (Returned (Db.selectPages deckId (store w)), withCall (QueryPages deckId) w).
Proof.
  intros H. unfold Db.queryPages. unfold_m. rewrite (await_ok _ _ _ H). reflexivity.
Qed.

Lemma queryDecks_ok env st field n w :
  Spec.faultless env ->
  Db.queryDecks env st field n w =
    (Returned (Db.selectDecks st field n (store w)), withCall (QueryDecks st) w).
Proof.
  intros H. unfold Db.queryDecks. unfold_m. rewrite (await_ok _ _ _ H). reflexivity.
Qed.

Lemma updateDeck_ok env id patch d w :
  Spec.faultless env ->
  decks (store w) !! id = Some d ->
  Db.updateDeck env id patch w =
    (Returned tt,
     withStore (Db.withDecks (insert id (patch d))) (withCall (UpdateDeck id) w)).
Proof.
  intros Henv Hd. unfold Db.updateDeck. unfold_m.
  rewrite (await_ok _ _ _ Henv). cbn. rewrite Hd. reflexivity.
Qed.

Lemma await_at env c w k :
  length (calls w) = k ->
  Db.await env c w =
    match fault env k with
    | Some e => (Threw e, withCall c w)
    | None => (Returned tt, withCall c w)
    end.
Proof. intros <-. reflexivity. Qed.

End StoreFacts.

(** ** Session logger *)

Section LoggerFacts.

(** C7: [Logger.error("x", new Error("y"))] in an active session appends
    "x: y" to the session's errors and sets its status to failed. If
    [endSession] follows without a status, the record it writes has status
    failed; if it is given a status, the record has that status. (The
    record reaches the store when the write is not rejected.) *)
Theorem error_forces_failed env (w : World) (s : AutomationLog.t) :
  session (logger w) = Some s ->
  exists w1 s1,
    Logger.error "x" (Some (JS.ErrorObject "y")) w = (Returned tt, w1) /\
    session (logger w1) = Some s1 /\
    AutomationLog.errors s1 = Some (default [] (AutomationLog.errors s) ++ ["x: y"]) /\
    AutomationLog.status s1 = Failed /\
    (fault env (length (calls w1)) = None ->
     forall metadata, exists r,
       automationLogs (store (Logger.endSession env None metadata w1).2) =
         automationLogs (store w1) ++ [r] /\
       AutomationLog.status r = Failed /\
       AutomationLog.errors r = AutomationLog.errors s1) /\
    (fault env (length (calls w1)) = None ->
     forall status metadata, exists r,
       automationLogs (store (Logger.endSession env (Some status) metadata w1).2) =
         automationLogs (store w1) ++ [r] /\
       AutomationLog.status r = status /\
       AutomationLog.errors r = AutomationLog.errors s1).
Proof.
  intros Hs. unfold Logger.error. unfold_m. rewrite Hs.
  eexists _, _. split; [reflexivity|]. cbn.
  split; [reflexivity|]. split; [destruct (AutomationLog.errors s); reflexivity|].
  split; [reflexivity|].
  split; intros Hfault.
  - intros metadata. eexists.
    unfold Logger.endSession, Db.addAutomationLog, Db.await. unfold_m.
    cbn. rewrite Hfault. cbn.
    split; [reflexivity|]. destruct metadata; split; reflexivity.
  - intros status metadata. eexists.
    unfold Logger.endSession, Db.addAutomationLog, Db.await. unfold_m.
    cbn. rewrite Hfault. cbn.
    split; [reflexivity|]. destruct metadata; split; reflexivity.
Qed.

Lemma error_forces_failed_witness :
  exists w1 s1,
    Logger.error "x" (Some (JS.ErrorObject "y")) Sample.worldInDeckSession = (Returned tt, w1) /\
    session (logger w1) = Some s1 /\
    AutomationLog.errors s1 =
      Some (default [] (AutomationLog.errors Sample.deckSession) ++ ["x: y"]) /\
    AutomationLog.status s1 = Failed /\
    (fault Sample.env (length (calls w1)) = None ->
     forall metadata, exists r,
       automationLogs (store (Logger.endSession Sample.env None metadata w1).2) =
         automationLogs (store w1) ++ [r] /\
       AutomationLog.status r = Failed /\
       AutomationLog.errors r = AutomationLog.errors s1) /\
    (fault Sample.env (length (calls w1)) = None ->
     forall status metadata, exists r,
       automationLogs (store (Logger.endSession Sample.env (Some status) metadata w1).2) =
         automationLogs (store w1) ++ [r] /\
       AutomationLog.status r = status /\
       AutomationLog.errors r = AutomationLog.errors s1).
Proof.
  apply (error_forces_failed Sample.env Sample.worldInDeckSession Sample.deckSession).
  reflexivity.
Defined.

(** C8, as stated, fails in a state the logger's own operations reach: an
    entry added while no session is active stays in the buffer when
    [endSession] is called, because the call returns right after its
    warning. *)
Lemma endSession_without_session_keeps_buffer :
  exists w1 w2,
    Logger.add "m" None Sample.world = (Returned tt, w1) /\
    session (logger w1) = None /\
    Logger.endSession Sample.env None None w1 = (Returned tt, w2) /\
    logs (logger w2) <> [].
Proof.
  eexists _, _. split; [reflexivity|]. split; [reflexivity|].
  split; [reflexivity|]. cbn. discriminate.
Qed.

(** C8, amended: [endSession] never throws. With no active session it only
    prints a warning: no call leaves the process, and the store and the
    logger's fields stay as they were. With an active session it makes
    exactly one call, the append of the final record, and ends with no
    session, an empty buffer and an empty deck context; a rejected append
    changes nothing in the store and is reported on the console only. *)
Theorem endSession_contract env (w : World) status metadata :
  exists w',
    Logger.endSession env status metadata w = (Returned tt, w') /\
    match session (logger w) with
    | None => w' = withConsoleLine (ConsoleWarn "No active session to end") w
    | Some s =>
        logger w' = mkLogger None [] emptyContext /\
        calls w' = calls w ++ [AddAutomationLog] /\
        match fault env (length (calls w)) with
        | None =>
            store w' =
              mkFirestore (decks (store w)) (pages (store w)) (insights (store w))
                (automationLogs (store w) ++
                 [Logger.finalRecord status metadata (clock w) (logs (logger w)) s])
        | Some e =>
            store w' = store w /\
            console w' =
              console w ++ [ConsoleError "Failed to write automation log:" (Some e)]
        end
    end.
Proof.
  unfold Logger.endSession, Db.addAutomationLog, Db.await. unfold_m.
  destruct (session (logger w)) as [s|] eqn:Hs.
  - cbn. destruct (fault env (length (calls w))) as [e|] eqn:Hf;
      cbn; eexists; (split; [reflexivity|]); cbn; auto.
  - eexists. split; reflexivity.
Qed.

(** A rejected append on a concrete world: nothing is stored, the failure
    goes to the console, and the logger is cleared. *)
Example endSession_swallows_rejection :
  exists w',
    Logger.endSession Sample.envLogFails None None Sample.worldInSession =
      (Returned tt, w') /\
    automationLogs (store w') = [] /\
    console w' =
      [ConsoleError "Failed to write automation log:" (Some (JS.ErrorObject "UNAVAILABLE"))] /\
    logger w' = Sample.freshLogger.
Proof. eexists. split; [vm_compute; reflexivity|]. repeat split. Qed.

End LoggerFacts.

(** ** Extractor: the job *)

Section ExtractorFacts.
Import Extractor.

Lemma splitRuns_words (s cur : JS.Text) (inRun : bool) :
  (inRun = true -> cur = []) ->
  length (List.filter (fun w => Nat.ltb 0 (length w)) (JS.splitRuns s cur inRun)) =
  (if Nat.ltb 0 (length cur) then 1 else 0) +
  Spec.wordStarts s (negb (Nat.ltb 0 (length cur))).
Proof.
  revert cur inRun. induction s as [|c r IH]; intros cur inRun Hrun;
    cbn [JS.splitRuns Spec.wordStarts].
  - cbn [List.filter length]. destruct (Nat.ltb 0 (length cur)); reflexivity.
  - destruct (JS.isWhiteSpace c) eqn:Hc.
    + destruct inRun.
      * rewrite (Hrun eq_refl), IH by reflexivity. reflexivity.
      * cbn [List.filter]. destruct (Nat.ltb 0 (length cur));
          cbn [length negb]; rewrite IH by reflexivity; reflexivity.
    + rewrite IH by discriminate.
      assert (Hlen : Nat.ltb 0 (length (cur ++ [c])) = true).
      { apply Nat.ltb_lt. rewrite length_app. simpl. lia. }
      rewrite Hlen. cbn [negb].
      destruct (Nat.ltb 0 (length cur)); reflexivity.
Qed.

(** The word count of the source is the number of words of the text. *)
Lemma wordCount_wordsIn (s : JS.Text) : wordCount s = Spec.wordsIn s.
Proof.
  unfold wordCount, JS.splitWhitespace, Spec.wordsIn.
  rewrite splitRuns_words by discriminate. reflexivity.
Qed.

(** A file of two pages whose second half is blank: the first page is "ab"
    without the white space around it, the second the placeholder. *)
Lemma extractPDFText_pages_witness :
  extractPDFText Sample.envBlankPage [] Sample.world =
    (Returned [JS.lit "ab"; JS.lit "[Page 2 - No text extracted]"],
     withCall ParsePdf Sample.world) /\
  exists pages w',
    extractPDFText Sample.envBlankPage [] Sample.world = (Returned pages, w') /\
    length pages = 2 /\
    forall i, 1 <= i <= 2 ->
      exists t,
        pages !! (i - 1) = Some t /\
        Spec.pageText (JS.lit " ab" ++ [9; 10]%N ++ JS.lit "     ") 5 i t.
Proof.
  split; [reflexivity|].
  apply (extractPDFText_pages Sample.envBlankPage Sample.world []
           (JS.lit " ab" ++ [9; 10]%N ++ JS.lit "     ") 2 5).
  - reflexivity.
  - reflexivity.
  - lia.
  - simpl. lia.
Defined.

(** *** Rules for triples *)

Lemma triple_ret {A} (P : World -> Prop) (a : A) (Q : A -> World -> Prop) E :
  (forall w, P w -> Q a w) -> Spec.triple P (ret a) Q E.
Proof. intros H w Hw. apply H, Hw. Qed.

Lemma triple_bind {A B} (P : World -> Prop) (m : M A) (k : A -> M B) Q' Q E :
  Spec.triple P m Q' E -> (forall a, Spec.triple (Q' a) (k a) Q E) ->
  Spec.triple P (bind m k) Q E.
Proof.
  intros Hm Hk w Hw. unfold bind. specialize (Hm w Hw).
  destruct (m w) as [[a|e] w']; [apply Hk, Hm|exact Hm].
Qed.

Lemma triple_tryCatch {A} (P : World -> Prop) (body : M A) handler Q E' E :
  Spec.triple P body Q E' -> (forall e, Spec.triple (E' e) (handler e) Q E) ->
  Spec.triple P (tryCatch body handler) Q E.
Proof.
  intros Hb Hh w Hw. unfold tryCatch. specialize (Hb w Hw).
  destruct (body w) as [[a|e] w']; [exact Hb|apply Hh, Hb].
Qed.

Lemma triple_weaken {A} (P P' : World -> Prop) (m : M A)
    (Q Q' : A -> World -> Prop) (E E' : JS.Thrown -> World -> Prop) :
  Spec.triple P' m Q' E' ->
  (forall w, P w -> P' w) -> (forall a w, Q' a w -> Q a w) ->
  (forall e w, E' e w -> E e w) ->
  Spec.triple P m Q E.
Proof.
  intros Hm HP HQ HE w Hw. specialize (Hm w (HP w Hw)).
  destruct (m w) as [[a|e] w']; auto.
Qed.

(** *** Computations that leave the decks and the logger alone *)

Lemma inert_ret {A} (a : A) : Spec.inert (ret a).
Proof. intros w. split; reflexivity. Qed.

Lemma inert_bind {A B} (m : M A) (k : A -> M B) :
  Spec.inert m -> (forall a, Spec.inert (k a)) -> Spec.inert (bind m k).
Proof.
  intros Hm Hk w. unfold bind. specialize (Hm w).
  destruct (m w) as [[a|e] w']; cbn in *; [|exact Hm].
  destruct (Hk a w') as [H1 H2]. destruct Hm as [H3 H4]. split; congruence.
Qed.

Lemma inert_await env c : Spec.inert (Db.await env c).
Proof. intros w. unfold Db.await. destruct (fault env _); split; reflexivity. Qed.

Lemma inert_get : Spec.inert get.
Proof. intros w. split; reflexivity. Qed.

Lemma inert_now : Spec.inert now.
Proof. intros w. split; reflexivity. Qed.

Lemma inert_modify (f : World -> World) :
  (forall w, decks (store (f w)) = decks (store w) /\ logger (f w) = logger w) ->
  Spec.inert (modify f).
Proof. intros H w. apply H. Qed.

Ltac inert_step :=
  first
    [ apply inert_ret | apply inert_await | apply inert_get | apply inert_now
    | apply inert_modify; intros ?; split; reflexivity
    | apply inert_bind; [|intros ?]
    | match goal with
      | |- Spec.inert (match ?x with _ => _ end) => destruct x
      end ].

Lemma inert_findDeckToExtract env : Spec.inert (findDeckToExtract env).
Proof. unfold findDeckToExtract, Db.queryDecks. repeat inert_step. Qed.

Lemma inert_downloadPDF env path : Spec.inert (downloadPDF env path).
Proof. unfold downloadPDF, Db.download. repeat inert_step. Qed.

Lemma inert_extractPDFText env buffer : Spec.inert (extractPDFText env buffer).
Proof. unfold extractPDFText, Db.pdfParse. repeat inert_step. Qed.

Lemma inert_fillBatch env pages :
  forall index batch, Spec.inert (fillBatch env pages index batch).
Proof.
  induction pages as [|p rest IH]; intros index batch; cbn [fillBatch].
  - apply inert_ret.
  - unfold Db.newDocId. repeat inert_step. apply IH.
Qed.

Lemma inert_createPageDocuments env id pages :
  Spec.inert (createPageDocuments env id pages).
Proof.
  unfold createPageDocuments, Db.commitBatch.
  apply inert_bind; [apply inert_fillBatch|intros ?]. repeat inert_step.
Qed.

Lemma working_frame w0 w w' :
  decks (store w') = decks (store w) -> logger w' = logger w ->
  Spec.working w0 w -> Spec.working w0 w'.
Proof.
  intros Hd Hl [HJ HA]. split.
  - intros id d. rewrite Hd. apply HJ.
  - unfold Spec.inSession. rewrite Hl. exact HA.
Qed.

Lemma triple_inert {A} (m : M A) w0 :
  Spec.inert m ->
  Spec.triple (Spec.working w0) m (fun _ => Spec.working w0) (fun _ => Spec.working w0).
Proof.
  intros Hm w Hw. destruct (Hm w) as [Hd Hl].
  destruct (m w) as [[a|e] w']; cbn in *; eapply working_frame; eassumption.
Qed.

(** *** The steps of the job *)

Lemma triple_setDeckContext w0 id fileName E :
  Spec.triple (Spec.working w0) (Logger.setDeckContext id fileName)
    (fun _ => Spec.working w0) E.
Proof.
  intros w [HJ [s Hs]]. unfold Logger.setDeckContext. unfold_m. cbn. rewrite Hs. cbn.
  split; [exact HJ|]. eexists. reflexivity.
Qed.

Lemma triple_add w0 message data E :
  Spec.triple (Spec.working w0) (Logger.add message data) (fun _ => Spec.working w0) E.
Proof.
  intros w [HJ [s Hs]]. unfold Logger.add. unfold_m. cbn.
  split; [exact HJ|]. exists s. exact Hs.
Qed.

Lemma triple_error w0 message e E :
  Spec.triple (Spec.working w0) (Logger.error message e) (fun _ => Spec.working w0) E.
Proof.
  intros w [HJ [s Hs]]. unfold Logger.error. unfold_m. rewrite Hs. cbn.
  split; [exact HJ|]. eexists. reflexivity.
Qed.

Lemma triple_startSession w0 action deckId E :
  Spec.triple (Spec.noNewError w0) (Logger.startSession action deckId)
    (fun _ => Spec.working w0) E.
Proof.
  intros w HJ. unfold Logger.startSession. unfold_m. cbn.
  split; [exact HJ|]. eexists. reflexivity.
Qed.

(** An update that writes a status other than error. *)
Lemma triple_updateDeck env w0 id patch :
  (forall d, Deck.status (patch d) <> ERROR) ->
  Spec.triple (Spec.working w0) (Db.updateDeck env id patch)
    (fun _ => Spec.working w0) (fun _ => Spec.working w0).
Proof.
  intros Hpatch w [HJ HA]. unfold Db.updateDeck, Db.await. unfold_m.
  destruct (fault env (length (calls w))); [split; assumption|]. cbn.
  destruct (decks (store w) !! id) as [d|] eqn:Hd; cbn; [|split; assumption].
  split; [|exact HA]. intros id' d'. cbn.
  destruct (decide (id = id')) as [<-|Hne].
  - rewrite lookup_insert_eq. intros [= Heq] Hst. subst d'.
    exfalso. exact (Hpatch d Hst).
  - rewrite lookup_insert_ne by assumption. apply HJ.
Qed.

(** Ending an active session never throws, keeps the decks, and empties
    the deck context. *)
Lemma triple_endSession env w0 status metadata E :
  Spec.triple (Spec.working w0) (Logger.endSession env status metadata)
    (fun _ w => Spec.noNewError w0 w /\ deckContext (logger w) = emptyContext) E.
Proof.
  intros w [HJ [s Hs]]. unfold Logger.endSession, Db.addAutomationLog, Db.await. unfold_m.
  rewrite Hs. cbn.
  destruct (fault env (length (calls w))); cbn; split; (exact HJ || reflexivity).
Qed.

Lemma noNewError_refl w : Spec.noNewError w w.
Proof. intros id d H _. exact H. Qed.

(** Whatever the environment does, a run of the job returns normally, and
    no deck is in status error afterwards that was not before: the update
    in the handler is never reached, because the handler reads the deck
    context only after [endSession] has emptied it. *)
Lemma extractPDFPages_never_marks_error env (w0 : World) :
  exists w', extractPDFPages env w0 = (Returned tt, w') /\ Spec.noNewError w0 w'.
Proof.
  assert (H : Spec.triple (Spec.noNewError w0) (extractPDFPages env)
                (fun _ => Spec.noNewError w0) (fun _ _ => False)).
  { unfold extractPDFPages.
    apply (triple_bind _ _ _ (fun _ => Spec.working w0));
      [apply triple_startSession|intros _].
    apply (triple_tryCatch _ _ _ _ (fun _ => Spec.working w0)).
    - apply (triple_bind _ _ _ (fun _ => Spec.working w0));
        [apply triple_inert, inert_findDeckToExtract|].
      assert (Hend : forall status metadata,
                Spec.triple (Spec.working w0) (Logger.endSession env status metadata)
                  (fun _ => Spec.noNewError w0) (fun _ => Spec.working w0)).
      { intros status metadata.
        apply (triple_weaken _ (Spec.working w0) _ _
                 (fun _ w => Spec.noNewError w0 w /\
                             deckContext (logger w) = emptyContext)
                 _ (fun _ => Spec.working w0));
          [apply triple_endSession|auto|intros ? ? [? ?]; assumption|auto]. }
      intros [[id data]|]; cbv beta iota; [|apply Hend].
      apply (triple_bind _ _ _ (fun _ => Spec.working w0));
        [apply triple_setDeckContext|intros _].
      apply (triple_bind _ _ _ (fun _ => Spec.working w0));
        [apply triple_updateDeck; discriminate|intros _].
      apply (triple_bind _ _ _ (fun _ => Spec.working w0)); [apply triple_add|intros _].
      apply (triple_bind _ _ _ (fun _ => Spec.working w0));
        [apply triple_inert, inert_downloadPDF|intros pdfBuffer].
      apply (triple_bind _ _ _ (fun _ => Spec.working w0)); [apply triple_add|intros _].
      apply (triple_bind _ _ _ (fun _ => Spec.working w0));
        [apply triple_inert, inert_extractPDFText|intros pages].
      apply (triple_bind _ _ _ (fun _ => Spec.working w0)); [apply triple_add|intros _].
      apply (triple_bind _ _ _ (fun _ => Spec.working w0));
        [apply triple_inert, inert_createPageDocuments|intros _].
      apply (triple_bind _ _ _ (fun _ => Spec.working w0));
        [apply triple_inert, inert_now|intros t].
      apply (triple_bind _ _ _ (fun _ => Spec.working w0));
        [apply triple_updateDeck; discriminate|intros _].
      apply (triple_bind _ _ _ (fun _ => Spec.working w0)); [apply triple_add|intros _].
      apply Hend.
    - intros e.
      apply (triple_bind _ _ _ (fun _ => Spec.working w0)); [apply triple_error|intros _].
      eapply triple_bind; [apply triple_endSession|intros ?; cbv beta].
      unfold Logger.getDeckContext. unfold_m.
      intros w [HJ Hctx]. rewrite Hctx. cbn. exact HJ. }
  specialize (H w0 (noNewError_refl w0)).
  destruct (extractPDFPages env w0) as [[[]|e] w']; [|contradiction].
  exists w'. auto.
Qed.

(** *** Runs of the job, step by step *)

Lemma fillBatch_ok env texts : forall index batch w,
  exists w',
    fillBatch env texts index batch w =
      (Returned (batch ++ imap (fun k text =>
         (autoId env (generatedIds w + k),
          Page.mk (index + k + 1) text (clock w) (wordCount text) EXTRACTED)) texts), w') /\
    store w' = store w /\ logger w' = logger w /\ calls w' = calls w /\
    console w' = console w /\ clock w' = clock w.
Proof.
  induction texts as [|t rest IH]; intros index batch w.
  - exists w. cbn. rewrite app_nil_r. repeat split.
  - cbn [fillBatch]. unfold Db.newDocId. unfold_m. cbn.
    destruct (IH (S index) (batch ++ [(autoId env (generatedIds w),
       Page.mk (index + 1) t (clock w) (wordCount t) EXTRACTED)]) (withGeneratedId w))
      as (w' & Hrun & Hs & Hl & Hc & Hco & Hck).
    exists w'. rewrite Hrun. split; [|cbn in *; auto].
    rewrite <- app_assoc. cbn [app imap]. do 3 f_equal.
    apply (f_equal2 cons).
    + rewrite !Nat.add_0_r. reflexivity.
    + apply imap_ext. intros k x _. cbn.
      replace (S (generatedIds w + k)) with (generatedIds w + S k) by lia.
      replace (S (index + k + 1)) with (index + S k + 1) by lia. reflexivity.
Qed.

(** Brings a world built by the setters into the form of a record. *)
Ltac norm_world :=
  cbv beta iota delta
    [withCall withLogger withConsoleLine withStore withGeneratedId Db.withDecks
     Logger.setSession Logger.setLogs Logger.setContext];
  cbn [store logger calls console clock generatedIds session logs deckContext
       decks pages insights automationLogs fst snd].

(** The success path: when no call is rejected and the query finds the
    deck [id], the run stores one page per page text, numbered from 1, in
    one batch, and leaves the deck in status analyzing with the number of
    page texts as its page count. *)
Lemma extractPDFPages_success env (w : World) (id : string) (d : Deck.t) rest :
  Spec.faultless env ->
  Db.selectDecks UPLOADED (fun d => Some (Deck.uploadedAt d)) 1 (store w) = (id, d) :: rest ->
  let texts := splitPages (parse env (blob env (Deck.storagePath d))) in
  let docs := imap (fun k text =>
                (autoId env (generatedIds w + k),
                 Page.mk (k + 1) text (clock w) (wordCount text) EXTRACTED)) texts in
  exists w',
    extractPDFPages env w = (Returned tt, w') /\
    decks (store w') =
      <[id := Deck.withProcessedAt (clock w)
                (Deck.withPageCount (Z.of_nat (length texts))
                   (Deck.withStatus ANALYZING d))]> (decks (store w)) /\
    pages (store w') = <[id := Db.pagesOf id (store w) ++ docs]> (pages (store w)) /\
    calls w' =
      calls w ++ [QueryDecks UPLOADED; UpdateDeck id; Download (Deck.storagePath d);
                  ParsePdf; CommitBatch id (length texts); UpdateDeck id;
                  AddAutomationLog] /\
    logger w' = mkLogger None [] emptyContext.
Proof.
  intros Henv Hsel texts docs.
  assert (Hd : decks (store w) !! id = Some d).
  { eapply selectDecks_elem. rewrite Hsel. left. }
  destruct w as [fs lg con cs clk ids]. cbn [store clock generatedIds calls] in *.
  unfold extractPDFPages.
  unfold Logger.startSession. unfold_m. norm_world.
  unfold findDeckToExtract. unfold_m.
  rewrite (queryDecks_ok _ _ _ _ _ Henv). norm_world. rewrite Hsel.
  unfold Logger.setDeckContext. unfold_m. norm_world.
  rewrite (updateDeck_ok _ _ _ d _ Henv) by exact Hd. norm_world.
  unfold Logger.add. unfold_m. norm_world.
  unfold downloadPDF, Db.download. unfold_m. rewrite (await_ok _ _ _ Henv). norm_world.
  unfold extractPDFText, Db.pdfParse. unfold_m. rewrite (await_ok _ _ _ Henv). norm_world.
  fold texts.
  unfold createPageDocuments. unfold_m.
  match goal with
  | |- context [fillBatch env texts 0 [] ?w0] =>
      destruct (fillBatch_ok env texts 0 [] w0) as (w1 & Hrun & Hs & Hl & Hc & Hco & Hck);
      rewrite Hrun; clear Hrun
  end.
  cbn in Hs, Hl, Hc, Hco, Hck. cbn [app]. fold docs.
  destruct w1 as [fs1 lg1 con1 cs1 clk1 ids1]. cbn in Hs, Hl, Hc, Hco, Hck. subst.
  unfold Db.commitBatch. unfold_m. rewrite (await_ok _ _ _ Henv). norm_world.
  erewrite (updateDeck_ok _ _ _ _ _ Henv) by (cbn; apply lookup_insert_eq). norm_world.
  unfold Logger.endSession, Db.addAutomationLog. unfold_m. norm_world.
  rewrite (await_ok _ _ _ Henv). norm_world.
  eexists. split; [reflexivity|]. norm_world.
  split; [apply insert_insert_eq|]. split; [reflexivity|].
  split; [|reflexivity].
  unfold docs. rewrite length_imap, <- !app_assoc. reflexivity.
Qed.

Ltac handler_path :=
  norm_world;
  unfold Logger.error, Logger.endSession, Db.addAutomationLog, Db.await,
    Logger.getDeckContext;
  unfold_m; norm_world;
  match goal with
  | |- context [fault ?env ?k] => destruct (fault env k)
  end;
  norm_world; eexists; (split; [reflexivity|]); norm_world; split; reflexivity.

(** The failure path: when the query and the claim of the deck succeed and
    one of the four calls after the claim is rejected (download, parse,
    batch commit, final update), the run returns normally and the deck is
    left as the claim wrote it: in status extracting, with the error
    message it had before. *)
Lemma extractPDFPages_failure_after_claim env (w : World) (id : string)
    (d : Deck.t) rest :
  let n := length (calls w) in
  Db.selectDecks UPLOADED (fun d => Some (Deck.uploadedAt d)) 1 (store w) = (id, d) :: rest ->
  fault env n = None ->
  fault env (n + 1) = None ->
  (exists k, 2 <= k <= 5 /\ fault env (n + k) <> None) ->
  exists w',
    extractPDFPages env w = (Returned tt, w') /\
    decks (store w') = <[id := Deck.withStatus EXTRACTING d]> (decks (store w)) /\
    logger w' = mkLogger None [] emptyContext.
Proof.
  intros n Hsel H0 H1 Hk.
  assert (Hd : decks (store w) !! id = Some d).
  { eapply selectDecks_elem. rewrite Hsel. left. }
  destruct w as [fs lg con cs clk ids]. cbn [store clock generatedIds calls] in *.
  unfold extractPDFPages.
  unfold Logger.startSession. unfold_m. norm_world.
  unfold findDeckToExtract, Db.queryDecks. unfold_m.
  rewrite (await_at env _ _ n) by reflexivity. rewrite H0. norm_world. rewrite Hsel.
  unfold Logger.setDeckContext. unfold_m. norm_world.
  unfold Db.updateDeck. unfold_m.
  rewrite (await_at env _ _ (n + 1)) by (cbn; rewrite length_app; reflexivity).
  rewrite H1. norm_world. rewrite Hd. norm_world.
  unfold Logger.add. unfold_m. norm_world.
  unfold downloadPDF, Db.download. unfold_m.
  rewrite (await_at env _ _ (n + 2)) by (cbn; rewrite !length_app; cbn; lia).
  destruct (fault env (n + 2)) as [e2|] eqn:H2; [handler_path|]. norm_world.
  unfold extractPDFText, Db.pdfParse. unfold_m.
  rewrite (await_at env _ _ (n + 3)) by (cbn; rewrite !length_app; cbn; lia).
  destruct (fault env (n + 3)) as [e3|] eqn:H3; [handler_path|]. norm_world.
  unfold createPageDocuments. unfold_m.
  match goal with
  | |- context [fillBatch env ?texts 0 [] ?w0] =>
      destruct (fillBatch_ok env texts 0 [] w0) as (w1 & Hrun & Hs & Hl & Hc & Hco & Hck);
      rewrite Hrun; clear Hrun
  end.
  cbn in Hs, Hl, Hc, Hco, Hck.
  destruct w1 as [fs1 lg1 con1 cs1 clk1 ids1]. cbn in Hs, Hl, Hc, Hco, Hck. subst.
  unfold Db.commitBatch. unfold_m.
  rewrite (await_at env _ _ (n + 4)) by (cbn; rewrite !length_app; cbn; lia).
  destruct (fault env (n + 4)) as [e4|] eqn:H4; [handler_path|]. norm_world.
  rewrite (await_at env _ _ (n + 5)) by (cbn; rewrite !length_app; cbn; lia).
  destruct (fault env (n + 5)) as [e5|] eqn:H5; [handler_path|].
  exfalso. destruct Hk as (k & Hr & Hne).
  assert (Hcases : k = 2 \/ k = 3 \/ k = 4 \/ k = 5) by lia.
  destruct Hcases as [? | [? | [? | ?]]]; subst k; contradiction.
Qed.

(** C1, at an input where the code departs from it: the only deck is in
    status uploaded and the download of its file is rejected. The job
    returns normally, the session is written with status failed, and the
    deck is left in status extracting without an error message: the
    handler ends the session, which empties the deck context, before it
    reads the deck context, so it never reaches its update of the deck. *)
Theorem extractPDFPages_failure_leaves_extracting :
  exists w',
    extractPDFPages Sample.envDownloadFails Sample.world = (Returned tt, w') /\
    decks (store Sample.world) !! "d1" = Some Sample.uploaded /\
    Deck.status Sample.uploaded = UPLOADED /\
    decks (store w') !! "d1" = Some (Deck.withStatus EXTRACTING Sample.uploaded) /\
    Deck.errorMessage (Deck.withStatus EXTRACTING Sample.uploaded) = None /\
    calls w' =
      [QueryDecks UPLOADED; UpdateDeck "d1"; Download "decks/pitch.pdf"; AddAutomationLog] /\
    map (fun r => (AutomationLog.status r, AutomationLog.errors r))
        (automationLogs (store w')) =
      [(Failed, Some ["PDF extraction failed: No such object"])].
Proof.
  eexists. split; [vm_compute; reflexivity|].
  repeat split; vm_compute; reflexivity.
Qed.

(** The query of the job finds the deck that was uploaded before every
    other deck in status uploaded. *)
Lemma selectDecks_first st field fs id d t :
  decks fs !! id = Some d -> Deck.status d = st -> field d = Some t ->
  (forall id' d' t',
     id' <> id -> decks fs !! id' = Some d' -> Deck.status d' = st ->
     field d' = Some t' -> (t < t')%Z) ->
  Db.selectDecks st field 1 fs = [(id, d)].
Proof.
  intros Hd Hst Hf Hothers. unfold Db.selectDecks.
  set (sorted := merge_sort _ _).
  assert (Hin : (id, d) ∈ sorted).
  { unfold sorted. rewrite merge_sort_Permutation.
    apply list_elem_of_In, filter_In. split.
    - apply list_elem_of_In, elem_of_map_to_list. exact Hd.
    - cbn. rewrite Hf, !bool_decide_eq_true_2 by eauto. reflexivity. }
  assert (Hs : StronglySorted (Db.byField field) sorted)
    by (apply StronglySorted_merge_sort; apply _).
  assert (Hall : forall x, x ∈ sorted ->
            decks fs !! x.1 = Some x.2 /\ Deck.status x.2 = st /\ is_Some (field x.2)).
  { intros [i x] Hx. apply (selectDecks_elem st field (length sorted) fs).
    unfold Db.selectDecks. fold sorted. rewrite take_ge by lia. exact Hx. }
  destruct sorted as [|[i x] tl]; [inversion Hin|]. cbn [take]. f_equal.
  apply elem_of_cons in Hin. destruct Hin as [Hin|Hin]; [congruence|].
  apply StronglySorted_inv in Hs. destruct Hs as [_ Hhd].
  rewrite Forall_forall in Hhd. specialize (Hhd _ Hin).
  unfold Db.byField in Hhd. cbn in Hhd. rewrite Hf in Hhd. cbn in Hhd.
  destruct (Hall (i, x) ltac:(left)) as (Hix & Hxs & [tx Htx]). cbn in Hix, Hxs, Htx.
  rewrite Htx in Hhd. cbn in Hhd.
  destruct (decide (i = id)) as [->|Hne]; [congruence|].
  specialize (Hothers i x tx Hne Hix Hxs Htx). lia.
Qed.

(** C6 as stated fails: the text of the scenario has 22 characters, not
    24, and the run does not store the first 12 characters as page 1. *)
Lemma two_page_scenario_not_twelve :
  length (JS.lit "PageOneText" ++ JS.lit "PageTwoText") = 22 /\
  ~ Spec.twoPageOutcome (JS.lit "PageOneText" ++ JS.lit "PageTwoText") 12 24 "d1"
      (extractPDFPages Sample.env Sample.world).2.
Proof.
  split; [reflexivity|].
  intros (id1 & id2 & p1 & p2 & Hpages & _ & _ & _ & Ht1 & _).
  vm_compute in Hpages. injection Hpages as _ <- _ _.
  vm_compute in Ht1. discriminate.
Qed.

(** C6, amended: the text "PageOneText" + "PageTwoText" has 22 characters;
    for the oldest uploaded deck, whose file yields this text with a
    reported page count of 2, one run of the Extractor in which no call is
    rejected stores, in one batch, exactly 2 pages, page 1 with the first
    11 characters trimmed and page 2 with the remaining 11 characters
    trimmed, each with the number of its words, and moves the deck to
    analyzing with page count 2. The text "alpha  beta   " has word
    count 2. *)
Theorem two_page_scenario env (w : World) (id : string) (d : Deck.t) :
  Spec.faultless env ->
  decks (store w) !! id = Some d ->
  Deck.status d = UPLOADED ->
  (forall id' d',
     id' <> id -> decks (store w) !! id' = Some d' -> Deck.status d' = UPLOADED ->
     (Deck.uploadedAt d < Deck.uploadedAt d')%Z) ->
  Db.pagesOf id (store w) = [] ->
  parse env (blob env (Deck.storagePath d)) =
    mkPdfData (JS.lit "PageOneText" ++ JS.lit "PageTwoText") 2 ->
  length (JS.lit "PageOneText" ++ JS.lit "PageTwoText") = 22 /\
  (exists w',
     extractPDFPages env w = (Returned tt, w') /\
     Spec.twoPageOutcome (JS.lit "PageOneText" ++ JS.lit "PageTwoText") 11 22 id w') /\
  wordCount (JS.lit "alpha  beta   ") = 2 /\
  Spec.wordsIn (JS.lit "alpha  beta   ") = 2.
Proof.
  intros Henv Hd Hst Hothers Hnone Hparse.
  split; [reflexivity|]. split; [|split; reflexivity].
  assert (Hsel : Db.selectDecks UPLOADED (fun d => Some (Deck.uploadedAt d)) 1 (store w)
                 = [(id, d)]).
  { apply (selectDecks_first _ _ _ _ _ (Deck.uploadedAt d)); try assumption.
    - reflexivity.
    - intros id' d' t' Hne Hd' Hst' [= <-]. eauto. }
  destruct (extractPDFPages_success env w id d [] Henv Hsel)
    as (w' & Hrun & Hdecks & Hpages & Hcalls & _).
  rewrite Hparse in Hdecks, Hpages, Hcalls.
  exists w'. split; [exact Hrun|].
  unfold Spec.twoPageOutcome.
  rewrite Hdecks, Hpages, Hcalls, Hnone, !lookup_insert_eq.
  change (splitPages (mkPdfData (JS.lit "PageOneText" ++ JS.lit "PageTwoText") 2))
    with [JS.lit "PageOneText"; JS.lit "PageTwoText"].
  cbn [imap app length].
  eexists _, _, _, _. split; [reflexivity|].
  split; [rewrite elem_of_app; right; repeat constructor|].
  cbn [Page.pageNumber Page.text Page.wordCount].
  split; [reflexivity|]. split; [reflexivity|].
  split; [vm_compute; reflexivity|]. split; [vm_compute; reflexivity|].
  split; [apply wordCount_wordsIn|]. split; [apply wordCount_wordsIn|].
  split; reflexivity.
Qed.

Lemma two_page_scenario_witness :
  length (JS.lit "PageOneText" ++ JS.lit "PageTwoText") = 22 /\
  (exists w',
     extractPDFPages Sample.env Sample.world = (Returned tt, w') /\
     Spec.twoPageOutcome (JS.lit "PageOneText" ++ JS.lit "PageTwoText") 11 22 "d1" w') /\
  wordCount (JS.lit "alpha  beta   ") = 2 /\
  Spec.wordsIn (JS.lit "alpha  beta   ") = 2.
Proof.
  apply (two_page_scenario Sample.env Sample.world "d1" Sample.uploaded).
  - intros k. reflexivity.
  - reflexivity.
  - reflexivity.
  - intros id' d' Hne Hd'. cbn in Hd'.
    rewrite lookup_insert_ne, lookup_empty in Hd' by congruence. discriminate.
  - reflexivity.
  - reflexivity.
Defined.

End ExtractorFacts.

(** ** Critic *)

Section CriticFacts.

Lemma selectInsights_none fs deckId n :
  Db.selectInsights deckId n PROBLEM fs = [] <-> ~ Spec.hasProblemInsight fs deckId n.
Proof.
  unfold Db.selectInsights, Spec.hasProblemInsight.
  induction (Db.insightsOf deckId fs) as [|i l IH]; simpl.
  - split; [intros _ H; inversion H|reflexivity].
  - destruct (Nat.eqb (Insight.pageNumber i) n) eqn:En; simpl.
    + case_bool_decide as Ht; simpl.
      * apply Nat.eqb_eq in En. split; [discriminate|].
        intros H. exfalso. apply H. left. auto.
      * rewrite IH. split; intros H H'; apply H.
        -- inversion H' as [? ? [? ?]|]; [contradiction|assumption].
        -- right. assumption.
    + apply Nat.eqb_neq in En. rewrite IH. split; intros H H'; apply H.
      * inversion H' as [? ? [? ?]|]; [contradiction|assumption].
      * right. assumption.
Qed.

Lemma firstUncritiqued_skip fs l1 l2 r :
  (forall x, x ∈ l1 -> Spec.critiqued fs x) ->
  Spec.firstUncritiqued fs l2 r ->
  Spec.firstUncritiqued fs (l1 ++ l2) r.
Proof.
  intros H1 H2. destruct r as [it|]; simpl in *.
  - destruct H2 as (before & after & -> & Hit & Hbefore).
    exists (l1 ++ before), after. rewrite <- app_assoc.
    split; [reflexivity|]. split; [assumption|].
    intros x Hx. apply elem_of_app in Hx. destruct Hx; auto.
  - intros x Hx. apply elem_of_app in Hx. destruct Hx; auto.
Qed.

Lemma firstUncritiqued_found fs l1 l2 it :
  Spec.firstUncritiqued fs l1 (Some it) ->
  Spec.firstUncritiqued fs (l1 ++ l2) (Some it).
Proof.
  intros (before & after & -> & Hit & Hbefore).
  exists before, (after ++ l2). rewrite <- app_assoc. auto.
Qed.

Lemma scanPages_first env deckId deck pageDocs fs w :
  Spec.faultless env -> store w = fs ->
  exists r w',
    Critic.scanPages env deckId deck pageDocs w = (Returned r, w') /\
    store w' = fs /\ logger w' = logger w /\
    Spec.firstUncritiqued fs
      (map (fun pp => Critic.mkItem deckId pp.1 pp.2 deck) pageDocs) r.
Proof.
  intros Henv. revert w.
  induction pageDocs as [|[pageId page] rest IH]; intros w Hfs.
  - exists None, w. repeat split; [assumption|]. intros x Hx. inversion Hx.
  - cbn [Critic.scanPages]. unfold bind at 1. rewrite (queryInsights_ok _ _ _ _ _ Henv).
    destruct (Db.selectInsights deckId (Page.pageNumber page) PROBLEM (store w)) eqn:Hsel.
    + eexists _, _. split; [reflexivity|]. split; [exact Hfs|]. split; [reflexivity|].
      exists [], (map (fun pp => Critic.mkItem deckId pp.1 pp.2 deck) rest).
      split; [reflexivity|]. split.
      * apply selectInsights_none. rewrite <- Hfs. exact Hsel.
      * intros x Hx. inversion Hx.
    + destruct (IH (withCall (QueryInsights deckId) w) Hfs) as (r & w' & Hrun & Hst & Hlg & Hr).
      exists r, w'. split; [exact Hrun|]. split; [exact Hst|]. split; [exact Hlg|].
      apply (firstUncritiqued_skip fs [Critic.mkItem deckId pageId page deck]); [|exact Hr].
      intros x Hx. apply list_elem_of_singleton in Hx. subst x.
      unfold Spec.critiqued. cbn.
      destruct (decide (Spec.hasProblemInsight fs deckId (Page.pageNumber page)))
        as [Hh|Hh]; [exact Hh|].
      apply selectInsights_none in Hh. rewrite <- Hfs, Hsel in Hh. discriminate.
Qed.

Lemma scanDecks_first env deckDocs fs w :
  Spec.faultless env -> store w = fs ->
  exists r w',
    Critic.scanDecks env deckDocs w = (Returned r, w') /\
    store w' = fs /\ logger w' = logger w /\
    Spec.firstUncritiqued fs (Spec.candidates fs deckDocs) r.
Proof.
  intros Henv. revert w.
  induction deckDocs as [|[deckId deck] rest IH]; intros w Hfs.
  - exists None, w. repeat split; [assumption|]. intros x Hx. inversion Hx.
  - cbn [Critic.scanDecks]. unfold bind at 1. rewrite (queryPages_ok _ _ _ Henv).
    unfold bind at 1.
    destruct (scanPages_first env deckId deck (Db.selectPages deckId (store w)) fs
                (withCall (QueryPages deckId) w) Henv Hfs)
      as (r1 & w1 & Hrun1 & Hst1 & Hlg1 & Hr1).
    rewrite Hrun1. rewrite Hfs in Hr1.
    destruct r1 as [it|].
    + exists (Some it), w1. split; [reflexivity|]. split; [exact Hst1|].
      split; [exact Hlg1|].
      unfold Spec.candidates. cbn [flat_map]. apply firstUncritiqued_found. exact Hr1.
    + destruct (IH w1 Hst1) as (r & w' & Hrun & Hst & Hlg & Hr).
      exists r, w'. split; [exact Hrun|]. split; [exact Hst|].
      split; [rewrite Hlg, Hlg1; reflexivity|].
      unfold Spec.candidates. cbn [flat_map]. apply firstUncritiqued_skip; assumption.
Qed.



(** The work finder on the sample world: the older deck "d2" comes first,
    its page 1 is critiqued, and its page 2 is returned although it was
    stored before page 1. *)
Example findPageToCritique_sample :
  (Critic.findPageToCritique Sample.env Sample.worldHalfCritiqued).1 =
  Returned (Some (Critic.mkItem "d2" "p2" (Sample.page 2 "two") (Sample.analyzing 1000 2))).
Proof. vm_compute. reflexivity. Qed.

(** C4: when no call is rejected, the completion check counts every
    insight under the deck, whatever its type, and writes status complete
    to the deck if and only if the count reaches [pageCount * 1]; otherwise
    it writes nothing. In particular a deck of 3 pages with exactly 3
    insights of type "problem" is marked complete. *)
Theorem checkIfDeckComplete_threshold env (w : World) (deckId : string)
    (pageCount : Z) (d : Deck.t) :
  Spec.faultless env ->
  decks (store w) !! deckId = Some d ->
  let found := Db.insightsOf deckId (store w) in
  let insightCount := Z.of_nat (length found) in
  exists w',
    Critic.checkIfDeckComplete env deckId pageCount w = (Returned tt, w') /\
    ((pageCount * 1 <= insightCount)%Z ->
       decks (store w') = <[deckId := Deck.withStatus COMPLETE d]> (decks (store w)) /\
       calls w' = calls w ++ [QueryInsights deckId; UpdateDeck deckId]) /\
    ((insightCount < pageCount * 1)%Z ->
       store w' = store w /\
       calls w' = calls w ++ [QueryInsights deckId]) /\
    (pageCount = 3%Z -> length found = 3 ->
     Forall (fun i => Insight.type i = PROBLEM) found ->
       Deck.status <$> decks (store w') !! deckId = Some COMPLETE).
Proof.
  intros Henv Hd found insightCount.
  unfold Critic.checkIfDeckComplete, Db.queryAllInsights. unfold bind at 1 2.
  rewrite (await_ok _ _ _ Henv). unfold bind at 1. unfold get, ret.
  cbn [store withCall]. fold found. fold insightCount.
  destruct (Z.leb_spec (pageCount * 1) insightCount) as [Hle|Hlt].
  - unfold bind at 1. rewrite (updateDeck_ok _ _ _ d _ Henv) by exact Hd.
    unfold Logger.add. unfold_m. cbn.
    eexists. split; [reflexivity|]. cbn.
    split; [intros _; split; [reflexivity|rewrite <- app_assoc; reflexivity]|].
    split; [lia|].
    intros _ _ _. rewrite lookup_insert_eq. reflexivity.
  - eexists. split; [reflexivity|]. cbn.
    split; [lia|]. split; [auto|].
    intros -> Hlen _. unfold insightCount in Hlt. lia.
Qed.

Lemma checkIfDeckComplete_threshold_witness :
  let found := Db.insightsOf "d1" (store Sample.worldCritiqued) in
  let insightCount := Z.of_nat (length found) in
  exists w',
    Critic.checkIfDeckComplete Sample.env "d1" 3 Sample.worldCritiqued = (Returned tt, w') /\
    ((3 * 1 <= insightCount)%Z ->
       decks (store w') =
         <["d1" := Deck.withStatus COMPLETE (Sample.analyzing 1000 3)]>
           (decks (store Sample.worldCritiqued)) /\
       calls w' = calls Sample.worldCritiqued ++ [QueryInsights "d1"; UpdateDeck "d1"]) /\
    ((insightCount < 3 * 1)%Z ->
       store w' = store Sample.worldCritiqued /\
       calls w' = calls Sample.worldCritiqued ++ [QueryInsights "d1"]) /\
    (3%Z = 3%Z -> length found = 3 ->
     Forall (fun i => Insight.type i = PROBLEM) found ->
       Deck.status <$> decks (store w') !! "d1" = Some COMPLETE).
Proof.
  apply (checkIfDeckComplete_threshold Sample.env Sample.worldCritiqued "d1" 3
           (Sample.analyzing 1000 3)).
  - intros k. reflexivity.
  - reflexivity.
Defined.

End CriticFacts.

(** ** Scheduler: the overlap guard *)

Section SchedulerFacts.
Import Scheduler.

Lemma occurrences_snoc jobName l x :
  occurrences jobName (l ++ [x]) =
  occurrences jobName l + (if bool_decide (x = jobName) then 1 else 0).
Proof.
  unfold occurrences. rewrite List.filter_app, length_app. simpl.
  case_bool_decide; reflexivity.
Qed.

Lemma occurrences_elem jobName l : jobName ∈ l -> 1 <= occurrences jobName l.
Proof.
  unfold occurrences. induction l as [|x l IH]; intros Hin.
  - inversion Hin.
  - simpl. case_bool_decide as Hx; simpl; [lia|].
    apply IH. inversion Hin; subst; [congruence|assumption].
Qed.

Lemma occurrences_removeFirst_same jobName l :
  jobName ∈ l ->
  occurrences jobName (removeFirst jobName l) = occurrences jobName l - 1.
Proof.
  unfold occurrences. induction l as [|x l IH]; intros Hin.
  - inversion Hin.
  - simpl. case_bool_decide as Hx; simpl.
    + lia.
    + rewrite bool_decide_eq_false_2 by assumption.
      apply IH. inversion Hin; subst; [congruence|assumption].
Qed.

Lemma occurrences_removeFirst_other jobName other l :
  jobName <> other ->
  occurrences jobName (removeFirst other l) = occurrences jobName l.
Proof.
  intros Hne. unfold occurrences. induction l as [|x l IH]; [reflexivity|].
  simpl. case_bool_decide as Hx; simpl.
  - subst x. rewrite bool_decide_eq_false_2 by congruence. reflexivity.
  - case_bool_decide; simpl; rewrite IH; reflexivity.
Qed.

Lemma guarded_initial : guarded initial.
Proof. intros j. reflexivity. Qed.

Lemma isRunning_insert jobName other b flags inflight invs con :
  isRunning jobName (mkState (<[other := b]> flags) inflight invs con) =
  if bool_decide (other = jobName) then b
  else isRunning jobName (mkState flags inflight invs con).
Proof.
  unfold isRunning. cbn [runningJobs]. case_bool_decide as H.
  - subst. rewrite lookup_insert_eq. reflexivity.
  - rewrite lookup_insert_ne by assumption. reflexivity.
Qed.

Lemma guarded_call jobName st : guarded st -> guarded (call jobName st).
Proof.
  intros Hg j. specialize (Hg j). unfold call.
  destruct (isRunning jobName st) eqn:Hflag.
  - exact Hg.
  - rewrite isRunning_insert. unfold running in *. cbn [inFlight].
    rewrite occurrences_snoc.
    case_bool_decide as Hj.
    + subst j. rewrite Hflag in Hg. lia.
    + rewrite Nat.add_0_r. exact Hg.
Qed.

Lemma guarded_resume jobName s st st' :
  guarded st -> resume jobName s st = Some st' -> guarded st'.
Proof.
  intros Hg Hres j. unfold resume in Hres.
  case_bool_decide as Hin; [|discriminate].
  injection Hres as <-. rewrite isRunning_insert.
  unfold running. cbn [inFlight].
  case_bool_decide as Hj.
  - subst j. rewrite occurrences_removeFirst_same by assumption.
    pose proof (Hg jobName) as H1. pose proof (occurrences_elem _ _ Hin) as H2.
    unfold running in H1.
    destruct (isRunning jobName st); lia.
  - rewrite occurrences_removeFirst_other by congruence.
    exact (Hg j).
Qed.

Lemma guarded_run events st st' :
  guarded st -> run events st = Some st' -> guarded st'.
Proof.
  revert st. induction events as [|e rest IH]; intros st Hg Hrun; simpl in Hrun.
  - injection Hrun as <-. exact Hg.
  - destruct (step e st) as [st1|] eqn:Hstep; [|discriminate].
    apply (IH st1); [|exact Hrun].
    destruct e as [jobName|jobName s]; simpl in Hstep.
    + injection Hstep as <-. apply guarded_call, Hg.
    + eapply guarded_resume; eassumption.
Qed.

(** C2: in every state the scheduler reaches, each named job has at most
    one body in flight, and has one exactly while its flag is set. A call
    of the guarded job made meanwhile does not call the job function: it
    only logs the skip. The body in flight can settle, by return or by
    throw; the settlement clears the flag (a throw is logged first), calls
    no job function, and the next call does call the job function again.
    A call made while no body is in flight calls the job function. *)
Theorem preventOverlap_at_most_one (events : list Event) (st : State)
    (jobName : string) :
  run events initial = Some st ->
  running jobName st <= 1 /\
  (running jobName st = 1 <-> isRunning jobName st = true) /\
  (running jobName st = 1 ->
     invocations (call jobName st) = invocations st /\
     inFlight (call jobName st) = inFlight st /\
     runningJobs (call jobName st) = runningJobs st /\
     console (call jobName st) =
       console st ++
       [ConsoleLog ("Skipping " +:+ jobName +:+ " (previous run still active)") None]) /\
  (running jobName st = 1 ->
     forall s, exists st',
       resume jobName s st = Some st' /\
       isRunning jobName st' = false /\
       running jobName st' = 0 /\
       invocations st' = invocations st /\
       console st' =
         console st ++
         match s with
         | Resolved => []
         | Rejected e => [ConsoleError (jobName +:+ " error:") (Some e)]
         end /\
       invoked jobName (call jobName st') = S (invoked jobName st') /\
       running jobName (call jobName st') = 1) /\
  (running jobName st = 0 ->
     invoked jobName (call jobName st) = S (invoked jobName st) /\
     running jobName (call jobName st) = 1 /\
     console (call jobName st) = console st).
Proof.
  intros Hrun. pose proof (guarded_run _ _ _ guarded_initial Hrun) as Hg.
  pose proof (Hg jobName) as Hj.
  assert (Hfresh : forall st0, guarded st0 -> isRunning jobName st0 = false ->
            invoked jobName (call jobName st0) = S (invoked jobName st0) /\
            running jobName (call jobName st0) = 1 /\
            console (call jobName st0) = console st0).
  { intros st0 Hg0 Hflag.
    pose proof (guarded_call jobName _ Hg0 jobName) as Hc.
    unfold call in *. rewrite Hflag in *. unfold invoked. cbn [invocations console].
    rewrite occurrences_snoc, bool_decide_eq_true_2 by reflexivity.
    split; [lia|]. split; [|reflexivity].
    rewrite Hc, isRunning_insert, bool_decide_eq_true_2; reflexivity. }
  split; [destruct (isRunning jobName st); lia|].
  split; [destruct (isRunning jobName st); split; (lia || congruence)|].
  split; [|split].
  - intros H1. unfold call.
    destruct (isRunning jobName st); [|lia]. cbn. auto.
  - intros H1 s.
    assert (Hin : jobName ∈ inFlight st).
    { unfold running, occurrences in H1.
      destruct (List.filter _ (inFlight st)) as [|x l] eqn:Hf; [discriminate|].
      assert (Hx : In x (List.filter (fun x => bool_decide (x = jobName)) (inFlight st)))
        by (rewrite Hf; left; reflexivity).
      apply filter_In in Hx. destruct Hx as [Hx Heq].
      apply bool_decide_eq_true in Heq. subst x. apply list_elem_of_In, Hx. }
    destruct (resume jobName s st) as [st'|] eqn:Hres;
      [|unfold resume in Hres; rewrite bool_decide_eq_true_2 in Hres by exact Hin;
        discriminate].
    exists st'. split; [reflexivity|].
    pose proof (guarded_resume _ _ _ _ Hg Hres) as Hg'.
    assert (Hflag : isRunning jobName st' = false).
    { unfold resume in Hres. case_bool_decide; [|discriminate].
      injection Hres as <-. rewrite isRunning_insert.
      rewrite bool_decide_eq_true_2; reflexivity. }
    split; [exact Hflag|].
    split; [rewrite (Hg' jobName), Hflag; reflexivity|].
    split; [|split].
    + unfold resume in Hres. case_bool_decide; [|discriminate].
      injection Hres as <-. reflexivity.
    + unfold resume in Hres. case_bool_decide; [|discriminate].
      injection Hres as <-. cbn [console]. destruct s; [rewrite app_nil_r|]; reflexivity.
    + destruct (Hfresh st' Hg' Hflag) as (Hi & Hr & _). auto.
  - intros H0. apply Hfresh; [exact Hg|].
    destruct (isRunning jobName st); [lia|reflexivity].
Qed.

(** The guard on a run of the scheduler: the job is started, a second tick
    is skipped, the body throws, another job is started, and the next tick
    starts the job again. *)
Lemma preventOverlap_at_most_one_witness :
  exists st,
    run [Tick "Extract PDF Pages"; Tick "Extract PDF Pages";
         Settle "Extract PDF Pages" (Rejected (JS.ErrorObject "boom"));
         Tick "Critique Problem Statements"; Tick "Extract PDF Pages"] initial = Some st /\
    invocations st =
      ["Extract PDF Pages"; "Critique Problem Statements"; "Extract PDF Pages"] /\
    inFlight st = ["Critique Problem Statements"; "Extract PDF Pages"] /\
    console st =
      [ConsoleLog "Skipping Extract PDF Pages (previous run still active)" None;
       ConsoleError "Extract PDF Pages error:" (Some (JS.ErrorObject "boom"))] /\
    running "Extract PDF Pages" st <= 1 /\
    (running "Extract PDF Pages" st = 1 <-> isRunning "Extract PDF Pages" st = true) /\
    (running "Extract PDF Pages" st = 1 ->
       invocations (call "Extract PDF Pages" st) = invocations st /\
       inFlight (call "Extract PDF Pages" st) = inFlight st /\
       runningJobs (call "Extract PDF Pages" st) = runningJobs st /\
       console (call "Extract PDF Pages" st) =
         console st ++
         [ConsoleLog ("Skipping " +:+ "Extract PDF Pages" +:+ " (previous run still active)")
            None]) /\
    (running "Extract PDF Pages" st = 1 ->
       forall s, exists st',
         resume "Extract PDF Pages" s st = Some st' /\
         isRunning "Extract PDF Pages" st' = false /\
         running "Extract PDF Pages" st' = 0 /\
         invocations st' = invocations st /\
         console st' =
           console st ++
           match s with
           | Resolved => []
           | Rejected e => [ConsoleError ("Extract PDF Pages" +:+ " error:") (Some e)]
           end /\
         invoked "Extract PDF Pages" (call "Extract PDF Pages" st') =
           S (invoked "Extract PDF Pages" st') /\
         running "Extract PDF Pages" (call "Extract PDF Pages" st') = 1) /\
    (running "Extract PDF Pages" st = 0 ->
       invoked "Extract PDF Pages" (call "Extract PDF Pages" st) =
         S (invoked "Extract PDF Pages" st) /\
       running "Extract PDF Pages" (call "Extract PDF Pages" st) = 1 /\
       console (call "Extract PDF Pages" st) = console st).
Proof.
  eexists. split; [reflexivity|].
  split; [reflexivity|]. split; [reflexivity|]. split; [reflexivity|].
  apply (preventOverlap_at_most_one
           [Tick "Extract PDF Pages"; Tick "Extract PDF Pages";
            Settle "Extract PDF Pages" (Rejected (JS.ErrorObject "boom"));
            Tick "Critique Problem Statements"; Tick "Extract PDF Pages"]).
  reflexivity.
Defined.

End SchedulerFacts.

(** * Further properties *)

(** ** Running a computation step by step *)

Section BindFacts.

Lemma bind_returned {A B} (m : M A) (k : A -> M B) (w w' : World) (a : A) :
  m w = (Returned a, w') -> bind m k w = k a w'.
Proof. intros H. unfold bind. rewrite H. reflexivity. Qed.

Lemma bind_threw {A B} (m : M A) (k : A -> M B) (w w' : World) (e : JS.Thrown) :
  m w = (Threw e, w') -> bind m k w = (Threw e, w').
Proof. intros H. unfold bind. rewrite H. reflexivity. Qed.

End BindFacts.

(** ** Scheduler: what the guard does over a whole run *)

Section TallyFacts.
Import Scheduler Tally.

Lemma append_cancel_r (a b t : string) : a +:+ t = b +:+ t -> a = b.
Proof.
  intros H.
  apply (f_equal list_ascii_of_string) in H.
  assert (Happ : forall x y, list_ascii_of_string (x +:+ y) =
                             list_ascii_of_string x ++ list_ascii_of_string y).
  { induction x as [|c x IH]; intros y; simpl; [reflexivity|].
    f_equal. apply IH. }
  rewrite !Happ in H. apply app_inv_tail in H.
  rewrite <- (string_of_list_ascii_of_string a),
          <- (string_of_list_ascii_of_string b), H.
  reflexivity.
Qed.

Lemma isSkipOf_line jobName other :
  isSkipOf jobName
    (ConsoleLog ("Skipping " +:+ other +:+ " (previous run still active)") None) =
  bool_decide (other = jobName).
Proof.
  unfold isSkipOf. apply bool_decide_ext. split.
  - intros H. apply (inj (String.append "Skipping ")) in H.
    apply append_cancel_r in H. exact H.
  - intros ->. reflexivity.
Qed.

Lemma skipped_call jobName other st :
  skipped jobName (call other st) =
  skipped jobName st +
  (if isRunning other st then (if bool_decide (other = jobName) then 1 else 0) else 0).
Proof.
  unfold skipped, call. destruct (isRunning other st); cbn [console]; [|lia].
  rewrite List.filter_app, length_app. cbn [List.filter].
  rewrite isSkipOf_line. case_bool_decide; simpl; lia.
Qed.

Lemma skipped_resume jobName other s st st' :
  resume other s st = Some st' -> skipped jobName st' = skipped jobName st.
Proof.
  unfold resume. case_bool_decide; [|discriminate]. intros [= <-].
  unfold skipped. cbn [console]. destruct s; [reflexivity|].
  rewrite List.filter_app, length_app. simpl. lia.
Qed.

Lemma invoked_call jobName other st :
  invoked jobName (call other st) =
  invoked jobName st +
  (if isRunning other st then 0 else (if bool_decide (other = jobName) then 1 else 0)).
Proof.
  unfold invoked, call. destruct (isRunning other st); cbn [invocations]; [lia|].
  apply occurrences_snoc.
Qed.

Lemma running_call jobName other st :
  running jobName (call other st) =
  running jobName st +
  (if isRunning other st then 0 else (if bool_decide (other = jobName) then 1 else 0)).
Proof.
  unfold running, call. destruct (isRunning other st); cbn [inFlight]; [lia|].
  apply occurrences_snoc.
Qed.

Lemma invoked_resume jobName other s st st' :
  resume other s st = Some st' -> invoked jobName st' = invoked jobName st.
Proof.
  unfold resume. case_bool_decide; [|discriminate]. intros [= <-]. reflexivity.
Qed.

Lemma running_resume jobName other s st st' :
  resume other s st = Some st' ->
  running jobName st' + (if bool_decide (other = jobName) then 1 else 0) =
  running jobName st.
Proof.
  unfold resume. case_bool_decide as Hin; [|discriminate]. intros [= <-].
  unfold running. cbn [inFlight]. case_bool_decide as Heq.
  - subst other. rewrite occurrences_removeFirst_same by exact Hin.
    pose proof (occurrences_elem _ _ Hin). lia.
  - rewrite occurrences_removeFirst_other by congruence. lia.
Qed.

(** The two counts of a run that starts in any state. *)
Lemma run_tally jobName events : forall st st',
  run events st = Some st' ->
  invoked jobName st' + skipped jobName st' =
    invoked jobName st + skipped jobName st + ticks jobName events /\
  invoked jobName st' + running jobName st =
    invoked jobName st + settlements jobName events + running jobName st' /\
  invoked jobName st <= invoked jobName st'.
Proof.
  induction events as [|e rest IH]; intros st st' Hrun; simpl in Hrun.
  - injection Hrun as <-. simpl. lia.
  - destruct (step e st) as [st1|] eqn:Hstep; [|discriminate].
    destruct (IH _ _ Hrun) as (IH1 & IH2 & IH3).
    destruct e as [other|other s]; simpl in Hstep.
    + injection Hstep as <-.
      rewrite invoked_call, skipped_call in IH1.
      rewrite invoked_call, running_call in IH2.
      rewrite invoked_call in IH3.
      cbn [ticks settlements].
      destruct (isRunning other st), (bool_decide (other = jobName)); lia.
    + pose proof (invoked_resume jobName _ _ _ _ Hstep) as Hi.
      pose proof (running_resume jobName _ _ _ _ Hstep) as Hr.
      pose proof (skipped_resume jobName _ _ _ _ Hstep) as Hs.
      cbn [ticks settlements].
      destruct (bool_decide (other = jobName)); lia.
Qed.

(** X1: over any run of the scheduler, every tick of a job either calls
    the job function or writes one skip line, never both and never neither;
    and the calls of the job function are its settled bodies plus the body
    still in flight. *)
Theorem preventOverlap_tick_accounting (events : list Event) (st : State)
    (jobName : string) :
  run events initial = Some st ->
  ticks jobName events = invoked jobName st + skipped jobName st /\
  invoked jobName st = settlements jobName events + running jobName st.
Proof.
  intros Hrun. destruct (run_tally jobName _ _ _ Hrun) as (H1 & H2 & _).
  unfold invoked, skipped, running in *. cbn in H1, H2. unfold invoked, running.
  lia.
Qed.

Lemma preventOverlap_tick_accounting_witness :
  let events := [Tick "Critique Problem Statements"; Tick "Critique Problem Statements"; Settle "Critique Problem Statements" Resolved;
                 Tick "Extract PDF Pages"; Tick "Critique Problem Statements"; Tick "Critique Problem Statements"] in
  exists st,
    run events initial = Some st /\
    ticks "Critique Problem Statements" events = invoked "Critique Problem Statements" st + skipped "Critique Problem Statements" st /\
    invoked "Critique Problem Statements" st = settlements "Critique Problem Statements" events + running "Critique Problem Statements" st.
Proof.
  eexists. split; [reflexivity|].
  apply preventOverlap_tick_accounting. reflexivity.
Defined.

(** X2: the guard keeps no job from running beside another one. In any
    state the scheduler reaches in which a body of one job is in flight, a
    tick of a different job that has no body in flight calls that job's
    function, and afterwards both bodies are in flight. *)
Theorem preventOverlap_jobs_overlap (events : list Event) (st : State)
    (jobName other : string) :
  run events initial = Some st ->
  jobName <> other ->
  running jobName st = 1 ->
  running other st = 0 ->
  invoked other (call other st) = S (invoked other st) /\
  running other (call other st) = 1 /\
  running jobName (call other st) = 1 /\
  isRunning jobName (call other st) = true /\
  isRunning other (call other st) = true.
Proof.
  intros Hrun Hne Hj Ho.
  pose proof (guarded_run _ _ _ guarded_initial Hrun) as Hg.
  pose proof (guarded_call other _ Hg) as Hg'.
  assert (Hflag : isRunning other st = false).
  { pose proof (Hg other) as H. destruct (isRunning other st); [lia|reflexivity]. }
  rewrite invoked_call, !running_call, Hflag.
  rewrite (bool_decide_eq_true_2 (other = other)) by reflexivity.
  rewrite (bool_decide_eq_false_2 (other = jobName)) by congruence.
  assert (Hrj : running jobName (call other st) = 1).
  { rewrite running_call, Hflag, bool_decide_eq_false_2 by congruence. lia. }
  assert (Hro : running other (call other st) = 1).
  { rewrite running_call, Hflag, bool_decide_eq_true_2 by reflexivity. lia. }
  repeat split; try lia.
  - pose proof (Hg' jobName) as H. rewrite Hrj in H.
    destruct (isRunning jobName (call other st)); [reflexivity|lia].
  - pose proof (Hg' other) as H. rewrite Hro in H.
    destruct (isRunning other (call other st)); [reflexivity|lia].
Qed.

Lemma preventOverlap_jobs_overlap_witness :
  let st := call "Extract PDF Pages" initial in
  invoked "Critique Problem Statements" (call "Critique Problem Statements" st) = S (invoked "Critique Problem Statements" st) /\
  running "Critique Problem Statements" (call "Critique Problem Statements" st) = 1 /\
  running "Extract PDF Pages" (call "Critique Problem Statements" st) = 1 /\
  isRunning "Extract PDF Pages" (call "Critique Problem Statements" st) = true /\
  isRunning "Critique Problem Statements" (call "Critique Problem Statements" st) = true.
Proof.
  apply (preventOverlap_jobs_overlap [Tick "Extract PDF Pages"]);
    [reflexivity|discriminate|reflexivity|reflexivity].
Defined.

(** X3: a body that never settles blocks its job for good. From a state
    the scheduler reaches with a body of the job in flight, any further
    events without a settlement of that job leave the number of calls of
    the job function as it was: every tick of the job is skipped. *)
Theorem preventOverlap_stalled_job_never_restarts (before later : list Event)
    (st st' : State) (jobName : string) :
  run before initial = Some st ->
  running jobName st = 1 ->
  settlements jobName later = 0 ->
  run later st = Some st' ->
  invoked jobName st' = invoked jobName st /\
  running jobName st' = 1 /\
  skipped jobName st' = skipped jobName st + ticks jobName later.
Proof.
  intros Hrun Hj Hnone Hlater.
  pose proof (guarded_run _ _ _ guarded_initial Hrun) as Hg.
  pose proof (guarded_run _ _ _ Hg Hlater) as Hg'.
  destruct (run_tally jobName _ _ _ Hlater) as (H1 & H2 & H3).
  rewrite Hnone, Hj in H2.
  pose proof (Hg' jobName) as Hle.
  assert (running jobName st' <= 1) by (destruct (isRunning jobName st'); lia).
  lia.
Qed.

Lemma preventOverlap_stalled_job_never_restarts_witness :
  let st := call "Extract PDF Pages" initial in
  let later := [Tick "Extract PDF Pages"; Tick "Critique Problem Statements"; Tick "Extract PDF Pages";
                Settle "Critique Problem Statements" Resolved; Tick "Extract PDF Pages"] in
  exists st',
    run later st = Some st' /\
    invoked "Extract PDF Pages" st' = invoked "Extract PDF Pages" st /\
    running "Extract PDF Pages" st' = 1 /\
    skipped "Extract PDF Pages" st' = skipped "Extract PDF Pages" st + ticks "Extract PDF Pages" later.
Proof.
  eexists. split; [reflexivity|].
  apply (preventOverlap_stalled_job_never_restarts [Tick "Extract PDF Pages"]);
    reflexivity.
Defined.

End TallyFacts.

(** ** Session logger: a whole session *)

Section TranscriptFacts.
Import Transcript.

Lemma perform_in_session script : forall (w : World) (s : AutomationLog.t),
  session (logger w) = Some s ->
  exists w' s',
    perform script w = (Returned tt, w') /\
    session (logger w') = Some s' /\
    AutomationLog.action s' = AutomationLog.action s /\
    AutomationLog.deckId s' = lastDeck script (AutomationLog.deckId s) /\
    AutomationLog.status s' =
      match reported script with
      | [] => AutomationLog.status s
      | _ :: _ => Failed
      end /\
    AutomationLog.startedAt s' = AutomationLog.startedAt s /\
    AutomationLog.errors s' =
      match reported script with
      | [] => AutomationLog.errors s
      | _ :: _ => Some (default [] (AutomationLog.errors s) ++ reported script)
      end /\
    AutomationLog.metadata s' = AutomationLog.metadata s /\
    logs (logger w') = logs (logger w) ++ added (clock w) script /\
    store w' = store w /\ calls w' = calls w /\ clock w' = clock w.
Proof.
  unfold reported, added, lastDeck.
  induction script as [|e rest IH]; intros w s Hs.
  - exists w, s. simpl. rewrite app_nil_r. repeat split; try reflexivity. exact Hs.
  - destruct w as [st [ses lg ctx] con cs ck ids]. cbn in Hs. subst ses.
    destruct e as [message data|message error|deckId fileName].
    + edestruct (IH (mkWorld st (mkLogger (Some s) (lg ++ [LogEntry.mk ck message data]) ctx)
                      (con ++ [ConsoleLog message data]) cs ck ids) s)
        as (w' & s' & Hrun & Hses & Ha & Hd & Hst & Hsa & He & Hm & Hl & Hstore & Hc & Hk);
        [reflexivity|].
      exists w', s'. cbn in *.
      split; [exact Hrun|]. split; [exact Hses|].
      rewrite Hl, <- app_assoc. repeat split; assumption.
    + set (s1 := AutomationLog.withStatus Failed
                   (AutomationLog.withErrors
                      (default [] (AutomationLog.errors s) ++
                       [message +:+ ": " +:+ JS.errorTextOpt error]) s)).
      edestruct (IH (mkWorld st (mkLogger (Some s1) lg ctx)
                      (con ++ [ConsoleError (message +:+ ": " +:+ JS.errorTextOpt error) None])
                      cs ck ids) s1)
        as (w' & s' & Hrun & Hses & Ha & Hd & Hst & Hsa & He & Hm & Hl & Hstore & Hc & Hk);
        [reflexivity|].
      exists w', s'.
      split.
      { cbn. unfold Logger.error. unfold_m. cbn.
        destruct (AutomationLog.errors s); exact Hrun. }
      split; [exact Hses|].
      cbn in *. repeat split; try assumption.
      * rewrite Hst.
        match goal with |- context [match ?x with _ => _ end] => destruct x end;
          reflexivity.
      * rewrite He.
        match goal with |- context [match ?x with _ => _ end] => destruct x end;
          [reflexivity|].
        rewrite <- app_assoc. reflexivity.
    + edestruct (IH (mkWorld st
                      (mkLogger (Some (AutomationLog.withDeckId deckId s)) lg
                         (mkDeckContext (Some deckId) fileName))
                      (con ++ [ConsoleLog ("Deck context: " +:+
                         (if Logger.truthyOpt fileName then default "" fileName else deckId))
                         None]) cs ck ids)
                   (AutomationLog.withDeckId deckId s))
        as (w' & s' & Hrun & Hses & Ha & Hd & Hst & Hsa & He & Hm & Hl & Hstore & Hc & Hk);
        [reflexivity|].
      exists w', s'. cbn in *. repeat split; assumption.
Qed.

(** X4: a session from start to end. Whatever state the logger was left
    in, the calls [startSession(action)], any sequence of [add], [error] and
    [setDeckContext], and [endSession(status)] append one record to the
    automation log when the write is accepted: it has the action, the deck
    id set last, the entries added since the start in order, the error
    texts in order, and the status given to [endSession], or without one
    "failed" if an error was reported and "completed" if none was. Nothing
    buffered before the start is written, and the logger ends cleared. *)
Theorem session_round_trip env (w : World) (action : string)
    (script : list Entry) (status : option SessionStatus) :
  fault env (length (calls w)) = None ->
  exists w' r,
    (Logger.startSession action None ;;
     perform script ;;
     Logger.endSession env status None) w = (Returned tt, w') /\
    automationLogs (store w') = automationLogs (store w) ++ [r] /\
    r = AutomationLog.mk action (lastDeck script None)
          (match status, reported script with
           | Some st, _ => st
           | None, [] => Completed
           | None, _ :: _ => Failed
           end)
          (clock w) (Some (clock w)) (added (clock w) script)
          (Some (reported script)) ∅ /\
    decks (store w') = decks (store w) /\
    pages (store w') = pages (store w) /\
    insights (store w') = insights (store w) /\
    logger w' = mkLogger None [] emptyContext /\
    calls w' = calls w ++ [AddAutomationLog].
Proof.
  intros Hok.
  destruct w as [st lg con cs ck ids]. cbn in Hok.
  set (s0 := AutomationLog.mk action None Completed ck None [] (Some []) ∅).
  set (w1 := mkWorld st (mkLogger (Some s0) [] emptyContext)
               (con ++ [ConsoleLog ("Starting session: " +:+ action) None]) cs ck ids).
  destruct (perform_in_session script w1 s0 eq_refl)
    as (w2 & s2 & Hrun & Hses & Ha & Hd & Hst & Hsa & He & Hm & Hl & Hstore & Hc & Hk).
  destruct w2 as [st2 [ses2 lg2 ctx2] con2 cs2 ck2 ids2].
  cbn in Hses, Hl, Hstore, Hc, Hk. subst ses2 lg2 st2 cs2 ck2.
  destruct s2 as [a2 d2 status2 sa2 ca2 l2 e2 m2]. cbn in Ha, Hd, Hst, Hsa, He, Hm.
  subst a2 d2 sa2 m2.
  eexists. eexists.
  split.
  { rewrite (bind_returned _ _ _ w1 tt) by reflexivity.
    rewrite (bind_returned _ _ _ _ tt Hrun).
    unfold Logger.endSession, Db.addAutomationLog, Db.await. unfold_m. cbn.
    rewrite Hok. cbn. reflexivity. }
  cbn. split; [reflexivity|].
  split.
  { unfold Logger.finalRecord. cbn.
    destruct status as [st'|]; cbn; subst status2 e2;
      destruct (reported script); reflexivity. }
  repeat split; reflexivity.
Qed.

Lemma session_round_trip_witness :
  exists w' r,
    (Logger.startSession "extract_pdf" None ;;
     perform [SetDeckContext "d1" (Some "pitch.pdf");
              Add "Downloading PDF from storage"
                (Some (<["storagePath" := VStr "decks/pitch.pdf"]> ∅));
              Error "PDF extraction failed" (Some (JS.ErrorObject "boom"))] ;;
     Logger.endSession Sample.env None None) Sample.world = (Returned tt, w') /\
    automationLogs (store w') = automationLogs (store Sample.world) ++ [r] /\
    r = AutomationLog.mk "extract_pdf" (Some "d1") Failed 1000%Z (Some 1000%Z)
          [LogEntry.mk 1000%Z "Downloading PDF from storage"
             (Some (<["storagePath" := VStr "decks/pitch.pdf"]> ∅))]
          (Some ["PDF extraction failed: boom"]) ∅ /\
    decks (store w') = decks (store Sample.world) /\
    pages (store w') = pages (store Sample.world) /\
    insights (store w') = insights (store Sample.world) /\
    logger w' = mkLogger None [] emptyContext /\
    calls w' = calls Sample.world ++ [AddAutomationLog].
Proof.
  apply (session_round_trip Sample.env Sample.world "extract_pdf"
           [SetDeckContext "d1" (Some "pitch.pdf");
            Add "Downloading PDF from storage"
              (Some (<["storagePath" := VStr "decks/pitch.pdf"]> ∅));
            Error "PDF extraction failed" (Some (JS.ErrorObject "boom"))] None).
  reflexivity.
Defined.

(** X5: a session is written at most once. A second [endSession] right
    after the first makes no call to the store and changes neither the
    store nor the logger: it only warns that no session is active. *)
Theorem endSession_twice_writes_once env (w : World)
    (status status' : option SessionStatus) (metadata metadata' : option Data) :
  exists w1 w2,
    Logger.endSession env status metadata w = (Returned tt, w1) /\
    Logger.endSession env status' metadata' w1 = (Returned tt, w2) /\
    w2 = withConsoleLine (ConsoleWarn "No active session to end") w1 /\
    length (automationLogs (store w2)) <= S (length (automationLogs (store w))).
Proof.
  destruct w as [st [ses lg ctx] con cs ck ids].
  unfold Logger.endSession, Db.addAutomationLog, Db.await. unfold_m. cbn.
  destruct ses as [s|]; cbn.
  - destruct (fault env (length cs)); cbn;
      eexists; eexists; (split; [reflexivity|]); cbn;
      (split; [reflexivity|]); (split; [reflexivity|]); cbn;
      rewrite ?length_app; simpl; lia.
  - eexists; eexists; (split; [reflexivity|]); cbn;
      (split; [reflexivity|]); (split; [reflexivity|]); cbn. lia.
Qed.

End TranscriptFacts.

(** ** Extractor: the texts of the pages *)

Section PageTextFacts.
Import Extractor.

Lemma trimStart_fixed (t : JS.Text) :
  (forall c, head t = Some c -> JS.isWhiteSpace c = false) -> JS.trimStart t = t.
Proof.
  destruct t as [|c r]; [reflexivity|]. intros H. simpl.
  rewrite (H c eq_refl). reflexivity.
Qed.

Lemma trimEnd_fixed (t : JS.Text) :
  (forall c, last t = Some c -> JS.isWhiteSpace c = false) -> JS.trimEnd t = t.
Proof.
  induction t as [|c r IH]; [reflexivity|]. intros H. simpl.
  destruct r as [|c' r'].
  - simpl. rewrite (H c eq_refl). reflexivity.
  - rewrite IH by (intros x Hx; apply H; exact Hx). reflexivity.
Qed.

Lemma trim_fixed (t : JS.Text) :
  (forall c, head t = Some c -> JS.isWhiteSpace c = false) ->
  (forall c, last t = Some c -> JS.isWhiteSpace c = false) ->
  JS.trim t = t.
Proof.
  intros Hh Hl. unfold JS.trim. rewrite trimStart_fixed by exact Hh.
  apply trimEnd_fixed, Hl.
Qed.

Lemma trim_idempotent (s : JS.Text) : JS.trim (JS.trim s) = JS.trim s.
Proof.
  destruct (trim_spec s) as (l & r & _ & _ & _ & Hh & Hl).
  apply trim_fixed; assumption.
Qed.

Lemma wordStarts_leading (l x : JS.Text) (b : bool) :
  Forall (fun c => JS.isWhiteSpace c = true) l ->
  Spec.wordStarts (l ++ x) b =
  Spec.wordStarts x (match l with [] => b | _ :: _ => true end).
Proof.
  intros Hl. revert b. induction Hl as [|c l Hc Hl IH]; intros b; [reflexivity|].
  simpl. rewrite Hc, IH. destruct l; reflexivity.
Qed.

Lemma wordStarts_trailing (x r : JS.Text) (b : bool) :
  Forall (fun c => JS.isWhiteSpace c = true) r ->
  Spec.wordStarts (x ++ r) b = Spec.wordStarts x b.
Proof.
  intros Hr. revert b. induction x as [|c x IH]; intros b; simpl.
  - revert b. induction Hr as [|c r Hc Hr IH]; intros b; [reflexivity|].
    simpl. rewrite Hc. apply IH.
  - destruct (JS.isWhiteSpace c); rewrite IH; reflexivity.
Qed.

Lemma wordsIn_trim (s : JS.Text) : Spec.wordsIn (JS.trim s) = Spec.wordsIn s.
Proof.
  destruct (trim_spec s) as (l & r & Hs & Hl & Hr & _).
  unfold Spec.wordsIn. rewrite Hs at 2.
  rewrite (wordStarts_leading l _ true Hl), (wordStarts_trailing _ r _ Hr).
  destruct l; reflexivity.
Qed.

Lemma wordsIn_headed (c : N) (r : JS.Text) :
  JS.isWhiteSpace c = false -> 1 <= Spec.wordsIn (c :: r).
Proof. intros Hc. unfold Spec.wordsIn. simpl. rewrite Hc. lia. Qed.

Lemma wordsIn_blank (s : JS.Text) :
  Spec.wordsIn s = 0 <-> JS.trim s = [].
Proof.
  rewrite <- wordsIn_trim.
  destruct (trim_spec s) as (l & r & _ & _ & _ & Hh & _).
  destruct (JS.trim s) as [|c t]; [split; reflexivity|].
  pose proof (wordsIn_headed c t (Hh c eq_refl)).
  split; [lia|discriminate].
Qed.

(** A run of characters without white space is one word. *)
Lemma wordStarts_word (x y : JS.Text) (b : bool) :
  Forall (fun c => JS.isWhiteSpace c = false) x -> x <> [] ->
  Spec.wordStarts (x ++ y) b = (if b then 1 else 0) + Spec.wordStarts y false.
Proof.
  intros Hx. revert b. induction Hx as [|c x Hc Hx IH]; intros b Hne; [congruence|].
  simpl. rewrite Hc. destruct x as [|c' x'].
  - reflexivity.
  - rewrite IH by discriminate. simpl. lia.
Qed.

Lemma digits_raw (d : Decimal.uint) :
  Forall Wording.isDigit (JS.lit (NilEmpty.string_of_uint d)).
Proof.
  induction d; simpl; constructor; (unfold Wording.isDigit; simpl; lia) || assumption.
Qed.

Lemma digits_showNat (n : nat) :
  Forall Wording.isDigit (JS.lit (JS.showNat n)) /\ JS.lit (JS.showNat n) <> [].
Proof.
  unfold JS.showNat, NilZero.string_of_uint.
  destruct (Nat.to_uint n) eqn:Hd.
  - split; [|discriminate]. repeat constructor; unfold Wording.isDigit; simpl; lia.
  - split; [apply digits_raw|discriminate].
  - split; [apply digits_raw|discriminate].
  - split; [apply digits_raw|discriminate].
  - split; [apply digits_raw|discriminate].
  - split; [apply digits_raw|discriminate].
  - split; [apply digits_raw|discriminate].
  - split; [apply digits_raw|discriminate].
  - split; [apply digits_raw|discriminate].
  - split; [apply digits_raw|discriminate].
  - split; [apply digits_raw|discriminate].
Qed.

Lemma digit_not_white (c : N) : Wording.isDigit c -> JS.isWhiteSpace c = false.
Proof.
  unfold Wording.isDigit, JS.isWhiteSpace. intros H.
  repeat match goal with
         | |- context [(?a <=? ?b)%N] => destruct (N.leb_spec a b)
         | |- context [(?a =? ?b)%N] => destruct (N.eqb_spec a b)
         end; simpl; try reflexivity; lia.
Qed.

Lemma placeholder_shape (n : nat) :
  placeholder n =
    JS.lit "[Page" ++ [32%N] ++ JS.lit (JS.showNat n) ++ [32%N] ++ JS.lit "-" ++ [32%N]
    ++ JS.lit "No" ++ [32%N] ++ JS.lit "text" ++ [32%N] ++ JS.lit "extracted" ++ [93%N].
Proof.
  unfold placeholder. rewrite !lit_app. reflexivity.
Qed.

Lemma placeholder_trimmed (n : nat) :
  placeholder n <> [] /\ JS.trim (placeholder n) = placeholder n.
Proof.
  split; [rewrite placeholder_shape; discriminate|].
  apply trim_fixed.
  - rewrite placeholder_shape. intros c [= <-]. reflexivity.
  - rewrite placeholder_shape.
    rewrite !app_assoc, last_snoc. intros c [= <-]. reflexivity.
Qed.

Lemma placeholder_words (n : nat) : wordCount (placeholder n) = 6.
Proof.
  rewrite wordCount_wordsIn, placeholder_shape. unfold Spec.wordsIn.
  destruct (digits_showNat n) as [Hd Hne].
  assert (Hnw : Forall (fun c => JS.isWhiteSpace c = false) (JS.lit (JS.showNat n))).
  { eapply Forall_impl; [exact Hd|]. intros c. apply digit_not_white. }
  rewrite (wordStarts_word (JS.lit "[Page")) by (repeat constructor || discriminate).
  cbn [app Spec.wordStarts]. change (JS.isWhiteSpace 32) with true. cbv iota.
  rewrite (wordStarts_word (JS.lit (JS.showNat n))) by assumption.
  reflexivity.
Qed.

(** The round of the loop of [extractPDFText] for the counter [i]. *)
Lemma splitPages_rounds (pd : PdfData) :
  splitPages pd =
  map (fun i =>
         let pageText :=
           JS.trim (JS.substring (pdfText pd)
                      (i * JS.ceilDiv (length (pdfText pd)) (numpages pd))
                      (Nat.min ((i + 1) * JS.ceilDiv (length (pdfText pd)) (numpages pd))
                         (length (pdfText pd)))) in
         if JS.nonEmpty pageText then pageText else placeholder (i + 1))
      (seq 0 (numpages pd)).
Proof. unfold splitPages. rewrite pageLoop_rounds. reflexivity. Qed.

(** X6: the texts [extractPDFText] makes, for any file: there are as many
    as pdf-parse reports pages; none is empty; each is its own trim; and
    each counts at least one word. A page without text does not count zero
    words: its placeholder counts six. *)
Theorem splitPages_page_texts (pd : PdfData) :
  length (splitPages pd) = numpages pd /\
  Forall (fun t => t <> [] /\ JS.trim t = t /\ 1 <= wordCount t) (splitPages pd) /\
  forall n, wordCount (placeholder n) = 6.
Proof.
  split; [rewrite splitPages_rounds, length_map, length_seq; reflexivity|].
  split; [|apply placeholder_words].
  rewrite splitPages_rounds. apply Forall_map, Forall_forall. intros i _. cbv zeta.
  set (s := JS.substring _ _ _).
  destruct (JS.trim s) as [|c r] eqn:Ht; cbn [JS.nonEmpty].
  - destruct (placeholder_trimmed (i + 1)) as [Hne Htrim].
    split; [exact Hne|]. split; [exact Htrim|].
    rewrite placeholder_words. lia.
  - split; [discriminate|]. rewrite <- Ht.
    split; [apply trim_idempotent|].
    rewrite wordCount_wordsIn, Ht.
    destruct (trim_spec s) as (l & r' & _ & _ & _ & Hh & _).
    rewrite Ht in Hh. apply wordsIn_headed, Hh. reflexivity.
Qed.

(** X7: the word count looks through the white space around a text, and
    it is zero exactly for the texts whose trim is empty, the ones the
    loop replaces by the placeholder. *)
Theorem wordCount_of_trimmed (s : JS.Text) :
  wordCount (JS.trim s) = wordCount s /\
  (wordCount s = 0 <-> JS.trim s = []).
Proof.
  rewrite !wordCount_wordsIn. split; [apply wordsIn_trim|apply wordsIn_blank].
Qed.

Lemma take_then_slice (s : JS.Text) (a b : nat) :
  a <= b -> take a s ++ take (b - a) (drop a s) = take b s.
Proof.
  intros Hab. rewrite take_take_drop. f_equal. lia.
Qed.

Lemma slices_concat (s : JS.Text) (c n : nat) :
  concat (map (fun i => JS.substring s (i * c) (Nat.min ((i + 1) * c) (length s)))
            (seq 0 n)) =
  take (Nat.min (n * c) (length s)) s.
Proof.
  induction n as [|n IH]; [reflexivity|].
  rewrite seq_S, map_app, concat_app, IH. cbn [map concat Nat.add].
  rewrite app_nil_r. unfold JS.substring.
  replace (Nat.min (Nat.min (n * c) (length s))
             (Nat.min (Nat.min ((n + 1) * c) (length s)) (length s)))
    with (Nat.min (n * c) (length s)) by lia.
  replace (Nat.max (Nat.min (n * c) (length s))
             (Nat.min (Nat.min ((n + 1) * c) (length s)) (length s)))
    with (Nat.min (S n * c) (length s)) by lia.
  apply take_then_slice. lia.
Qed.

Lemma ceilDiv_covers (a b : nat) : 1 <= b -> a <= b * JS.ceilDiv a b.
Proof.
  intros Hb. unfold JS.ceilDiv. destruct b as [|b']; [lia|].
  pose proof (Nat.div_mod (a + S b' - 1) (S b') ltac:(lia)) as Hdm.
  pose proof (Nat.mod_upper_bound (a + S b' - 1) (S b') ltac:(lia)). lia.
Qed.

(** X8: the split loses no character. For a file with at least one page
    the substrings the loop takes, one per page and each at most
    [avgCharsPerPage] long, put end to end are the whole text; a page text
    is the trim of its substring, or the placeholder when the trim is
    empty. *)
Theorem splitPages_slices_tile (pd : PdfData) :
  1 <= numpages pd ->
  let fullText := pdfText pd in
  let avgCharsPerPage := JS.ceilDiv (length fullText) (numpages pd) in
  let slices :=
    map (fun i => JS.substring fullText (i * avgCharsPerPage)
                    (Nat.min ((i + 1) * avgCharsPerPage) (length fullText)))
        (seq 0 (numpages pd)) in
  concat slices = fullText /\
  Forall (fun s => length s <= avgCharsPerPage) slices /\
  splitPages pd =
    imap (fun i s => if JS.nonEmpty (JS.trim s) then JS.trim s else placeholder (i + 1))
      slices.
Proof.
  intros HN fullText c slices. subst slices.
  split; [|split].
  - rewrite slices_concat.
    pose proof (ceilDiv_covers (length fullText) (numpages pd) HN).
    apply take_ge. fold c. lia.
  - apply Forall_map, Forall_forall. intros i _. unfold JS.substring.
    rewrite length_take. lia.
  - rewrite splitPages_rounds. fold fullText. fold c.
    apply list_eq. intros k.
    rewrite list_lookup_imap, !list_lookup_fmap.
    destruct (seq 0 (numpages pd) !! k) as [i|] eqn:Hk; [|reflexivity].
    apply lookup_seq in Hk as [-> _]. reflexivity.
Qed.

Lemma splitPages_slices_tile_witness :
  let pd := mkPdfData (JS.lit "PageOneText" ++ JS.lit "PageTwoText") 2 in
  let fullText := pdfText pd in
  let avgCharsPerPage := JS.ceilDiv (length fullText) (numpages pd) in
  let slices :=
    map (fun i => JS.substring fullText (i * avgCharsPerPage)
                    (Nat.min ((i + 1) * avgCharsPerPage) (length fullText)))
        (seq 0 (numpages pd)) in
  concat slices = fullText /\
  Forall (fun s => length s <= avgCharsPerPage) slices /\
  splitPages pd =
    imap (fun i s => if JS.nonEmpty (JS.trim s) then JS.trim s else placeholder (i + 1))
      slices.
Proof.
  apply (splitPages_slices_tile
           (mkPdfData (JS.lit "PageOneText" ++ JS.lit "PageTwoText") 2)).
  simpl. lia.
Defined.

End PageTextFacts.

(** ** Extractor: what a run leaves alone *)

Section ExtractorFrame.
Import Extractor Frame.

Lemma quiet_ret {A} (a : A) : quiet (ret a).
Proof. intros w. split; reflexivity. Qed.

Lemma quiet_bind {A B} (m : M A) (k : A -> M B) :
  quiet m -> (forall a, quiet (k a)) -> quiet (bind m k).
Proof.
  intros Hm Hk w. unfold bind. specialize (Hm w).
  destruct (m w) as [[a|e] w']; cbn in *; [|exact Hm].
  destruct (Hk a w') as [H1 H2]. destruct Hm as [H3 H4]. split; congruence.
Qed.

Lemma quiet_await env c : quiet (Db.await env c).
Proof. intros w. unfold Db.await. destruct (fault env _); split; reflexivity. Qed.

Lemma quiet_get : quiet get.
Proof. intros w. split; reflexivity. Qed.

Lemma quiet_now : quiet now.
Proof. intros w. split; reflexivity. Qed.

Lemma quiet_modify (f : World -> World) :
  (forall w, store (f w) = store w /\ logger (f w) = logger w) -> quiet (modify f).
Proof. intros H w. apply H. Qed.

Ltac quiet_step :=
  first
    [ apply quiet_ret | apply quiet_await | apply quiet_get | apply quiet_now
    | apply quiet_modify; intros ?; split; reflexivity
    | apply quiet_bind; [|intros ?]
    | match goal with
      | |- quiet (match ?x with _ => _ end) => destruct x
      end ].

Lemma quiet_downloadPDF env path : quiet (downloadPDF env path).
Proof. unfold downloadPDF, Db.download. repeat quiet_step. Qed.

Lemma quiet_extractPDFText env buffer : quiet (extractPDFText env buffer).
Proof. unfold extractPDFText, Db.pdfParse. repeat quiet_step. Qed.

Lemma quiet_fillBatch env pages :
  forall index batch, quiet (fillBatch env pages index batch).
Proof.
  induction pages as [|p rest IH]; intros index batch; cbn [fillBatch].
  - apply quiet_ret.
  - unfold Db.newDocId. repeat quiet_step. apply IH.
Qed.

Lemma triple_pure {A} (P : World -> Prop) (phi : Prop) (m : M A)
    (Q : A -> World -> Prop) (E : JS.Thrown -> World -> Prop) :
  (forall w, P w -> phi) -> (phi -> Spec.triple P m Q E) -> Spec.triple P m Q E.
Proof. intros Hphi H w Hw. exact (H (Hphi w Hw) w Hw). Qed.

Section OneDeck.
Variables (id : string) (d : Deck.t) (ps : option (list (string * Page.t)))
  (ins : gmap string (list Insight.t)).

Local Abbreviation J := (holdsInSession id d ps ins).

Lemma holds_frame (w w' : World) :
  store w' = store w -> holds id d ps ins w -> holds id d ps ins w'.
Proof. intros Hs H. unfold holds. rewrite Hs. exact H. Qed.

Lemma hold_quiet {A} (m : M A) :
  quiet m -> Spec.triple J m (fun _ => J) (fun _ => J).
Proof.
  intros Hm w [Hw [s Hs]]. destruct (Hm w) as [Hst Hl].
  destruct (m w) as [[a|e] w']; cbn in *;
    (split; [eapply holds_frame; eassumption|]);
    exists s; unfold Spec.inSession; rewrite Hl; exact Hs.
Qed.

Lemma hold_startSession action deckId E :
  Spec.triple (holds id d ps ins) (Logger.startSession action deckId) (fun _ => J) E.
Proof.
  intros w Hw. unfold Logger.startSession. unfold_m. cbn.
  split; [exact Hw|]. eexists. reflexivity.
Qed.

Lemma hold_setDeckContext deckId fileName E :
  Spec.triple J (Logger.setDeckContext deckId fileName) (fun _ => J) E.
Proof.
  intros w [Hw [s Hs]]. unfold Logger.setDeckContext. unfold_m. cbn. rewrite Hs. cbn.
  split; [exact Hw|]. eexists. reflexivity.
Qed.

Lemma hold_add message data E :
  Spec.triple J (Logger.add message data) (fun _ => J) E.
Proof.
  intros w [Hw [s Hs]]. unfold Logger.add. unfold_m. cbn.
  split; [exact Hw|]. exists s. exact Hs.
Qed.

Lemma hold_error message e E :
  Spec.triple J (Logger.error message e) (fun _ => J) E.
Proof.
  intros w [Hw [s Hs]]. unfold Logger.error. unfold_m. rewrite Hs. cbn.
  split; [exact Hw|]. eexists. reflexivity.
Qed.

Lemma hold_endSession env status metadata E :
  Spec.triple J (Logger.endSession env status metadata)
    (fun _ w => holds id d ps ins w /\ deckContext (logger w) = emptyContext) E.
Proof.
  intros w [Hw [s Hs]]. unfold Logger.endSession, Db.addAutomationLog, Db.await. unfold_m.
  rewrite Hs. cbn.
  destruct (fault env (length (calls w))); cbn; split; (exact Hw || reflexivity).
Qed.

Lemma hold_updateDeck env other patch :
  other <> id ->
  Spec.triple J (Db.updateDeck env other patch) (fun _ => J) (fun _ => J).
Proof.
  intros Hne w [Hw Hs]. unfold Db.updateDeck, Db.await. unfold_m.
  destruct (fault env (length (calls w))); [split; assumption|]. cbn.
  destruct (decks (store w) !! other) as [d'|] eqn:Hd; cbn; [|split; assumption].
  split; [|exact Hs]. destruct Hw as (H1 & H2 & H3).
  split; [|split; assumption]. cbn. rewrite lookup_insert_ne by exact Hne. exact H1.
Qed.

Lemma hold_createPageDocuments env other texts :
  other <> id ->
  Spec.triple J (createPageDocuments env other texts) (fun _ => J) (fun _ => J).
Proof.
  intros Hne. unfold createPageDocuments.
  apply (triple_bind _ _ _ (fun _ => J)); [apply hold_quiet, quiet_fillBatch|].
  intros batch w [Hw Hs]. unfold Db.commitBatch, Db.await. unfold_m.
  destruct (fault env (length (calls w))); [split; assumption|]. cbn.
  split; [|exact Hs]. destruct Hw as (H1 & H2 & H3).
  split; [exact H1|]. split; [|exact H3]. cbn.
  rewrite lookup_insert_ne by exact Hne. exact H2.
Qed.

Lemma hold_findDeckToExtract env :
  Deck.status d <> UPLOADED ->
  Spec.triple J (findDeckToExtract env)
    (fun r w => J w /\ forall other data, r = Some (other, data) -> other <> id)
    (fun _ => J).
Proof.
  intros Hst w [Hw Hs]. unfold findDeckToExtract, Db.queryDecks, Db.await. unfold_m.
  destruct (fault env (length (calls w))); [split; assumption|]. cbn.
  destruct (Db.selectDecks UPLOADED _ 1 (store w)) as [|[other data] rest] eqn:Hsel; cbn.
  - split; [split; assumption|]. intros ? ? [=].
  - split; [split; assumption|]. intros ? ? [= <- <-] ->.
    destruct (selectDecks_elem UPLOADED (fun d => Some (Deck.uploadedAt d)) 1
                (store w) id data) as (Hd & Hu & _).
    { rewrite Hsel. left. }
    destruct Hw as (H1 & _). rewrite H1 in Hd. injection Hd as <-. exact (Hst Hu).
Qed.

(** A run of the job keeps the documents of a deck it does not pick. *)
Lemma extractPDFPages_holds env (w : World) :
  Deck.status d <> UPLOADED ->
  holds id d ps ins w ->
  exists w', extractPDFPages env w = (Returned tt, w') /\ holds id d ps ins w'.
Proof.
  intros Hst Hw.
  assert (H : Spec.triple (holds id d ps ins) (extractPDFPages env)
                (fun _ => holds id d ps ins) (fun _ _ => False)).
  { unfold extractPDFPages.
    apply (triple_bind _ _ _ (fun _ => J)); [apply hold_startSession|intros _].
    apply (triple_tryCatch _ _ _ _ (fun _ => J)).
    - eapply triple_bind; [apply hold_findDeckToExtract, Hst|].
      assert (Hend : forall status metadata,
                Spec.triple J (Logger.endSession env status metadata)
                  (fun _ => holds id d ps ins) (fun _ => J)).
      { intros status metadata.
        apply (triple_weaken _ J _ _
                 (fun _ w => holds id d ps ins w /\
                             deckContext (logger w) = emptyContext)
                 _ (fun _ => J));
          [apply hold_endSession|auto|intros ? ? [? ?]; assumption|auto]. }
      intros [[other data]|]; cbv beta iota.
      2:{ eapply triple_weaken; [apply Hend|intros ? [? ?]; assumption|auto|auto]. }
      apply (triple_pure _ (other <> id));
        [intros w1 [_ Ho]; exact (Ho other data eq_refl)|intros Hother].
      apply (triple_weaken _ J _ _ (fun _ => holds id d ps ins) _ (fun _ => J));
        [|intros ? [? ?]; assumption|auto|auto].
      { apply (triple_bind _ _ _ (fun _ => J)); [apply hold_setDeckContext|intros _].
        apply (triple_bind _ _ _ (fun _ => J)); [apply hold_updateDeck, Hother|intros _].
        apply (triple_bind _ _ _ (fun _ => J)); [apply hold_add|intros _].
        apply (triple_bind _ _ _ (fun _ => J));
          [apply hold_quiet, quiet_downloadPDF|intros pdfBuffer].
        apply (triple_bind _ _ _ (fun _ => J)); [apply hold_add|intros _].
        apply (triple_bind _ _ _ (fun _ => J));
          [apply hold_quiet, quiet_extractPDFText|intros pages].
        apply (triple_bind _ _ _ (fun _ => J)); [apply hold_add|intros _].
        apply (triple_bind _ _ _ (fun _ => J));
          [apply hold_createPageDocuments, Hother|intros _].
        apply (triple_bind _ _ _ (fun _ => J)); [apply hold_quiet, quiet_now|intros t].
        apply (triple_bind _ _ _ (fun _ => J)); [apply hold_updateDeck, Hother|intros _].
        apply (triple_bind _ _ _ (fun _ => J)); [apply hold_add|intros _].
        apply Hend. }
    - intros e.
      apply (triple_bind _ _ _ (fun _ => J)); [apply hold_error|intros _].
      eapply triple_bind; [apply hold_endSession|intros ?; cbv beta].
      unfold Logger.getDeckContext. unfold_m.
      intros w1 [HJ Hctx]. rewrite Hctx. cbn. exact HJ. }
  specialize (H w Hw).
  destruct (extractPDFPages env w) as [[[]|e] w']; [|contradiction].
  exists w'. auto.
Qed.

Lemma repeatedly_extract_holds envs : forall w : World,
  Deck.status d <> UPLOADED ->
  holds id d ps ins w ->
  exists w',
    repeatedly extractPDFPages envs w = (Returned tt, w') /\ holds id d ps ins w'.
Proof.
  induction envs as [|env rest IH]; intros w Hst Hw.
  - exists w. split; [reflexivity|exact Hw].
  - destruct (extractPDFPages_holds env w Hst Hw) as (w1 & Hrun & Hw1).
    destruct (IH w1 Hst Hw1) as (w2 & Hrest & Hw2).
    exists w2. split; [|exact Hw2].
    cbn [repeatedly]. rewrite (bind_returned _ _ _ _ _ Hrun). exact Hrest.
Qed.

End OneDeck.

End ExtractorFrame.

(** ** Extractor: runs of the job *)

Section ExtractorRuns.
Import Extractor Frame.

(** X9: the Extractor only ever touches a deck in status uploaded. Through
    any number of runs, whatever calls are rejected in them, a deck in any
    other status stays the document it was, its pages stay as they were,
    and no insight is written. *)
Theorem extractPDFPages_leaves_other_decks (envs : list Env) (w : World)
    (id : string) (d : Deck.t) :
  decks (store w) !! id = Some d ->
  Deck.status d <> UPLOADED ->
  exists w',
    repeatedly extractPDFPages envs w = (Returned tt, w') /\
    decks (store w') !! id = Some d /\
    pages (store w') !! id = pages (store w) !! id /\
    insights (store w') = insights (store w).
Proof.
  intros Hd Hst.
  destruct (repeatedly_extract_holds id d (pages (store w) !! id) (insights (store w))
              envs w Hst) as (w' & Hrun & H1 & H2 & H3).
  { repeat split; auto. }
  exists w'. auto.
Qed.

Lemma extractPDFPages_leaves_other_decks_witness :
  exists w',
    repeatedly extractPDFPages [Sample.env; Sample.envDownloadFails]
      Sample.worldHalfCritiqued = (Returned tt, w') /\
    decks (store w') !! "d1" = Some (Sample.analyzing 1500 1) /\
    pages (store w') !! "d1" = pages (store Sample.worldHalfCritiqued) !! "d1" /\
    insights (store w') = insights (store Sample.worldHalfCritiqued).
Proof.
  apply (extractPDFPages_leaves_other_decks [Sample.env; Sample.envDownloadFails]
           Sample.worldHalfCritiqued "d1" (Sample.analyzing 1500 1)).
  - reflexivity.
  - discriminate.
Defined.

(** X11: a run in which no call is rejected, for the oldest uploaded deck
    when it has no pages yet. The job stores exactly as many pages as
    pdf-parse reports, numbered 1, 2, ... in order, each with its text,
    the word count of that text, the status extracted and the time of the
    run; the deck goes to status analyzing with that number as its page
    count; and every other deck and its pages are left as they were. *)
Theorem extractPDFPages_stores_every_page env (w : World) (id : string) (d : Deck.t) :
  Spec.faultless env ->
  decks (store w) !! id = Some d ->
  Deck.status d = UPLOADED ->
  (forall id' d',
     id' <> id -> decks (store w) !! id' = Some d' -> Deck.status d' = UPLOADED ->
     (Deck.uploadedAt d < Deck.uploadedAt d')%Z) ->
  pages (store w) !! id = None ->
  exists w' docs,
    extractPDFPages env w = (Returned tt, w') /\
    pages (store w') !! id = Some docs /\
    map (fun p => Page.pageNumber p.2) docs =
      seq 1 (numpages (parse env (blob env (Deck.storagePath d)))) /\
    map (fun p => Page.text p.2) docs =
      splitPages (parse env (blob env (Deck.storagePath d))) /\
    Forall (fun p => Page.wordCount p.2 = wordCount (Page.text p.2) /\
                     Page.status p.2 = EXTRACTED /\
                     Page.extractedAt p.2 = clock w) docs /\
    decks (store w') !! id =
      Some (Deck.withProcessedAt (clock w)
              (Deck.withPageCount
                 (Z.of_nat (numpages (parse env (blob env (Deck.storagePath d)))))
                 (Deck.withStatus ANALYZING d))) /\
    (forall id', id' <> id ->
       decks (store w') !! id' = decks (store w) !! id' /\
       pages (store w') !! id' = pages (store w) !! id').
Proof.
  intros Henv Hd Hst Holdest Hnone.
  assert (Hsel : Db.selectDecks UPLOADED (fun d => Some (Deck.uploadedAt d)) 1 (store w)
                 = [(id, d)]).
  { apply (selectDecks_first _ _ _ _ _ (Deck.uploadedAt d)); auto.
    intros id' d' t' Hne Hd' Hst' [= <-]. apply (Holdest id' d'); assumption. }
  destruct (extractPDFPages_success env w id d [] Henv Hsel)
    as (w' & Hrun & Hdecks & Hpages & _).
  set (pd := parse env (blob env (Deck.storagePath d))) in *.
  assert (Hlen : length (splitPages pd) = numpages pd).
  { rewrite splitPages_rounds, length_map, length_seq. reflexivity. }
  eexists w', _. split; [exact Hrun|].
  split; [rewrite Hpages; apply lookup_insert_eq|].
  unfold Db.pagesOf. rewrite Hnone. cbn [default app].
  split; [|split; [|split; [|split]]].
  - rewrite <- Hlen. apply list_eq. intros k.
    rewrite list_lookup_fmap, list_lookup_imap.
    destruct (splitPages pd !! k) as [t|] eqn:Hk; cbn.
    + symmetry. rewrite lookup_seq. split; [lia|]. eapply lookup_lt_Some, Hk.
    + symmetry. apply lookup_seq_ge. apply lookup_ge_None in Hk. lia.
  - apply list_eq. intros k. rewrite list_lookup_fmap, list_lookup_imap.
    destruct (splitPages pd !! k); reflexivity.
  - apply Forall_forall. intros p Hp.
    apply elem_of_lookup_imap in Hp as (k & t & -> & _). cbn. auto.
  - rewrite Hdecks, lookup_insert_eq, Hlen. reflexivity.
  - intros id' Hne. rewrite Hdecks, Hpages, !lookup_insert_ne by congruence. auto.
Qed.

Lemma extractPDFPages_stores_every_page_witness :
  exists w' docs,
    extractPDFPages Sample.env Sample.world = (Returned tt, w') /\
    pages (store w') !! "d1" = Some docs /\
    map (fun p => Page.pageNumber p.2) docs =
      seq 1 (numpages (parse Sample.env
                         (blob Sample.env (Deck.storagePath Sample.uploaded)))) /\
    map (fun p => Page.text p.2) docs =
      splitPages (parse Sample.env (blob Sample.env (Deck.storagePath Sample.uploaded))) /\
    Forall (fun p => Page.wordCount p.2 = wordCount (Page.text p.2) /\
                     Page.status p.2 = EXTRACTED /\
                     Page.extractedAt p.2 = clock Sample.world) docs /\
    decks (store w') !! "d1" =
      Some (Deck.withProcessedAt (clock Sample.world)
              (Deck.withPageCount
                 (Z.of_nat (numpages (parse Sample.env
                                        (blob Sample.env (Deck.storagePath Sample.uploaded)))))
                 (Deck.withStatus ANALYZING Sample.uploaded))) /\
    (forall id', id' <> "d1" ->
       decks (store w') !! id' = decks (store Sample.world) !! id' /\
       pages (store w') !! id' = pages (store Sample.world) !! id').
Proof.
  apply (extractPDFPages_stores_every_page Sample.env Sample.world "d1" Sample.uploaded).
  - intros k. reflexivity.
  - reflexivity.
  - reflexivity.
  - intros id' d' Hne Hd'. exfalso.
    change (decks (store Sample.world)) with (<["d1" := Sample.uploaded]> (∅ : gmap string Deck.t)) in Hd'.
    rewrite lookup_insert_ne in Hd' by congruence. rewrite lookup_empty in Hd'. discriminate.
  - reflexivity.
Defined.

(** X12: which deck the Extractor picks. When the query is not rejected,
    [findDeckToExtract] changes nothing in the store; it returns nothing
    exactly when no deck is in status uploaded, and otherwise a deck in
    status uploaded than which no other uploaded deck was uploaded
    earlier. *)
Theorem findDeckToExtract_oldest_uploaded env (w : World) :
  fault env (length (calls w)) = None ->
  exists r w',
    findDeckToExtract env w = (Returned r, w') /\
    store w' = store w /\
    match r with
    | None =>
        forall id d, decks (store w) !! id = Some d -> Deck.status d <> UPLOADED
    | Some (id, d) =>
        decks (store w) !! id = Some d /\
        Deck.status d = UPLOADED /\
        forall id' d',
          decks (store w) !! id' = Some d' -> Deck.status d' = UPLOADED ->
          (Deck.uploadedAt d <= Deck.uploadedAt d')%Z
    end.
Proof.
  intros Hok. unfold findDeckToExtract, Db.queryDecks, Db.await. unfold_m.
  rewrite Hok. cbn.
  set (field := fun d : Deck.t => Some (Deck.uploadedAt d)).
  destruct (Db.selectDecks UPLOADED field 1 (store w)) as [|[id d] rest] eqn:Hsel.
  - eexists _, _. split; [reflexivity|]. split; [reflexivity|].
    intros id d Hd Hst.
    destruct (selectDecks_oldest UPLOADED field 1 (store w) id d Hd Hst) as [Hlen _].
    { eexists. reflexivity. }
    { rewrite Hsel. apply not_elem_of_nil. }
    rewrite Hsel in Hlen. discriminate.
  - eexists _, _. split; [reflexivity|]. split; [reflexivity|].
    destruct (selectDecks_elem UPLOADED field 1 (store w) id d) as (Hd & Hst & _).
    { rewrite Hsel. left. }
    split; [exact Hd|]. split; [exact Hst|].
    intros id' d' Hd' Hst'.
    destruct (decide (id' = id)) as [->|Hne].
    { rewrite Hd in Hd'. injection Hd' as <-. lia. }
    assert (Hrest : rest = []).
    { assert (Hl : length (Db.selectDecks UPLOADED field 1 (store w)) <= 1).
      { unfold Db.selectDecks. rewrite length_take. lia. }
      rewrite Hsel in Hl. destruct rest; [reflexivity|cbn in Hl; lia]. }
    subst rest.
    destruct (selectDecks_oldest UPLOADED field 1 (store w) id' d' Hd' Hst') as [_ Hall].
    { eexists. reflexivity. }
    { rewrite Hsel. intros Hin. apply list_elem_of_singleton in Hin. congruence. }
    specialize (Hall (id, d)). rewrite Hsel in Hall.
    specialize (Hall ltac:(left)). unfold Db.byField in Hall. cbn in Hall. exact Hall.
Qed.

Lemma findDeckToExtract_oldest_uploaded_witness :
  exists r w',
    findDeckToExtract Sample.env Sample.world = (Returned r, w') /\
    store w' = store Sample.world /\
    match r with
    | None =>
        forall id d, decks (store Sample.world) !! id = Some d -> Deck.status d <> UPLOADED
    | Some (id, d) =>
        decks (store Sample.world) !! id = Some d /\
        Deck.status d = UPLOADED /\
        forall id' d',
          decks (store Sample.world) !! id' = Some d' -> Deck.status d' = UPLOADED ->
          (Deck.uploadedAt d <= Deck.uploadedAt d')%Z
    end.
Proof.
  apply (findDeckToExtract_oldest_uploaded Sample.env Sample.world). reflexivity.
Defined.

End ExtractorRuns.

(** ** Cost ledger: the fallback *)

Section FallbackFacts.
Import Pricing.
Local Open Scope float_scope.

(** X14: the fallback law as far as it holds. For a model name that is
    neither a key of the pricing table nor a property name of
    [Object.prototype], the cost is the cost under gpt-4o-mini, 0.15 and
    0.60 dollars per million tokens, and exactly one warning is printed,
    naming the model. *)
Theorem calculateCost_fallback_law (fuel : nat) (model : string) (p c : float) :
  MODEL_PRICING !! model = None ->
  model ∉ objectPrototypeKeys ->
  calculateCost (S (S fuel)) model p c =
    Some ((p / 1000000) * 0.150 + (c / 1000000) * 0.600, [warning model]) /\
  calculateCost (S (S fuel)) "gpt-4o-mini" p c =
    Some ((p / 1000000) * 0.150 + (c / 1000000) * 0.600, []).
Proof.
  intros Hown Hproto.
  assert (Hmini : forall n, calculateCost (S n) "gpt-4o-mini" p c =
            Some ((p / 1000000) * 0.150 + (c / 1000000) * 0.600, [])).
  { intros n. rewrite calculateCost_S, getProperty_fallback. reflexivity. }
  split; [|apply Hmini].
  rewrite calculateCost_S. unfold getProperty. rewrite Hown.
  rewrite bool_decide_eq_false_2 by assumption.
  rewrite Hmini. reflexivity.
Qed.

Lemma calculateCost_fallback_law_witness :
  calculateCost 2 "unknown-model-xyz" 1000 1000 =
    Some ((1000 / 1000000) * 0.150 + (1000 / 1000000) * 0.600,
          [warning "unknown-model-xyz"]) /\
  calculateCost 2 "gpt-4o-mini" 1000 1000 =
    Some ((1000 / 1000000) * 0.150 + (1000 / 1000000) * 0.600, []).
Proof.
  apply (calculateCost_fallback_law 0 "unknown-model-xyz" 1000 1000).
  - reflexivity.
  - apply (bool_decide_unpack _). reflexivity.
Defined.

End FallbackFacts.

(** ** Critic: rules for the computations of the job *)

Section OfficeRules.
Import Ledger.

Lemma bindG_returned {A B} (m : G A) (k : A -> G B) (o o' : Office) (a : A) :
  m o = (Returned a, o') -> bindG m k o = k a o'.
Proof. intros H. unfold bindG. rewrite H. reflexivity. Qed.

Lemma bindG_threw {A B} (m : G A) (k : A -> G B) (o o' : Office) (e : JS.Thrown) :
  m o = (Threw e, o') -> bindG m k o = (Threw e, o').
Proof. intros H. unfold bindG. rewrite H. reflexivity. Qed.

Lemma tripleG_ret {A} (P : Office -> Prop) (a : A) (Q : A -> Office -> Prop) E :
  (forall o, P o -> Q a o) -> tripleG P (retG a) Q E.
Proof. intros H o Ho. apply H, Ho. Qed.

Lemma tripleG_throw {A} (P : Office -> Prop) (e : JS.Thrown)
    (Q : A -> Office -> Prop) (E : JS.Thrown -> Office -> Prop) :
  (forall o, P o -> E e o) -> tripleG P (throwG e) Q E.
Proof. intros H o Ho. apply H, Ho. Qed.

Lemma tripleG_bind {A B} (P : Office -> Prop) (m : G A) (k : A -> G B) Q' Q E :
  tripleG P m Q' E -> (forall a, tripleG (Q' a) (k a) Q E) ->
  tripleG P (bindG m k) Q E.
Proof.
  intros Hm Hk o Ho. unfold bindG. specialize (Hm o Ho).
  destruct (m o) as [[a|e] o']; [apply Hk, Hm|exact Hm].
Qed.

Lemma tripleG_tryCatch {A} (P : Office -> Prop) (body : G A) handler Q E' E :
  tripleG P body Q E' -> (forall e, tripleG (E' e) (handler e) Q E) ->
  tripleG P (tryCatchG body handler) Q E.
Proof.
  intros Hb Hh o Ho. unfold tryCatchG. specialize (Hb o Ho).
  destruct (body o) as [[a|e] o']; [exact Hb|apply Hh, Hb].
Qed.

Lemma tripleG_weaken {A} (P P' : Office -> Prop) (m : G A)
    (Q Q' : A -> Office -> Prop) (E E' : JS.Thrown -> Office -> Prop) :
  tripleG P' m Q' E' ->
  (forall o, P o -> P' o) -> (forall a o, Q' a o -> Q a o) ->
  (forall e o, E' e o -> E e o) ->
  tripleG P m Q E.
Proof.
  intros Hm HP HQ HE o Ho. specialize (Hm o (HP o Ho)).
  destruct (m o) as [[a|e] o']; auto.
Qed.

Lemma tripleG_pure {A} (P : Office -> Prop) (phi : Prop) (m : G A)
    (Q : A -> Office -> Prop) (E : JS.Thrown -> Office -> Prop) :
  (forall o, P o -> phi) -> (phi -> tripleG P m Q E) -> tripleG P m Q E.
Proof. intros Hphi H o Ho. exact (H (Hphi o Ho) o Ho). Qed.

(** *** Computations that leave the view alone *)

Lemma gquiet_ret {A} (a : A) : gquiet (retG a).
Proof. intros o. reflexivity. Qed.

Lemma gquiet_throw {A} (e : JS.Thrown) : gquiet (@throwG A e).
Proof. intros o. reflexivity. Qed.

Lemma gquiet_bind {A B} (m : G A) (k : A -> G B) :
  gquiet m -> (forall a, gquiet (k a)) -> gquiet (bindG m k).
Proof.
  intros Hm Hk o. unfold bindG. specialize (Hm o).
  destruct (m o) as [[a|e] o']; cbn in *; [|exact Hm].
  rewrite Hk. exact Hm.
Qed.

Lemma gquiet_tryCatch {A} (body : G A) (handler : JS.Thrown -> G A) :
  gquiet body -> (forall e, gquiet (handler e)) -> gquiet (tryCatchG body handler).
Proof.
  intros Hb Hh o. unfold tryCatchG. specialize (Hb o).
  destruct (body o) as [[a|e] o']; cbn in *; [exact Hb|].
  rewrite Hh. exact Hb.
Qed.

Lemma gquiet_lift {A} (m : M A) : quietly m -> gquiet (lift m).
Proof.
  intros Hm o. unfold lift, view. destruct (Hm (world o)) as (H1 & H2 & H3).
  destruct (m (world o)) as [r w']. cbn in *. rewrite H1, H2, H3. reflexivity.
Qed.

Lemma gquiet_sendRequest svc r : gquiet (sendRequest svc r).
Proof. intros o. unfold sendRequest. destruct (refuse svc _); reflexivity. Qed.

Lemma tripleG_gquiet {A} (m : G A) (P : View -> Prop) :
  gquiet m ->
  tripleG (fun o => P (view o)) m (fun _ o => P (view o)) (fun _ o => P (view o)).
Proof.
  intros Hm o Ho. specialize (Hm o).
  destruct (m o) as [[a|e] o']; cbn in *; rewrite Hm; exact Ho.
Qed.

Lemma quietly_ret {A} (a : A) : quietly (ret a).
Proof. intros w. repeat split. Qed.

Lemma quietly_bind {A B} (m : M A) (k : A -> M B) :
  quietly m -> (forall a, quietly (k a)) -> quietly (bind m k).
Proof.
  intros Hm Hk w. unfold bind. specialize (Hm w).
  destruct (m w) as [[a|e] w']; cbn in *; [|exact Hm].
  destruct (Hk a w') as (H1 & H2 & H3). destruct Hm as (H4 & H5 & H6).
  repeat split; congruence.
Qed.

Lemma quietly_tryCatch {A} (body : M A) (handler : JS.Thrown -> M A) :
  quietly body -> (forall e, quietly (handler e)) -> quietly (tryCatch body handler).
Proof.
  intros Hb Hh w. unfold tryCatch. specialize (Hb w).
  destruct (body w) as [[a|e] w']; cbn in *; [exact Hb|].
  destruct (Hh e w') as (H1 & H2 & H3). destruct Hb as (H4 & H5 & H6).
  repeat split; congruence.
Qed.

Lemma quietly_await env c : quietly (Db.await env c).
Proof. intros w. unfold Db.await. destruct (fault env _); repeat split. Qed.

Lemma quietly_get : quietly get.
Proof. intros w. repeat split. Qed.

Lemma quietly_now : quietly now.
Proof. intros w. repeat split. Qed.

Lemma quietly_throw {A} (e : JS.Thrown) : quietly (@throw A e).
Proof. intros w. repeat split. Qed.

Lemma quietly_modify (f : World -> World) :
  (forall w, decks (store (f w)) = decks (store w) /\
             pages (store (f w)) = pages (store w) /\
             insights (store (f w)) = insights (store w)) ->
  quietly (modify f).
Proof. intros H w. apply H. Qed.

Ltac quietly_step :=
  lazymatch goal with
  | |- quietly (ret _) => apply quietly_ret
  | |- quietly (throw _) => apply quietly_throw
  | |- quietly (Db.await _ _) => apply quietly_await
  | |- quietly get => apply quietly_get
  | |- quietly now => apply quietly_now
  | |- quietly (modify _) => apply quietly_modify; intros ?; repeat split
  | |- quietly (bind _ _) => apply quietly_bind; [|intros ?]
  | |- quietly (tryCatch _ _) => apply quietly_tryCatch; [|intros ?]
  | |- quietly (match ?x with _ => _ end) => destruct x
  end.

Lemma quietly_consoleWrite l : quietly (consoleWrite l).
Proof. unfold consoleWrite. repeat quietly_step. Qed.

Lemma quietly_startSession action deckId : quietly (Logger.startSession action deckId).
Proof. unfold Logger.startSession, consoleWrite. repeat quietly_step. Qed.

Lemma quietly_setDeckContext deckId fileName :
  quietly (Logger.setDeckContext deckId fileName).
Proof. unfold Logger.setDeckContext, consoleWrite. repeat quietly_step. Qed.

Lemma quietly_add message data : quietly (Logger.add message data).
Proof. unfold Logger.add, consoleWrite. repeat quietly_step. Qed.

Lemma quietly_error message e : quietly (Logger.error message e).
Proof. unfold Logger.error, consoleWrite. repeat quietly_step. Qed.

Lemma quietly_endSession env status metadata :
  quietly (Logger.endSession env status metadata).
Proof.
  unfold Logger.endSession, Db.addAutomationLog, consoleWrite. repeat quietly_step.
Qed.

Lemma quietly_queryDecks env st field n : quietly (Db.queryDecks env st field n).
Proof. unfold Db.queryDecks. repeat quietly_step. Qed.

Lemma quietly_queryPages env deckId : quietly (Db.queryPages env deckId).
Proof. unfold Db.queryPages. repeat quietly_step. Qed.

Lemma quietly_queryInsights env deckId n ty : quietly (Db.queryInsights env deckId n ty).
Proof. unfold Db.queryInsights. repeat quietly_step. Qed.

Lemma quietly_queryAllInsights env deckId : quietly (Db.queryAllInsights env deckId).
Proof. unfold Db.queryAllInsights. repeat quietly_step. Qed.

(** *** Computations that never throw *)

Lemma returns_error message e : returns (Logger.error message e).
Proof.
  intros w. unfold Logger.error. unfold_m.
  destruct (session (logger w)); eexists; reflexivity.
Qed.

Lemma returns_endSession env status metadata :
  returns (Logger.endSession env status metadata).
Proof.
  intros w. unfold Logger.endSession, Db.addAutomationLog, Db.await. unfold_m.
  destruct (session (logger w)); [|eexists; reflexivity]. cbn.
  destruct (fault env _); eexists; reflexivity.
Qed.

Lemma returns_startSession action deckId : returns (Logger.startSession action deckId).
Proof. intros w. eexists. reflexivity. Qed.

Lemma tripleG_lift_returns {A} (m : M A) (P : View -> Prop)
    (E : JS.Thrown -> Office -> Prop) :
  quietly m -> returns m ->
  tripleG (fun o => P (view o)) (lift m) (fun _ o => P (view o)) E.
Proof.
  intros Hq Hr o Ho. pose proof (gquiet_lift m Hq o) as Hv.
  unfold lift in *. destruct (Hr (world o)) as [a Ha].
  destruct (m (world o)) as [r w']. cbn in *. subst r. rewrite Hv. exact Ho.
Qed.

End OfficeRules.

(** ** Critic: what a run of the job may do *)

Section CriticOutcome.
Import Ledger.

(** Whatever calls are rejected, a page the scan returns is a page of the
    deck without an insight of type "problem", and the store is left as it
    was. *)
Lemma scanPages_sound env deckId deck pageDocs : forall w : World,
  store (Critic.scanPages env deckId deck pageDocs w).2 = store w /\
  forall it,
    (Critic.scanPages env deckId deck pageDocs w).1 = Returned (Some it) ->
    Critic.deckId it = deckId /\ Critic.deck it = deck /\
    (Critic.pageId it, Critic.page it) ∈ pageDocs /\
    ~ Spec.critiqued (store w) it.
Proof.
  induction pageDocs as [|[pageId page] rest IH]; intros w.
  - split; [reflexivity|]. intros it [=].
  - cbn [Critic.scanPages]. unfold Db.queryInsights, Db.await. unfold_m.
    destruct (fault env (length (calls w))); [split; [reflexivity|intros it [=]]|].
    cbn [store withCall].
    destruct (Db.selectInsights deckId (Page.pageNumber page) PROBLEM (store w)) eqn:Hsel.
    + split; [reflexivity|]. cbn. intros it [= <-]. cbn.
      split; [reflexivity|]. split; [reflexivity|]. split; [left|].
      apply selectInsights_none. exact Hsel.
    + destruct (IH (withCall (QueryInsights deckId) w)) as [Hst Hit].
      split; [exact Hst|]. intros it Hr.
      destruct (Hit it Hr) as (H1 & H2 & H3 & H4).
      split; [exact H1|]. split; [exact H2|]. split; [right; exact H3|exact H4].
Qed.

Lemma scanDecks_sound env deckDocs : forall w : World,
  (forall id d, (id, d) ∈ deckDocs ->
     decks (store w) !! id = Some d /\ Deck.status d = ANALYZING) ->
  store (Critic.scanDecks env deckDocs w).2 = store w /\
  forall it,
    (Critic.scanDecks env deckDocs w).1 = Returned (Some it) ->
    candidate (store w) it.
Proof.
  induction deckDocs as [|[deckId deck] rest IH]; intros w Hall.
  - split; [reflexivity|]. intros it [=].
  - cbn [Critic.scanDecks]. unfold Db.queryPages, Db.await. unfold_m.
    destruct (fault env (length (calls w))); [split; [reflexivity|intros it [=]]|].
    cbn [store withCall].
    destruct (scanPages_sound env deckId deck (Db.selectPages deckId (store w))
                (withCall (QueryPages deckId) w)) as [Hst Hit].
    destruct (Critic.scanPages env deckId deck (Db.selectPages deckId (store w))
                (withCall (QueryPages deckId) w)) as [[[it|]|e] w1] eqn:Hscan;
      cbn [fst snd store withCall] in *.
    + split; [exact Hst|]. intros it' [= <-].
      destruct (Hit it eq_refl) as (H1 & H2 & H3 & H4).
      destruct (Hall deckId deck ltac:(left)) as [Hd Hs].
      unfold candidate. rewrite H1, H2.
      split; [exact Hd|]. split; [exact Hs|]. split; [|exact H4].
      unfold Db.selectPages in H3. rewrite merge_sort_Permutation in H3. exact H3.
    + destruct (IH w1) as [Hst' Hit'].
      { intros id d Hin. rewrite Hst. apply Hall. right. exact Hin. }
      split; [rewrite Hst'; exact Hst|]. intros it Hr. rewrite <- Hst. apply Hit', Hr.
    + split; [exact Hst|]. intros it [=].
Qed.

Lemma findPageToCritique_sound env (w : World) :
  store (Critic.findPageToCritique env w).2 = store w /\
  forall it,
    (Critic.findPageToCritique env w).1 = Returned (Some it) ->
    candidate (store w) it.
Proof.
  unfold Critic.findPageToCritique, Db.queryDecks, Db.await. unfold_m.
  destruct (fault env (length (calls w))); [split; [reflexivity|intros it [=]]|].
  cbn [store withCall].
  destruct (Db.selectDecks ANALYZING Deck.processedAt 10 (store w)) as [|dd rest] eqn:Hsel.
  - split; [reflexivity|]. intros it [=].
  - apply (scanDecks_sound env (dd :: rest) (withCall (QueryDecks ANALYZING) w)).
    intros id d Hin. rewrite <- Hsel in Hin.
    destruct (selectDecks_elem _ _ _ _ _ _ Hin) as (H1 & H2 & _). auto.
Qed.

Lemma quietly_findPageToCritique env : quietly (Critic.findPageToCritique env).
Proof.
  intros w. destruct (findPageToCritique_sound env w) as [H _]. rewrite H. auto.
Qed.

(** The completion check leaves the store as it was or completes the
    deck. *)
Lemma checkIfDeckComplete_effect env deckId pageCount (w : World) :
  let w' := (Critic.checkIfDeckComplete env deckId pageCount w).2 in
  pages (store w') = pages (store w) /\
  insights (store w') = insights (store w) /\
  (decks (store w') = decks (store w) \/
   exists d, decks (store w) !! deckId = Some d /\
             decks (store w') = <[deckId := Deck.withStatus COMPLETE d]> (decks (store w))).
Proof.
  unfold Critic.checkIfDeckComplete, Db.queryAllInsights, Db.updateDeck, Db.await,
    Logger.add. unfold_m.
  destruct (fault env (length (calls w))); [cbn; auto|]. cbn.
  destruct (_ <=? _)%Z; [|cbn; auto].
  destruct (fault env _); [cbn; auto|]. cbn.
  destruct (decks (store w) !! deckId) as [d|] eqn:Hd; cbn; [|auto].
  split; [reflexivity|]. split; [reflexivity|]. right. exists d. auto.
Qed.

Lemma gquiet_calculateCost model p c : gquiet (CostTracker.calculateCost model p c).
Proof.
  unfold CostTracker.calculateCost.
  destruct (Pricing.calculateCost 2 model p c) as [[cost warnings]|];
    [|apply gquiet_throw].
  apply gquiet_bind; [|intros ?; apply gquiet_ret].
  apply gquiet_lift. induction warnings as [|t rest IH]; cbn [fold_right].
  - apply quietly_ret.
  - apply quietly_bind; [apply quietly_consoleWrite|intros ?; exact IH].
Qed.

Lemma gquiet_callOpenAI svc prompt options :
  gquiet (Servicer.callOpenAI svc prompt options).
Proof.
  unfold Servicer.callOpenAI. cbv zeta.
  apply gquiet_tryCatch.
  - apply gquiet_bind; [apply gquiet_sendRequest|intros _].
    apply gquiet_bind.
    { destruct (AI.choices _); [apply gquiet_throw|apply gquiet_ret]. }
    intros content. apply gquiet_bind.
    { destruct (parseJson svc content); [apply gquiet_throw|apply gquiet_ret]. }
    intros result.
    destruct (AI.completionUsage _); [apply gquiet_ret|apply gquiet_throw].
  - intros e. apply gquiet_bind; [|intros _; apply gquiet_throw].
    apply gquiet_lift, quietly_consoleWrite.
Qed.

(** [trackAICost] appends one cost record, the one it returns, or throws
    and appends none. *)
Lemma trackAICost_effect svc model usage action actorName deckId pageNumber (o : Office) :
  match CostTracker.trackAICost svc model usage action actorName deckId pageNumber o with
  | (Returned c, o') =>
      view o' = ((view o).1.1.1, (view o).1.1.2, (view o).1.2, aiCosts o ++ [c]) /\
      AICost.model c = model /\
      AICost.deckId c = deckId /\
      AICost.pageNumber c = pageNumber /\
      AICost.actorName c = actorName /\
      AICost.action c = action /\
      Some (AICost.costUSD c) =
        fst <$> Pricing.calculateCost 2 model (AI.prompt_tokens usage)
                  (AI.completion_tokens usage)
  | (Threw _, o') => view o' = view o
  end.
Proof.
  unfold CostTracker.trackAICost.
  pose proof (gquiet_calculateCost model (AI.prompt_tokens usage)
                (AI.completion_tokens usage) o) as Hq.
  unfold bindG at 1.
  assert (Hc : forall cost o1,
            CostTracker.calculateCost model (AI.prompt_tokens usage)
              (AI.completion_tokens usage) o = (Returned cost, o1) ->
            Some cost = fst <$> Pricing.calculateCost 2 model (AI.prompt_tokens usage)
                                  (AI.completion_tokens usage)).
  { unfold CostTracker.calculateCost.
    destruct (Pricing.calculateCost 2 model _ _) as [[cost' ws]|]; [|discriminate].
    unfold bindG, retG. intros cost o1.
    destruct (lift _ o) as [[[]|e] o2]; [|discriminate]. intros [= <- _]. reflexivity. }
  destruct (CostTracker.calculateCost model _ _ o) as [[cost|e] o1]; [|exact Hq].
  specialize (Hc cost o1 eq_refl). cbn [snd] in Hq.
  unfold bindG, lift, now, sendRequest, withAICost, retG, consoleWrite, modify.
  cbn.
  destruct (refuse svc (length (requests o1))); cbn.
  - exact Hq.
  - unfold view in *. cbn.
    injection Hq as H1 H2 H3 H4. rewrite H1, H2, H3, H4.
    repeat split. exact Hc.
Qed.

Lemma fold_warnings_returns (warnings : list string) (w : World) :
  exists w',
    fold_right (fun text rest => bind (consoleWrite (ConsoleWarn text)) (fun _ => rest))
      (ret tt) warnings w = (Returned tt, w').
Proof.
  revert w. induction warnings as [|t rest IH]; intros w; cbn [fold_right].
  - eexists. reflexivity.
  - unfold bind at 1, consoleWrite, modify. apply IH.
Qed.

Section OneRun.
Variables (env : Env) (svc : Service) (o0 : Office).

Local Abbreviation fs0 := (store (world o0)).

Lemma same_any v : same o0 v -> any o0 v.
Proof.
  intros Hv o Ho. unfold same in Hv. subst v.
  unfold outcome, view in *. injection Ho as H1 H2 H3 H4.
  split; [exact H2|]. left. split; [exact H1|]. split; [exact H3|].
  exists []. rewrite app_nil_r. split; [exact H4|simpl; lia].
Qed.

Lemma costed_any c v : costed o0 c v -> any o0 v.
Proof.
  intros Hv o Ho. unfold costed in Hv. subst v.
  unfold outcome, view in *. injection Ho as H1 H2 H3 H4.
  split; [exact H2|]. left. split; [exact H1|]. split; [exact H3|].
  exists [c]. split; [exact H4|simpl; lia].
Qed.

Lemma insighted_any it i c v :
  candidate fs0 it -> Insight.type i = PROBLEM ->
  Insight.pageNumber i = Page.pageNumber (Critic.page it) ->
  AICost.deckId c = Some (Critic.deckId it) ->
  AICost.pageNumber c = Some (Page.pageNumber (Critic.page it)) ->
  insighted o0 it i c v \/ completed o0 it i c v -> any o0 v.
Proof.
  intros Hc Ht Hn Hd Hp Hv o Ho. unfold outcome.
  assert (Hpg : pages (store (world o)) = pages fs0).
  { destruct Hv as [Hv|Hv]; unfold insighted, completed in Hv; subst v;
      unfold view in Ho; injection Ho as _ H2 _ _; exact H2. }
  split; [exact Hpg|]. right. exists it, i, c. unfold wrote.
  split; [exact Hc|]. split; [exact Ht|]. split; [exact Hn|].
  destruct Hv as [Hv|Hv]; unfold insighted, completed in Hv; subst v;
    unfold view in Ho; injection Ho as H1 H2 H3 H4;
    (split; [exact H3|]); (split; [auto|]); auto.
Qed.

Lemma stage {A} (m : G A) (P : View -> Prop) :
  gquiet m -> (forall v, P v -> any o0 v) ->
  tripleG (fun o => P (view o)) m (fun _ o => P (view o)) (fun _ o => any o0 (view o)).
Proof.
  intros Hm Hany.
  eapply tripleG_weaken; [apply (tripleG_gquiet m P Hm)|auto|auto|].
  intros ? o Ho. apply Hany, Ho.
Qed.

Lemma critiquePage_effect prompt deckId pageNumber actorName action :
  tripleG (fun o => same o0 (view o))
    (Servicer.critiquePage svc prompt deckId pageNumber actorName action)
    (fun _ o => exists c, costed o0 c (view o) /\
                          AICost.deckId c = Some deckId /\
                          AICost.pageNumber c = Some pageNumber)
    (fun _ o => any o0 (view o)).
Proof.
  unfold Servicer.critiquePage.
  apply (tripleG_bind _ _ _ (fun _ o => same o0 (view o)));
    [apply stage; [apply gquiet_callOpenAI|apply same_any]|intros response].
  eapply tripleG_bind; [|intros c; apply tripleG_ret; intros o Ho; exact Ho].
  intros o Ho.
  pose proof (trackAICost_effect svc Servicer.DEFAULT_MODEL
                (AI.mkCompletionUsage (AI.promptTokens (AI.usage response))
                   (AI.completionTokens (AI.usage response))
                   (AI.totalTokens (AI.usage response)))
                action actorName (Some deckId) (Some pageNumber) o) as H.
  destruct (CostTracker.trackAICost _ _ _ _ _ _ _ o) as [[c|e] o'].
  - destruct H as (Hv & _ & Hd & Hp & _). exists c.
    split; [|auto]. unfold costed. rewrite Hv. unfold same in Ho.
    assert (Hc : aiCosts o = aiCosts o0) by (unfold view in Ho; congruence).
    rewrite Ho, Hc. reflexivity.
  - apply same_any. unfold same. rewrite H. exact Ho.
Qed.

Lemma addInsight_effect it i c :
  tripleG (fun o => costed o0 c (view o))
    (CriticJob.addInsight svc (Critic.deckId it) i)
    (fun _ o => insighted o0 it i c (view o))
    (fun _ o => costed o0 c (view o)).
Proof.
  intros o Ho. unfold CriticJob.addInsight, bindG, sendRequest, lift, modify.
  destruct (refuse svc (length (requests o))); cbn; [exact Ho|].
  unfold costed, insighted, view in *. cbn.
  injection Ho as H1 H2 H3 H4. rewrite H1, H2, H3, H4.
  unfold Db.insightsOf. rewrite H3. reflexivity.
Qed.

Lemma checkIfDeckComplete_stage it i c pageCount :
  decks fs0 !! Critic.deckId it = Some (Critic.deck it) ->
  tripleG (fun o => insighted o0 it i c (view o))
    (lift (Critic.checkIfDeckComplete env (Critic.deckId it) pageCount))
    (fun _ o => insighted o0 it i c (view o) \/ completed o0 it i c (view o))
    (fun _ o => insighted o0 it i c (view o) \/ completed o0 it i c (view o)).
Proof.
  intros Hd o Ho. unfold lift.
  pose proof (checkIfDeckComplete_effect env (Critic.deckId it) pageCount (world o))
    as (H1 & H2 & H3).
  destruct (Critic.checkIfDeckComplete env (Critic.deckId it) pageCount (world o))
    as [r w']. cbn [snd] in *.
  assert (Hstage : insighted o0 it i c (view (mkOffice w' (aiCosts o) (requests o))) \/
                   completed o0 it i c (view (mkOffice w' (aiCosts o) (requests o)))).
  { unfold insighted, completed, view in *. cbn. injection Ho as Ha Hb Hc Hdd.
    rewrite H1, H2, Hb, Hc, Hdd.
    destruct H3 as [->|(d & Hlook & ->)].
    - left. rewrite Ha. reflexivity.
    - right. rewrite Ha in *. rewrite Hd in Hlook. injection Hlook as <-. reflexivity. }
  destruct r; exact Hstage.
Qed.

(** Every run of the job returns normally, and its effect is one of the
    outcomes. *)
Lemma critiqueProblemStatement_outcome :
  exists o', CriticJob.critiqueProblemStatement env svc o0 = (Returned tt, o') /\
             outcome o0 o'.
Proof.
  assert (H : tripleG (fun o => same o0 (view o))
                (CriticJob.critiqueProblemStatement env svc)
                (fun _ o => any o0 (view o)) (fun _ _ => False)).
  { unfold CriticJob.critiqueProblemStatement.
    apply (tripleG_bind _ _ _ (fun _ o => same o0 (view o))).
    { apply tripleG_lift_returns;
        [apply quietly_startSession|apply returns_startSession]. }
    intros _.
    apply (tripleG_tryCatch _ _ _ _ (fun _ o => any o0 (view o))).
    - apply (tripleG_bind _ _ _
               (fun r o => same o0 (view o) /\ forall it, r = Some it -> candidate fs0 it)).
      { intros o Ho. unfold lift.
        destruct (findPageToCritique_sound env (world o)) as [Hst Hit].
        assert (Hfs : store (world o) = fs0 -> True) by auto.
        destruct (Critic.findPageToCritique env (world o)) as [[r|e] w'] eqn:Hfind;
          cbn [fst snd] in *.
        - split.
          + unfold same, view in *. cbn. rewrite Hst. exact Ho.
          + intros it ->. specialize (Hit it eq_refl).
            unfold candidate in *. unfold same, view in Ho.
            injection Ho as H1 H2 H3 H4. unfold Spec.critiqued, Spec.hasProblemInsight,
              Db.pagesOf, Db.insightsOf in *.
            rewrite H1, H2, H3 in Hit. exact Hit.
        - apply same_any. unfold same, view in *. cbn. rewrite Hst. exact Ho. }
      intros [[deckId pageId page deck]|].
      2:{ eapply tripleG_weaken;
            [apply (tripleG_lift_returns _ (same o0) (fun _ o => any o0 (view o)));
               [apply quietly_endSession|apply returns_endSession]
            |intros o [Ho _]; exact Ho
            |intros ? o Ho; apply same_any, Ho
            |auto]. }
      apply (tripleG_pure _ (candidate fs0 (Critic.mkItem deckId pageId page deck)));
        [intros o [_ Hc]; apply Hc; reflexivity|intros Hcand].
      set (it := Critic.mkItem deckId pageId page deck) in *.
      apply (tripleG_weaken _ (fun o => same o0 (view o)) _ _ (fun _ o => any o0 (view o))
               _ (fun _ o => any o0 (view o))); [|intros o [Ho _]; exact Ho|auto|auto].
      apply (tripleG_bind _ _ _ (fun _ o => same o0 (view o)));
        [apply stage; [apply gquiet_lift, quietly_setDeckContext|apply same_any]|intros _].
      apply (tripleG_bind _ _ _ (fun _ o => same o0 (view o)));
        [apply stage; [apply gquiet_lift, quietly_add|apply same_any]|intros _].
      cbv zeta.
      eapply tripleG_bind; [apply critiquePage_effect|intros response].
      intros o (c & Hcost & Hcd & Hcp). revert o Hcost.
      change (tripleG (fun o => costed o0 c (view o))
                (bindG (lift (Logger.add "Critique complete"
                   (Some (<["rating" := VNum (AI.rating (AI.result response))]>
                      (<["cost" := VStr ("$" +:+ toFixed4 svc
                                           (AI.costUSD (AI.usage response)))]> ∅)))))
                   (fun _ => bindG (lift now) (fun t =>
                    bindG (CriticJob.addInsight svc deckId
                             (Insight.mk PROBLEM (Page.pageNumber page)
                                (AI.rating (AI.result response))
                                (AI.feedback (AI.result response))
                                (AI.reasoning (AI.result response))
                                CriticJob.ACTOR_NAME t))
                      (fun _ => bindG (lift (Logger.add "Insight saved to Firestore" None))
                      (fun _ => bindG (lift (Critic.checkIfDeckComplete env deckId
                                               (Deck.pageCount deck)))
                      (fun _ => lift (Logger.endSession env (Some Completed)
                        (Some (<["pageNumber" := VNum (Z.of_nat (Page.pageNumber page))]>
                           (<["rating" := VNum (AI.rating (AI.result response))]>
                              (<["costUSD" := numberValue svc
                                   (AI.costUSD (AI.usage response))]> ∅)))))))))))
                (fun _ o => any o0 (view o)) (fun _ o => any o0 (view o))).
      apply (tripleG_bind _ _ _ (fun _ o => costed o0 c (view o)));
        [apply stage; [apply gquiet_lift, quietly_add|apply costed_any]|intros _].
      apply (tripleG_bind _ _ _ (fun _ o => costed o0 c (view o)));
        [apply stage; [apply gquiet_lift, quietly_now|apply costed_any]|intros t].
      set (i := Insight.mk PROBLEM (Page.pageNumber page) _ _ _ _ t).
      assert (Hany : forall v, insighted o0 it i c v \/ completed o0 it i c v -> any o0 v).
      { intros v. apply insighted_any; auto. }
      apply (tripleG_bind _ _ _ (fun _ o => insighted o0 it i c (view o))).
      { eapply tripleG_weaken; [apply (addInsight_effect it i c)|auto|auto|].
        intros ? o Ho. eapply costed_any, Ho. }
      intros _.
      apply (tripleG_bind _ _ _ (fun _ o => insighted o0 it i c (view o))).
      { apply stage; [apply gquiet_lift, quietly_add|]. intros v Hv. apply Hany. auto. }
      intros _.
      apply (tripleG_bind _ _ _
               (fun _ o => insighted o0 it i c (view o) \/ completed o0 it i c (view o))).
      { eapply tripleG_weaken;
          [apply (checkIfDeckComplete_stage it i c); apply Hcand|auto|auto|].
        intros ? o Ho. apply Hany, Ho. }
      intros _.
      eapply tripleG_weaken;
        [apply (tripleG_lift_returns _
                  (fun v => insighted o0 it i c v \/ completed o0 it i c v)
                  (fun _ o => any o0 (view o)));
           [apply quietly_endSession|apply returns_endSession]
        |auto|intros ? o Ho; apply Hany, Ho|auto].
    - intros e.
      apply (tripleG_bind _ _ _ (fun _ o => any o0 (view o))).
      { apply tripleG_lift_returns; [apply quietly_error|apply returns_error]. }
      intros _.
      apply tripleG_lift_returns; [apply quietly_endSession|apply returns_endSession]. }
  specialize (H o0 eq_refl).
  destruct (CriticJob.critiqueProblemStatement env svc o0) as [[[]|e] o']; [|contradiction].
  exists o'. split; [reflexivity|]. apply H. reflexivity.
Qed.

End OneRun.

End CriticOutcome.

(** ** Critic: every run of the job *)

Section CriticRuns.
Import Ledger Pipeline.

(** X15: the Critic's job never throws, and what it can change is small.
    Whatever calls and requests are rejected and whatever the service
    answers, a run returns normally; it changes no page; the only change
    it makes to a deck is to move one deck from status analyzing to status
    complete; and it writes at most one cost record. *)
Theorem critiqueProblemStatement_bounded_effect env svc (o : Office) :
  exists o',
    CriticJob.critiqueProblemStatement env svc o = (Returned tt, o') /\
    pages (store (world o')) = pages (store (world o)) /\
    (forall id,
       decks (store (world o')) !! id = decks (store (world o)) !! id \/
       exists d,
         decks (store (world o)) !! id = Some d /\ Deck.status d = ANALYZING /\
         decks (store (world o')) !! id = Some (Deck.withStatus COMPLETE d)) /\
    (exists l, aiCosts o' = aiCosts o ++ l /\ length l <= 1).
Proof.
  destruct (critiqueProblemStatement_outcome env svc o) as (o' & Hrun & Hpg & Hout).
  exists o'. split; [exact Hrun|]. split; [exact Hpg|].
  destruct Hout as [(Hd & _ & Hl)|(it & i & c & Hw)].
  - split; [|exact Hl]. intros id. left. rewrite Hd. reflexivity.
  - destruct Hw as ((Hdeck & Hst & _) & _ & _ & _ & Hd & Hc & _).
    split; [|exists [c]; split; [exact Hc|simpl; lia]].
    intros id. destruct Hd as [Hd|Hd]; rewrite Hd; [left; reflexivity|].
    destruct (decide (Critic.deckId it = id)) as [<-|Hne].
    + right. exists (Critic.deck it). rewrite lookup_insert_eq. auto.
    + left. rewrite lookup_insert_ne by exact Hne. reflexivity.
Qed.

Lemma problemInsights_none fs deckId n :
  ~ Spec.hasProblemInsight fs deckId n -> problemInsights fs deckId n = 0.
Proof.
  intros H. apply selectInsights_none in H. unfold Db.selectInsights in H.
  unfold problemInsights. destruct (List.filter _ _); [reflexivity|discriminate].
Qed.

Lemma problemInsights_insert (fs fs' : Firestore) (k : string) (i : Insight.t)
    (deckId : string) (n : nat) :
  insights fs' = <[k := Db.insightsOf k fs ++ [i]]> (insights fs) ->
  problemInsights fs' deckId n =
    problemInsights fs deckId n +
    (if bool_decide (k = deckId) &&
        (Nat.eqb (Insight.pageNumber i) n && bool_decide (Insight.type i = PROBLEM))
     then 1 else 0).
Proof.
  intros Hi. unfold problemInsights, Db.insightsOf. rewrite Hi.
  case_bool_decide as Hk.
  - subst k. rewrite lookup_insert_eq. cbn [from_option id andb].
    rewrite List.filter_app, length_app. cbn [List.filter].
    destruct (_ && _); reflexivity.
  - rewrite lookup_insert_ne by exact Hk. cbn [andb]. lia.
Qed.

(** X16: the job writes an insight only for a page that has none of type
    "problem". Over a run, whatever is rejected, the number of "problem"
    insights of every page number of every deck stays as it was, or goes
    from 0 to 1; so a store in which no page has two such insights stays
    that way. *)
Theorem critiqueProblemStatement_one_problem_per_page env svc (o : Office) :
  exists o',
    CriticJob.critiqueProblemStatement env svc o = (Returned tt, o') /\
    (forall deckId n,
       problemInsights (store (world o')) deckId n =
         problemInsights (store (world o)) deckId n \/
       (problemInsights (store (world o)) deckId n = 0 /\
        problemInsights (store (world o')) deckId n = 1)) /\
    (oneProblemPerPage (store (world o)) -> oneProblemPerPage (store (world o'))).
Proof.
  destruct (critiqueProblemStatement_outcome env svc o) as (o' & Hrun & Hpg & Hout).
  exists o'. split; [exact Hrun|].
  assert (Hcount : forall deckId n,
            problemInsights (store (world o')) deckId n =
              problemInsights (store (world o)) deckId n \/
            (problemInsights (store (world o)) deckId n = 0 /\
             problemInsights (store (world o')) deckId n = 1)).
  { intros deckId n.
    destruct Hout as [(_ & Hi & _)|(it & i & c & Hw)].
    { left. unfold problemInsights, Db.insightsOf. rewrite Hi. reflexivity. }
    destruct Hw as ((_ & _ & _ & Hnot) & Hty & Hn & Hi & _).
    rewrite (problemInsights_insert _ _ _ _ deckId n Hi), Hn, Hty.
    rewrite (bool_decide_eq_true_2 (PROBLEM = PROBLEM)) by reflexivity.
    rewrite andb_true_r.
    case_bool_decide as Hk; cbn [andb]; [|left; lia].
    destruct (Nat.eqb (Page.pageNumber (Critic.page it)) n) eqn:En; [|left; lia].
    apply Nat.eqb_eq in En. subst n deckId. right.
    rewrite (problemInsights_none _ _ _ Hnot). split; reflexivity. }
  split; [exact Hcount|].
  intros Hone deckId n. specialize (Hone deckId n).
  destruct (Hcount deckId n) as [H|[_ H]]; lia.
Qed.

(** A run of either job keeps a deck that is neither uploaded nor under
    analysis, with its pages and its insights. *)
Lemma runJob_keeps_final (r : Run) (o : Office) (id : string) (d : Deck.t) :
  decks (store (world o)) !! id = Some d ->
  Deck.status d <> UPLOADED -> Deck.status d <> ANALYZING ->
  exists o',
    runJob r o = (Returned tt, o') /\
    decks (store (world o')) !! id = Some d /\
    pages (store (world o')) !! id = pages (store (world o)) !! id /\
    insights (store (world o')) !! id = insights (store (world o)) !! id.
Proof.
  intros Hd Hu Ha. destruct r as [env|env svc].
  - destruct (extractPDFPages_holds id d (pages (store (world o)) !! id)
                (insights (store (world o))) env (world o) Hu)
      as (w' & Hrun & H1 & H2 & H3).
    { repeat split; auto. }
    exists (mkOffice w' (aiCosts o) (requests o)).
    split; [cbn; unfold lift; rewrite Hrun; reflexivity|].
    cbn. rewrite H3. auto.
  - destruct (critiqueProblemStatement_outcome env svc o) as (o' & Hrun & Hpg & Hout).
    exists o'. split; [exact Hrun|]. rewrite Hpg.
    destruct Hout as [(H1 & H2 & _)|(it & i & c & Hw)]; [rewrite H1, H2; auto|].
    destruct Hw as ((Hdeck & Hst & _) & _ & _ & Hi & Hdd & _).
    assert (Hne : Critic.deckId it <> id).
    { intros Heq. rewrite Heq, Hd in Hdeck. injection Hdeck as ->. exact (Ha Hst). }
    rewrite Hi, lookup_insert_ne by exact Hne.
    destruct Hdd as [->| ->]; [auto|].
    rewrite lookup_insert_ne by exact Hne. auto.
Qed.

(** X17: the statuses extracting, complete and error are final. Through
    any sequence of runs of the Extractor and the Critic, whatever is
    rejected in them, a deck in one of these statuses stays the document it
    was, with the same pages and the same insights. In particular a deck
    that a failed extraction left in status extracting is never picked up
    again by either job. *)
Theorem schedule_keeps_final_decks (runs : list Run) (o : Office)
    (id : string) (d : Deck.t) :
  decks (store (world o)) !! id = Some d ->
  Deck.status d <> UPLOADED -> Deck.status d <> ANALYZING ->
  exists o',
    schedule runs o = (Returned tt, o') /\
    decks (store (world o')) !! id = Some d /\
    pages (store (world o')) !! id = pages (store (world o)) !! id /\
    insights (store (world o')) !! id = insights (store (world o)) !! id.
Proof.
  revert o. induction runs as [|r rest IH]; intros o Hd Hu Ha.
  - exists o. repeat split; auto.
  - destruct (runJob_keeps_final r o id d Hd Hu Ha) as (o1 & Hrun & H1 & H2 & H3).
    destruct (IH o1 H1 Hu Ha) as (o2 & Hrest & H4 & H5 & H6).
    exists o2. split; [|rewrite H5, H6; auto].
    unfold schedule. cbn [rounds]. rewrite (bindG_returned _ _ _ _ _ Hrun). exact Hrest.
Qed.

(** A run of either job keeps a deck that is not uploaded and has no
    pages. *)
Lemma runJob_keeps_pageless (r : Run) (o : Office) (id : string) (d : Deck.t) :
  decks (store (world o)) !! id = Some d ->
  Deck.status d <> UPLOADED ->
  Db.pagesOf id (store (world o)) = [] ->
  exists o',
    runJob r o = (Returned tt, o') /\
    decks (store (world o')) !! id = Some d /\
    Db.pagesOf id (store (world o')) = [] /\
    Db.insightsOf id (store (world o')) = Db.insightsOf id (store (world o)).
Proof.
  intros Hd Hu Hp. destruct r as [env|env svc].
  - destruct (extractPDFPages_holds id d (pages (store (world o)) !! id)
                (insights (store (world o))) env (world o) Hu)
      as (w' & Hrun & H1 & H2 & H3).
    { repeat split; auto. }
    exists (mkOffice w' (aiCosts o) (requests o)).
    split; [cbn; unfold lift; rewrite Hrun; reflexivity|].
    unfold Db.pagesOf, Db.insightsOf in *. cbn. rewrite H2, H3. auto.
  - destruct (critiqueProblemStatement_outcome env svc o) as (o' & Hrun & Hpg & Hout).
    exists o'. split; [exact Hrun|]. unfold Db.pagesOf, Db.insightsOf in *. rewrite Hpg.
    destruct Hout as [(H1 & H2 & _)|(it & i & c & Hw)]; [rewrite H1, H2; auto|].
    destruct Hw as ((Hdeck & Hst & Hin & _) & _ & _ & Hi & Hdd & _).
    assert (Hne : Critic.deckId it <> id).
    { intros Heq. unfold Db.pagesOf in Hin. rewrite Heq, Hp in Hin. inversion Hin. }
    rewrite Hi, lookup_insert_ne by exact Hne.
    destruct Hdd as [->| ->]; [auto|].
    rewrite lookup_insert_ne by exact Hne. auto.
Qed.

Lemma schedule_keeps_pageless (runs : list Run) : forall (o : Office) (id : string)
    (d : Deck.t),
  decks (store (world o)) !! id = Some d ->
  Deck.status d <> UPLOADED ->
  Db.pagesOf id (store (world o)) = [] ->
  exists o',
    schedule runs o = (Returned tt, o') /\
    decks (store (world o')) !! id = Some d /\
    Db.pagesOf id (store (world o')) = [] /\
    Db.insightsOf id (store (world o')) = Db.insightsOf id (store (world o)).
Proof.
  induction runs as [|r rest IH]; intros o id d Hd Hu Hp.
  - exists o. repeat split; auto.
  - destruct (runJob_keeps_pageless r o id d Hd Hu Hp) as (o1 & Hrun & H1 & H2 & H3).
    destruct (IH o1 id d H1 Hu H2) as (o2 & Hrest & H4 & H5 & H6).
    exists o2. split; [|rewrite H6; auto].
    unfold schedule. cbn [rounds]. rewrite (bindG_returned _ _ _ _ _ Hrun). exact Hrest.
Qed.

(** X18: a file without pages is never completed. When the Extractor
    processes the oldest uploaded deck without any rejected call and
    pdf-parse reports zero pages, the deck goes to status analyzing with
    page count 0 and no page documents; after that no sequence of runs of
    the two jobs, in whatever environment, changes the deck again: the
    Critic finds no page of it, so it never runs the completion check for
    it. *)
Theorem pageless_deck_never_completes env (runs : list Run) (o : Office)
    (id : string) (d : Deck.t) :
  Spec.faultless env ->
  decks (store (world o)) !! id = Some d ->
  Deck.status d = UPLOADED ->
  (forall id' d',
     id' <> id -> decks (store (world o)) !! id' = Some d' -> Deck.status d' = UPLOADED ->
     (Deck.uploadedAt d < Deck.uploadedAt d')%Z) ->
  pages (store (world o)) !! id = None ->
  numpages (parse env (blob env (Deck.storagePath d))) = 0 ->
  exists o',
    schedule (RunExtractor env :: runs) o = (Returned tt, o') /\
    decks (store (world o')) !! id =
      Some (Deck.withProcessedAt (clock (world o))
              (Deck.withPageCount 0 (Deck.withStatus ANALYZING d))) /\
    Db.pagesOf id (store (world o')) = [].
Proof.
  intros Henv Hd Hst Holdest Hnone Hzero.
  assert (Hsel : Db.selectDecks UPLOADED (fun d => Some (Deck.uploadedAt d)) 1
                   (store (world o)) = [(id, d)]).
  { apply (selectDecks_first _ _ _ _ _ (Deck.uploadedAt d)); auto.
    intros id' d' t' Hne Hd' Hst' [= <-]. apply (Holdest id' d'); assumption. }
  destruct (extractPDFPages_success env (world o) id d [] Henv Hsel)
    as (w1 & Hrun & Hdecks & Hpages & _).
  assert (Htexts : Extractor.splitPages (parse env (blob env (Deck.storagePath d))) = []).
  { apply length_zero_iff_nil. rewrite splitPages_rounds, length_map, length_seq.
    exact Hzero. }
  rewrite Htexts in Hdecks, Hpages. cbn in Hdecks, Hpages.
  set (d1 := Deck.withProcessedAt (clock (world o))
               (Deck.withPageCount 0 (Deck.withStatus ANALYZING d))) in *.
  set (o1 := mkOffice w1 (aiCosts o) (requests o)).
  destruct (schedule_keeps_pageless runs o1 id d1) as (o2 & Hrest & H1 & H2 & _).
  { cbn. rewrite Hdecks. apply lookup_insert_eq. }
  { discriminate. }
  { unfold Db.pagesOf. cbn. rewrite Hpages, lookup_insert_eq.
    unfold Db.pagesOf. rewrite Hnone. reflexivity. }
  exists o2. split; [|split; [exact H1|exact H2]].
  unfold schedule. cbn [rounds runJob].
  rewrite (bindG_returned _ _ _ o1 tt); [exact Hrest|].
  unfold lift. rewrite Hrun. reflexivity.
Qed.

End CriticRuns.

(** ** Critic: single runs of the job, step by step *)

Section CriticSteps.
Import Ledger Desk.

Lemma firstUncritiqued_unique fs (items : list Critic.Item) r (it : Critic.Item) :
  Spec.firstUncritiqued fs items r ->
  Spec.firstUncritiqued fs items (Some it) ->
  r = Some it.
Proof.
  intros Hr (b & a & Hitems & Hnot & Hb).
  destruct r as [it1|]; cbn in Hr.
  - destruct Hr as (b1 & a1 & Hitems1 & Hnot1 & Hb1). f_equal.
    rewrite Hitems in Hitems1. clear Hitems.
    revert b1 Hitems1 Hb1. induction b as [|x b IH]; intros [|x1 b1] Heq Hb1.
    + injection Heq as Heq _. congruence.
    + injection Heq as Heq _. exfalso. apply Hnot. apply Hb1. rewrite Heq. left.
    + injection Heq as Heq _. exfalso. apply Hnot1. apply Hb. rewrite <- Heq. left.
    + injection Heq as _ Heq. apply (IH ltac:(intros y Hy; apply Hb; right; exact Hy) b1 Heq).
      intros y Hy. apply Hb1. right. exact Hy.
  - exfalso. apply Hnot. apply Hr. rewrite Hitems. apply elem_of_app. right. left.
Qed.

Lemma onlyCalls_refl w : onlyCalls w w.
Proof. exists []. rewrite app_nil_r. destruct w; reflexivity. Qed.

Lemma onlyCalls_call c w w' : onlyCalls (withCall c w) w' -> onlyCalls w w'.
Proof.
  intros [made ->]. exists (c :: made). cbn. rewrite <- app_assoc. reflexivity.
Qed.

Lemma onlyCalls_trans w1 w2 w3 : onlyCalls w1 w2 -> onlyCalls w2 w3 -> onlyCalls w1 w3.
Proof.
  intros [m1 ->] [m2 ->]. exists (m1 ++ m2). cbn. rewrite <- app_assoc. reflexivity.
Qed.

Lemma scanPages_onlyCalls env deckId deck pageDocs : forall w : World,
  onlyCalls w (Critic.scanPages env deckId deck pageDocs w).2.
Proof.
  induction pageDocs as [|[pageId page] rest IH]; intros w.
  - apply onlyCalls_refl.
  - cbn [Critic.scanPages]. unfold Db.queryInsights, Db.await. unfold_m.
    apply onlyCalls_call with (c := QueryInsights deckId).
    destruct (fault env (length (calls w))); [apply onlyCalls_refl|]. cbn [snd].
    destruct (Db.selectInsights _ _ _ _); [apply onlyCalls_refl|apply IH].
Qed.

Lemma scanDecks_onlyCalls env deckDocs : forall w : World,
  onlyCalls w (Critic.scanDecks env deckDocs w).2.
Proof.
  induction deckDocs as [|[deckId deck] rest IH]; intros w.
  - apply onlyCalls_refl.
  - cbn [Critic.scanDecks]. unfold Db.queryPages, Db.await. unfold_m.
    apply onlyCalls_call with (c := QueryPages deckId).
    destruct (fault env (length (calls w))); [apply onlyCalls_refl|]. cbn [snd].
    pose proof (scanPages_onlyCalls env deckId deck
                  (Db.selectPages deckId (store (withCall (QueryPages deckId) w)))
                  (withCall (QueryPages deckId) w)) as H.
    destruct (Critic.scanPages _ _ _ _ _) as [[[it|]|e] w1]; cbn [snd] in *;
      [exact H| |exact H].
    eapply onlyCalls_trans; [exact H|apply IH].
Qed.

Lemma findPageToCritique_onlyCalls env (w : World) :
  onlyCalls w (Critic.findPageToCritique env w).2.
Proof.
  unfold Critic.findPageToCritique, Db.queryDecks, Db.await. unfold_m.
  apply onlyCalls_call with (c := QueryDecks ANALYZING).
  destruct (fault env (length (calls w))); [apply onlyCalls_refl|]. cbn [snd].
  destruct (Db.selectDecks _ _ _ _); [apply onlyCalls_refl|apply scanDecks_onlyCalls].
Qed.

(** When no query is rejected, the work finder returns the next page. *)
Lemma findPageToCritique_next env (w : World) (it : Critic.Item) :
  Spec.faultless env -> next (store w) it ->
  exists w',
    Critic.findPageToCritique env w = (Returned (Some it), w') /\ onlyCalls w w'.
Proof.
  intros Henv Hnext.
  pose proof (findPageToCritique_onlyCalls env w) as Hcalls.
  unfold Critic.findPageToCritique in *. unfold bind at 1 in Hcalls. unfold bind at 1.
  rewrite (queryDecks_ok _ _ _ _ _ Henv) in *.
  unfold next in Hnext. cbn [store withCall] in *.
  destruct (Db.selectDecks ANALYZING Deck.processedAt 10 (store w)) as [|dd rest] eqn:Hsel.
  - exfalso. destruct Hnext as (b & a & Hnil & _). destruct b; discriminate.
  - destruct (scanDecks_first env (dd :: rest) (store w)
                (withCall (QueryDecks ANALYZING) w) Henv eq_refl)
      as (r & w' & Hrun & _ & _ & Hr).
    pose proof (firstUncritiqued_unique _ _ _ _ Hr Hnext) as ->.
    exists w'. split; [exact Hrun|]. rewrite Hrun in Hcalls. exact Hcalls.
Qed.

Lemma next_candidate env (w : World) (it : Critic.Item) :
  Spec.faultless env -> next (store w) it -> candidate (store w) it.
Proof.
  intros Henv Hnext.
  destruct (findPageToCritique_next env w it Henv Hnext) as (w' & Hrun & _).
  destruct (findPageToCritique_sound env w) as [_ H]. apply H. rewrite Hrun. reflexivity.
Qed.

End CriticSteps.

(** ** Critic: the outcomes of a run *)

Section CriticScenarios.
Import Ledger Desk.
Local Open Scope float_scope.

(** Brings an office built step by step into the form of a record. *)
Ltac norm_office :=
  cbv beta iota delta
    [withCall withLogger withConsoleLine withStore withGeneratedId Db.withDecks
     Logger.setSession Logger.setLogs Logger.setContext];
  cbn [world aiCosts requests store logger calls console clock generatedIds
       session logs deckContext decks pages insights automationLogs fst snd].

Lemma tryCatchG_returned {A} (body : G A) (handler : JS.Thrown -> G A) (o o' : Office)
    (a : A) :
  body o = (Returned a, o') -> tryCatchG body handler o = (Returned a, o').
Proof. intros H. unfold tryCatchG. rewrite H. reflexivity. Qed.

Lemma tryCatchG_threw {A} (body : G A) (handler : JS.Thrown -> G A) (o o' : Office)
    (e : JS.Thrown) :
  body o = (Threw e, o') -> tryCatchG body handler o = handler e o'.
Proof. intros H. unfold tryCatchG. rewrite H. reflexivity. Qed.

Lemma lift_run {A} (m : M A) (w w' : World) (r : Outcome A) costs reqs :
  m w = (r, w') -> lift m (mkOffice w costs reqs) = (r, mkOffice w' costs reqs).
Proof. intros H. unfold lift. cbn [world aiCosts requests]. rewrite H. reflexivity. Qed.

Lemma calculateCost_default (p c : float) :
  Pricing.calculateCost 2 Servicer.DEFAULT_MODEL p c =
    Some ((p / 1000000) * 0.150 + (c / 1000000) * 0.600, []).
Proof.
  apply (calculateCost_known 1 "gpt-4o-mini"
           {| Pricing.input := 0.150; Pricing.output := 0.600 |}).
  reflexivity.
Qed.

(** [callOpenAI] when the service accepts the request and answers well. *)
Lemma callOpenAI_answers svc prompt options (o : Office) first more result usage :
  let request :=
    AI.mkChatRequest (Servicer.orElse (AI.optModel options) Servicer.DEFAULT_MODEL)
      (Servicer.orElse (AI.optSystemMessage options)
         "You are a helpful assistant that responds in JSON format.")
      prompt (default Servicer.DEFAULT_TEMPERATURE (AI.optTemperature options)) in
  refuse svc (length (requests o)) = None ->
  AI.choices (complete svc request) = first :: more ->
  parseJson svc (Servicer.orElse first "{}") = inr result ->
  AI.completionUsage (complete svc request) = Some usage ->
  Servicer.callOpenAI svc prompt options o =
    (Returned (AI.mkResponse result
                 (AI.mkUsage (AI.prompt_tokens usage) (AI.completion_tokens usage)
                    (AI.total_tokens usage) 0)),
     mkOffice (world o) (aiCosts o) (requests o ++ [CreateChatCompletion request])).
Proof.
  intros request Hok Hch Hparse Husage.
  unfold Servicer.callOpenAI, sendRequest, tryCatchG, bindG, retG, throwG.
  fold request. rewrite Hok, Hch, Hparse, Husage. reflexivity.
Qed.

(** [callOpenAI] when the service rejects the request: the error is logged
    and thrown again. *)
Lemma callOpenAI_refused svc prompt options (o : Office) (e : JS.Thrown) :
  let request :=
    AI.mkChatRequest (Servicer.orElse (AI.optModel options) Servicer.DEFAULT_MODEL)
      (Servicer.orElse (AI.optSystemMessage options)
         "You are a helpful assistant that responds in JSON format.")
      prompt (default Servicer.DEFAULT_TEMPERATURE (AI.optTemperature options)) in
  refuse svc (length (requests o)) = Some e ->
  Servicer.callOpenAI svc prompt options o =
    (Threw e,
     mkOffice (withConsoleLine (ConsoleError "OpenAI API error:" (Some e)) (world o))
       (aiCosts o) (requests o ++ [CreateChatCompletion request])).
Proof.
  intros request Hno.
  unfold Servicer.callOpenAI, sendRequest, tryCatchG, bindG, retG, throwG, lift.
  fold request. rewrite Hno. reflexivity.
Qed.

(** [trackAICost] for the default model when the write is accepted. *)
Lemma trackAICost_default svc usage action actorName deckId pageNumber (o : Office) :
  refuse svc (length (requests o)) = None ->
  let cost := (AI.prompt_tokens usage / 1000000) * 0.150 +
              (AI.completion_tokens usage / 1000000) * 0.600 in
  let costData :=
    AICost.mk "gpt-4o-mini" (AI.prompt_tokens usage) (AI.completion_tokens usage)
      (AI.total_tokens usage) cost action actorName deckId pageNumber
      (clock (world o)) in
  CostTracker.trackAICost svc Servicer.DEFAULT_MODEL usage action actorName deckId
    pageNumber o =
    (Returned costData,
     mkOffice (withConsoleLine (costLine svc usage cost) (world o))
       (aiCosts o ++ [costData]) (requests o ++ [AddAICost])).
Proof.
  intros Hok cost costData.
  unfold CostTracker.trackAICost, CostTracker.calculateCost.
  rewrite calculateCost_default.
  unfold sendRequest, withAICost, bindG, retG, lift, now, consoleWrite, modify, ret.
  cbn [fold_right]. norm_office. rewrite Hok. norm_office.
  reflexivity.
Qed.

Lemma chatRequest_built (it : Critic.Item) :
  AI.mkChatRequest
    (Servicer.orElse None Servicer.DEFAULT_MODEL)
    (Servicer.orElse
       (Some "You are an expert venture capitalist reviewing pitch decks. Respond in JSON format."%string)
       "You are a helpful assistant that responds in JSON format.")
    (Prompter.promptCritiqueProblem (Page.text (Critic.page it))
       (Prompter.mkContext (Page.pageNumber (Critic.page it))
          (Deck.pageCount (Critic.deck it)) (Deck.fileName (Critic.deck it))))
    (default Servicer.DEFAULT_TEMPERATURE None) =
  chatRequest it.
Proof. reflexivity. Qed.

(** [critiquePage] when both of its requests are accepted and the service
    answers well. *)
Lemma critiquePage_answers svc (it : Critic.Item) actorName action (o : Office)
    first more result usage :
  refuse svc (length (requests o)) = None ->
  refuse svc (S (length (requests o))) = None ->
  AI.choices (complete svc (chatRequest it)) = first :: more ->
  parseJson svc (Servicer.orElse first "{}") = inr result ->
  AI.completionUsage (complete svc (chatRequest it)) = Some usage ->
  let cost := (AI.prompt_tokens usage / 1000000) * 0.150 +
              (AI.completion_tokens usage / 1000000) * 0.600 in
  Servicer.critiquePage svc
    (Prompter.promptCritiqueProblem (Page.text (Critic.page it))
       (Prompter.mkContext (Page.pageNumber (Critic.page it))
          (Deck.pageCount (Critic.deck it)) (Deck.fileName (Critic.deck it))))
    (Critic.deckId it) (Page.pageNumber (Critic.page it)) actorName action o =
    (Returned (AI.mkResponse result
                 (AI.mkUsage (AI.prompt_tokens usage) (AI.completion_tokens usage)
                    (AI.total_tokens usage) cost)),
     mkOffice
       (withConsoleLine
          (costLine svc
             (AI.mkCompletionUsage (AI.prompt_tokens usage) (AI.completion_tokens usage)
                (AI.total_tokens usage)) cost)
          (world o))
       (aiCosts o ++
        [AICost.mk "gpt-4o-mini" (AI.prompt_tokens usage) (AI.completion_tokens usage)
           (AI.total_tokens usage) cost action actorName (Some (Critic.deckId it))
           (Some (Page.pageNumber (Critic.page it))) (clock (world o))])
       (requests o ++ [CreateChatCompletion (chatRequest it); AddAICost])).
Proof.
  intros Hok1 Hok2 Hch Hparse Husage cost.
  unfold Servicer.critiquePage.
  pose proof (callOpenAI_answers svc
                (Prompter.promptCritiqueProblem (Page.text (Critic.page it))
                   (Prompter.mkContext (Page.pageNumber (Critic.page it))
                      (Deck.pageCount (Critic.deck it)) (Deck.fileName (Critic.deck it))))
                (AI.mkOptions None None
                   (Some "You are an expert venture capitalist reviewing pitch decks. Respond in JSON format."%string))
                o first more result usage) as Hcall.
  cbv zeta in Hcall. cbn [AI.optModel AI.optSystemMessage AI.optTemperature] in Hcall.
  rewrite chatRequest_built in Hcall.
  specialize (Hcall Hok1 Hch Hparse Husage).
  rewrite (bindG_returned _ _ _ _ _ Hcall).
  cbn [AI.usage AI.promptTokens AI.completionTokens AI.totalTokens].
  pose proof (trackAICost_default svc
              (AI.mkCompletionUsage (AI.prompt_tokens usage) (AI.completion_tokens usage)
                 (AI.total_tokens usage))
              action actorName (Some (Critic.deckId it))
              (Some (Page.pageNumber (Critic.page it)))
              (mkOffice (world o) (aiCosts o)
                 (requests o ++ [CreateChatCompletion (chatRequest it)])))
    as Htrack.
  cbv zeta in Htrack.
  assert (Hok3 : refuse svc
            (length (requests (mkOffice (world o) (aiCosts o)
               (requests o ++ [CreateChatCompletion (chatRequest it)])))) = None).
  { cbn [requests]. rewrite length_app. cbn [length].
    replace (length (requests o) + 1)%nat with (S (length (requests o))) by lia.
    exact Hok2. }
  specialize (Htrack Hok3).
  cbn [AI.prompt_tokens AI.completion_tokens AI.total_tokens world aiCosts requests]
    in Htrack.
  rewrite (bindG_returned _ _ _ _ _ Htrack).
  unfold retG, AI.withCostUSD. cbn. rewrite <- app_assoc. reflexivity.
Qed.

(** The completion check when no call is rejected. *)
Lemma checkIfDeckComplete_run env deckId pageCount (d : Deck.t) (w : World) :
  Spec.faultless env ->
  decks (store w) !! deckId = Some d ->
  let insightCount := Z.of_nat (length (Db.insightsOf deckId (store w))) in
  Critic.checkIfDeckComplete env deckId pageCount w =
    if (pageCount * 1 <=? insightCount)%Z
    then
      (Returned tt,
       withConsoleLine
         (ConsoleLog "Deck analysis complete! ðŸŽ‰"
            (Some (<["totalInsights" := VNum insightCount]> ∅)))
         (withLogger
            (fun l => Logger.setLogs
                        (logs l ++
                         [LogEntry.mk (clock w) "Deck analysis complete! ðŸŽ‰"
                            (Some (<["totalInsights" := VNum insightCount]> ∅))]) l)
            (withStore (Db.withDecks (insert deckId (Deck.withStatus COMPLETE d)))
               (withCall (UpdateDeck deckId) (withCall (QueryInsights deckId) w)))))
    else (Returned tt, withCall (QueryInsights deckId) w).
Proof.
  intros Henv Hd insightCount.
  unfold Critic.checkIfDeckComplete, Db.queryAllInsights, Db.updateDeck, Logger.add.
  unfold_m. rewrite (await_ok _ _ _ Henv). cbn [store withCall]. fold insightCount.
  destruct (pageCount * 1 <=? insightCount)%Z; [|reflexivity].
  rewrite (await_ok _ _ _ Henv). cbn [store withCall]. rewrite Hd. reflexivity.
Qed.

Ltac run_lift :=
  erewrite bindG_returned;
    [|apply lift_run;
      unfold Logger.startSession, Logger.setDeckContext, Logger.add, Logger.error;
      unfold_m; norm_office; reflexivity].

(** X19: a run of the Critic in which nothing is rejected and the service
    answers well. For the next page to critique the job sends one chat
    request, for the model gpt-4o-mini at temperature 0.3 with the page text
    in the prompt; it writes one cost record for that deck and page, priced
    at 0.15 and 0.60 dollars per million tokens, and then one insight of
    type "problem" with the rating, feedback and reasoning of the answer;
    it leaves the pages alone; it completes the deck exactly when the
    insights of the deck, the new one included, are at least as many as its
    page count; and the page counts as critiqued afterwards. *)
Theorem critiqueProblemStatement_success env svc (o : Office) (it : Critic.Item)
    (first : option string) (more : list (option string))
    (result : AI.CritiqueResult) (usage : AI.CompletionUsage) :
  Spec.faultless env ->
  (forall k, refuse svc k = None) ->
  next (store (world o)) it ->
  AI.choices (complete svc (chatRequest it)) = first :: more ->
  parseJson svc (Servicer.orElse first "{}") = inr result ->
  AI.completionUsage (complete svc (chatRequest it)) = Some usage ->
  exists o',
    CriticJob.critiqueProblemStatement env svc o = (Returned tt, o') /\
    insights (store (world o')) =
      <[Critic.deckId it :=
          Db.insightsOf (Critic.deckId it) (store (world o)) ++
          [Insight.mk PROBLEM (Page.pageNumber (Critic.page it)) (AI.rating result)
             (AI.feedback result) (AI.reasoning result) "Critic" (clock (world o))]]>
        (insights (store (world o))) /\
    aiCosts o' =
      aiCosts o ++
      [AICost.mk "gpt-4o-mini" (AI.prompt_tokens usage) (AI.completion_tokens usage)
         (AI.total_tokens usage)
         ((AI.prompt_tokens usage / 1000000) * 0.150 +
          (AI.completion_tokens usage / 1000000) * 0.600)
         "critique_problem" "Critic" (Some (Critic.deckId it))
         (Some (Page.pageNumber (Critic.page it))) (clock (world o))] /\
    pages (store (world o')) = pages (store (world o)) /\
    decks (store (world o')) =
      (if (Deck.pageCount (Critic.deck it) * 1 <=?
           Z.of_nat (length (Db.insightsOf (Critic.deckId it) (store (world o)))) + 1)%Z
       then <[Critic.deckId it := Deck.withStatus COMPLETE (Critic.deck it)]>
              (decks (store (world o)))
       else decks (store (world o))) /\
    requests o' =
      requests o ++
      [CreateChatCompletion (chatRequest it); AddAICost; AddInsight (Critic.deckId it)] /\
    Spec.critiqued (store (world o')) it.
Proof.
  intros Henv Hsvc Hnext Hch Hparse Husage.
  destruct (next_candidate env (world o) it Henv Hnext) as (Hdeck & _).
  destruct o as [[fs lg con cs clk ids] costs reqs].
  cbn [world store aiCosts requests clock] in *.
  unfold CriticJob.critiqueProblemStatement.
  run_lift.
  match goal with
  | |- context [tryCatchG _ _ (mkOffice ?w _ _)] =>
      destruct (findPageToCritique_next env w it Henv Hnext) as (w2 & Hfind & [made Hw2])
  end.
  cbn [store logger console calls clock generatedIds] in Hw2. subst w2.
  set (request := chatRequest it) in *.
  destruct it as [deckId pageId page deck].
  cbn [Critic.deckId Critic.page Critic.deck] in *.
  destruct (Deck.pageCount deck * 1 <=? Z.of_nat (length (Db.insightsOf deckId fs)) + 1)%Z
    eqn:Hfull.
  all: eexists; split;
    [ erewrite tryCatchG_returned; [reflexivity|];
      (erewrite bindG_returned; [|apply lift_run; exact Hfind]);
      cbv beta iota;
      run_lift; run_lift;
      match goal with
      | |- bindG _ _ ?o1 = _ =>
          pose proof (critiquePage_answers svc (Critic.mkItem deckId pageId page deck)
                        CriticJob.ACTOR_NAME "critique_problem" o1 first more result usage
                        (Hsvc _) (Hsvc _) Hch Hparse Husage) as Hcp
      end;
      cbv zeta in Hcp;
      cbn [Critic.deckId Critic.page Critic.deck world aiCosts requests] in Hcp;
      rewrite (bindG_returned _ _ _ _ _ Hcp); clear Hcp;
      cbn [AI.result AI.usage AI.costUSD];
      run_lift;
      (erewrite bindG_returned; [|apply lift_run; reflexivity]);
      (erewrite bindG_returned;
        [|unfold CriticJob.addInsight, sendRequest, bindG, lift, modify;
          norm_office; rewrite Hsvc; norm_office; reflexivity]);
      run_lift;
      (erewrite bindG_returned;
        [|apply lift_run;
          rewrite (checkIfDeckComplete_run env deckId _ deck _ Henv) by exact Hdeck;
          unfold Db.insightsOf; norm_office;
          rewrite lookup_insert_eq; cbn [from_option id];
          rewrite length_app, Nat2Z.inj_add; cbn [length];
          change (Z.of_nat 1) with 1%Z;
          fold (Db.insightsOf deckId fs); rewrite Hfull; norm_office; reflexivity]);
      apply lift_run;
      unfold Logger.endSession, Db.addAutomationLog; unfold_m; norm_office;
      rewrite (await_ok _ _ _ Henv); norm_office; reflexivity
    | norm_office; rewrite <- !app_assoc; repeat split;
      unfold Spec.critiqued, Spec.hasProblemInsight, Db.insightsOf;
      cbn [Critic.deckId Critic.page insights];
      rewrite lookup_insert_eq; cbn [from_option id];
      apply Exists_app; right; left; split; reflexivity ].
Qed.

Lemma next_ext (fs fs' : Firestore) (it : Critic.Item) :
  decks fs' = decks fs -> pages fs' = pages fs -> insights fs' = insights fs ->
  next fs it -> next fs' it.
Proof.
  destruct fs, fs'. cbn. intros -> -> -> H. exact H.
Qed.

(** [critiquePage] when the service rejects the chat request. *)
Lemma critiquePage_refused svc (it : Critic.Item) actorName action (o : Office)
    (e : JS.Thrown) :
  refuse svc (length (requests o)) = Some e ->
  Servicer.critiquePage svc
    (Prompter.promptCritiqueProblem (Page.text (Critic.page it))
       (Prompter.mkContext (Page.pageNumber (Critic.page it))
          (Deck.pageCount (Critic.deck it)) (Deck.fileName (Critic.deck it))))
    (Critic.deckId it) (Page.pageNumber (Critic.page it)) actorName action o =
    (Threw e,
     mkOffice (withConsoleLine (ConsoleError "OpenAI API error:" (Some e)) (world o))
       (aiCosts o) (requests o ++ [CreateChatCompletion (chatRequest it)])).
Proof.
  intros Hno. unfold Servicer.critiquePage.
  pose proof (callOpenAI_refused svc
                (Prompter.promptCritiqueProblem (Page.text (Critic.page it))
                   (Prompter.mkContext (Page.pageNumber (Critic.page it))
                      (Deck.pageCount (Critic.deck it)) (Deck.fileName (Critic.deck it))))
                (AI.mkOptions None None
                   (Some "You are an expert venture capitalist reviewing pitch decks. Respond in JSON format."%string))
                o e) as Hcall.
  cbv zeta in Hcall. cbn [AI.optModel AI.optSystemMessage AI.optTemperature] in Hcall.
  rewrite chatRequest_built in Hcall.
  rewrite (bindG_threw _ _ _ _ _ (Hcall Hno)). reflexivity.
Qed.

(** [critiquePage] when the answer of the service does not parse. *)
Lemma critiquePage_unparsable svc (it : Critic.Item) actorName action (o : Office)
    (first : option string) (more : list (option string)) (e : JS.Thrown) :
  refuse svc (length (requests o)) = None ->
  AI.choices (complete svc (chatRequest it)) = first :: more ->
  parseJson svc (Servicer.orElse first "{}") = inl e ->
  Servicer.critiquePage svc
    (Prompter.promptCritiqueProblem (Page.text (Critic.page it))
       (Prompter.mkContext (Page.pageNumber (Critic.page it))
          (Deck.pageCount (Critic.deck it)) (Deck.fileName (Critic.deck it))))
    (Critic.deckId it) (Page.pageNumber (Critic.page it)) actorName action o =
    (Threw e,
     mkOffice (withConsoleLine (ConsoleError "OpenAI API error:" (Some e)) (world o))
       (aiCosts o) (requests o ++ [CreateChatCompletion (chatRequest it)])).
Proof.
  intros Hok Hch Hparse. unfold Servicer.critiquePage.
  assert (Hcall :
    Servicer.callOpenAI svc
      (Prompter.promptCritiqueProblem (Page.text (Critic.page it))
         (Prompter.mkContext (Page.pageNumber (Critic.page it))
            (Deck.pageCount (Critic.deck it)) (Deck.fileName (Critic.deck it))))
      (AI.mkOptions None None
         (Some "You are an expert venture capitalist reviewing pitch decks. Respond in JSON format."%string))
      o =
    (Threw e,
     mkOffice (withConsoleLine (ConsoleError "OpenAI API error:" (Some e)) (world o))
       (aiCosts o) (requests o ++ [CreateChatCompletion (chatRequest it)]))).
  { unfold Servicer.callOpenAI, sendRequest, tryCatchG, bindG, retG, throwG, lift.
    cbv zeta. cbn [AI.optModel AI.optSystemMessage AI.optTemperature].
    rewrite chatRequest_built, Hok, Hch, Hparse. reflexivity. }
  rewrite (bindG_threw _ _ _ _ _ Hcall). reflexivity.
Qed.

(** A run in which [critiquePage] throws after its chat request. *)
Lemma critiqueProblemStatement_call_fails env svc (o : Office) (it : Critic.Item)
    (e : JS.Thrown) :
  Spec.faultless env ->
  next (store (world o)) it ->
  (forall w,
     Servicer.critiquePage svc
       (Prompter.promptCritiqueProblem (Page.text (Critic.page it))
          (Prompter.mkContext (Page.pageNumber (Critic.page it))
             (Deck.pageCount (Critic.deck it)) (Deck.fileName (Critic.deck it))))
       (Critic.deckId it) (Page.pageNumber (Critic.page it)) CriticJob.ACTOR_NAME
       "critique_problem" (mkOffice w (aiCosts o) (requests o)) =
     (Threw e,
      mkOffice (withConsoleLine (ConsoleError "OpenAI API error:" (Some e)) w)
        (aiCosts o) (requests o ++ [CreateChatCompletion (chatRequest it)]))) ->
  exists o' r,
    CriticJob.critiqueProblemStatement env svc o = (Returned tt, o') /\
    decks (store (world o')) = decks (store (world o)) /\
    pages (store (world o')) = pages (store (world o)) /\
    insights (store (world o')) = insights (store (world o)) /\
    aiCosts o' = aiCosts o /\
    requests o' = requests o ++ [CreateChatCompletion (chatRequest it)] /\
    automationLogs (store (world o')) = automationLogs (store (world o)) ++ [r] /\
    AutomationLog.status r = Failed /\
    AutomationLog.deckId r = Some (Critic.deckId it) /\
    AutomationLog.errors r = Some ["Critique failed: " +:+ JS.errorText e] /\
    next (store (world o')) it.
Proof.
  intros Henv Hnext Hthrows.
  destruct o as [[fs lg con cs clk ids] costs reqs].
  cbn [world store aiCosts requests clock] in *.
  unfold CriticJob.critiqueProblemStatement.
  run_lift.
  match goal with
  | |- context [tryCatchG _ _ (mkOffice ?w _ _)] =>
      destruct (findPageToCritique_next env w it Henv Hnext) as (w2 & Hfind & [made Hw2])
  end.
  cbn [store logger console calls clock generatedIds] in Hw2. subst w2.
  set (request := chatRequest it) in *.
  destruct it as [deckId pageId page deck].
  cbn [Critic.deckId Critic.page Critic.deck] in *.
  eexists. eexists. split.
  { erewrite tryCatchG_threw.
    2:{ erewrite bindG_returned; [|apply lift_run; exact Hfind].
        cbv beta iota. run_lift. run_lift.
        rewrite (bindG_threw _ _ _ _ _ (Hthrows _)). reflexivity. }
    run_lift. apply lift_run.
    unfold Logger.endSession, Db.addAutomationLog. unfold_m. norm_office.
    rewrite (await_ok _ _ _ Henv). norm_office. reflexivity. }
  norm_office. repeat split.
  eapply next_ext; [| | |exact Hnext]; reflexivity.
Qed.

(** X20: the service rejects the chat request. The run returns normally
    after logging the failure: it writes no insight and no cost record and
    changes no deck and no page; the automation log gets one record, with
    status failed, the deck id, and the text of the rejection; and the page
    is still the next page to critique, so the next run tries it again. *)
Theorem critiqueProblemStatement_service_down env svc (o : Office) (it : Critic.Item)
    (e : JS.Thrown) :
  Spec.faultless env ->
  refuse svc (length (requests o)) = Some e ->
  next (store (world o)) it ->
  exists o' r,
    CriticJob.critiqueProblemStatement env svc o = (Returned tt, o') /\
    decks (store (world o')) = decks (store (world o)) /\
    pages (store (world o')) = pages (store (world o)) /\
    insights (store (world o')) = insights (store (world o)) /\
    aiCosts o' = aiCosts o /\
    requests o' = requests o ++ [CreateChatCompletion (chatRequest it)] /\
    automationLogs (store (world o')) = automationLogs (store (world o)) ++ [r] /\
    AutomationLog.status r = Failed /\
    AutomationLog.deckId r = Some (Critic.deckId it) /\
    AutomationLog.errors r = Some ["Critique failed: " +:+ JS.errorText e] /\
    next (store (world o')) it.
Proof.
  intros Henv Hno Hnext.
  apply critiqueProblemStatement_call_fails; [exact Henv|exact Hnext|].
  intros w. apply (critiquePage_refused svc it _ _ (mkOffice w (aiCosts o) (requests o))).
  exact Hno.
Qed.

(** X21: the service answers, but the answer is not JSON. The request was
    made and answered, yet the run writes no cost record for it, and no
    insight: it returns normally with one failed record in the automation
    log, and the page is still the next page to critique. *)
Theorem critiqueProblemStatement_answer_unparsable env svc (o : Office)
    (it : Critic.Item) (first : option string) (more : list (option string))
    (e : JS.Thrown) :
  Spec.faultless env ->
  refuse svc (length (requests o)) = None ->
  AI.choices (complete svc (chatRequest it)) = first :: more ->
  parseJson svc (Servicer.orElse first "{}") = inl e ->
  next (store (world o)) it ->
  exists o' r,
    CriticJob.critiqueProblemStatement env svc o = (Returned tt, o') /\
    decks (store (world o')) = decks (store (world o)) /\
    pages (store (world o')) = pages (store (world o)) /\
    insights (store (world o')) = insights (store (world o)) /\
    aiCosts o' = aiCosts o /\
    requests o' = requests o ++ [CreateChatCompletion (chatRequest it)] /\
    automationLogs (store (world o')) = automationLogs (store (world o)) ++ [r] /\
    AutomationLog.status r = Failed /\
    AutomationLog.deckId r = Some (Critic.deckId it) /\
    AutomationLog.errors r = Some ["Critique failed: " +:+ JS.errorText e] /\
    next (store (world o')) it.
Proof.
  intros Henv Hok Hch Hparse Hnext.
  apply critiqueProblemStatement_call_fails; [exact Henv|exact Hnext|].
  intros w.
  apply (critiquePage_unparsable svc it _ _ (mkOffice w (aiCosts o) (requests o))
           first more e); assumption.
Qed.

(** X22: while the service rejects every request, the Critic makes no
    progress at all. Through any number of runs in which no query is
    rejected, every run asks the service about the same page, the first one
    without an insight; no deck, page, insight or cost record changes; and
    every later page and deck waits behind that page. *)
Theorem critiqueProblemStatement_blocked_while_down
    (runs : list (Env * Service)) (o : Office) (it : Critic.Item) :
  Forall (fun run => Spec.faultless run.1 /\ forall k, is_Some (refuse run.2 k)) runs ->
  next (store (world o)) it ->
  exists o',
    rounds (fun run => CriticJob.critiqueProblemStatement run.1 run.2) runs o =
      (Returned tt, o') /\
    decks (store (world o')) = decks (store (world o)) /\
    pages (store (world o')) = pages (store (world o)) /\
    insights (store (world o')) = insights (store (world o)) /\
    aiCosts o' = aiCosts o /\
    requests o' =
      requests o ++ repeat (CreateChatCompletion (chatRequest it)) (length runs) /\
    length (automationLogs (store (world o'))) =
      (length (automationLogs (store (world o))) + length runs)%nat /\
    next (store (world o')) it.
Proof.
  intros Hruns. revert o. induction Hruns as [|[env svc] rest [Henv Hdown] _ IH];
    intros o Hnext.
  - exists o. cbn. rewrite app_nil_r, Nat.add_0_r. repeat split; auto.
  - cbn [fst snd] in *. destruct (Hdown (length (requests o))) as [e He].
    destruct (critiqueProblemStatement_call_fails env svc o it e Henv Hnext)
      as (o1 & r & Hrun & H1 & H2 & H3 & H4 & H5 & H6 & _ & _ & _ & Hnext1).
    { intros w.
      apply (critiquePage_refused svc it _ _ (mkOffice w (aiCosts o) (requests o))).
      exact He. }
    destruct (IH o1 Hnext1) as (o2 & Hrest & G1 & G2 & G3 & G4 & G5 & G6 & G7).
    exists o2. split.
    { cbn [rounds]. rewrite (bindG_returned _ _ _ _ _ Hrun). exact Hrest. }
    rewrite G1, G2, G3, G4, G5, G6, H1, H2, H3, H4, H5, H6.
    repeat split; [|rewrite length_app; cbn; lia|exact G7].
    rewrite <- app_assoc. reflexivity.
Qed.

(** X23: the write of the insight is rejected after the service has
    answered. The cost record of the call is already written and stays;
    no insight is written and no deck or page changes; the run returns
    normally with one failed record in the automation log; and the page is
    still the next page to critique, so the next run sends it to the
    service, and records its cost, again. *)
Theorem critiqueProblemStatement_insight_lost env svc (o : Office) (it : Critic.Item)
    (first : option string) (more : list (option string))
    (result : AI.CritiqueResult) (usage : AI.CompletionUsage) (e : JS.Thrown) :
  Spec.faultless env ->
  refuse svc (length (requests o)) = None ->
  refuse svc (S (length (requests o))) = None ->
  refuse svc (S (S (length (requests o)))) = Some e ->
  next (store (world o)) it ->
  AI.choices (complete svc (chatRequest it)) = first :: more ->
  parseJson svc (Servicer.orElse first "{}") = inr result ->
  AI.completionUsage (complete svc (chatRequest it)) = Some usage ->
  exists o' r,
    CriticJob.critiqueProblemStatement env svc o = (Returned tt, o') /\
    aiCosts o' =
      aiCosts o ++
      [AICost.mk "gpt-4o-mini" (AI.prompt_tokens usage) (AI.completion_tokens usage)
         (AI.total_tokens usage)
         ((AI.prompt_tokens usage / 1000000) * 0.150 +
          (AI.completion_tokens usage / 1000000) * 0.600)
         "critique_problem" "Critic" (Some (Critic.deckId it))
         (Some (Page.pageNumber (Critic.page it))) (clock (world o))] /\
    insights (store (world o')) = insights (store (world o)) /\
    decks (store (world o')) = decks (store (world o)) /\
    pages (store (world o')) = pages (store (world o)) /\
    requests o' =
      requests o ++
      [CreateChatCompletion (chatRequest it); AddAICost; AddInsight (Critic.deckId it)] /\
    automationLogs (store (world o')) = automationLogs (store (world o)) ++ [r] /\
    AutomationLog.status r = Failed /\
    AutomationLog.errors r = Some ["Critique failed: " +:+ JS.errorText e] /\
    next (store (world o')) it.
Proof.
  intros Henv Hok1 Hok2 Hno Hnext Hch Hparse Husage.
  destruct o as [[fs lg con cs clk ids] costs reqs].
  cbn [world store aiCosts requests clock] in *.
  unfold CriticJob.critiqueProblemStatement.
  run_lift.
  match goal with
  | |- context [tryCatchG _ _ (mkOffice ?w _ _)] =>
      destruct (findPageToCritique_next env w it Henv Hnext) as (w2 & Hfind & [made Hw2])
  end.
  cbn [store logger console calls clock generatedIds] in Hw2. subst w2.
  set (request := chatRequest it) in *.
  destruct it as [deckId pageId page deck].
  cbn [Critic.deckId Critic.page Critic.deck] in *.
  eexists. eexists. split.
  { erewrite tryCatchG_threw.
    2:{ erewrite bindG_returned; [|apply lift_run; exact Hfind].
        cbv beta iota. run_lift. run_lift.
        match goal with
        | |- bindG _ _ ?o1 = _ =>
            pose proof (critiquePage_answers svc (Critic.mkItem deckId pageId page deck)
                          CriticJob.ACTOR_NAME "critique_problem" o1 first more result
                          usage Hok1 Hok2 Hch Hparse Husage) as Hcp
        end.
        cbv zeta in Hcp.
        cbn [Critic.deckId Critic.page Critic.deck world aiCosts requests] in Hcp.
        rewrite (bindG_returned _ _ _ _ _ Hcp). clear Hcp.
        cbn [AI.result AI.usage AI.costUSD].
        run_lift.
        erewrite bindG_returned; [|apply lift_run; reflexivity].
        erewrite bindG_threw; [reflexivity|].
        unfold CriticJob.addInsight, sendRequest, bindG. norm_office.
        rewrite length_app. cbn [length].
        replace (length reqs + 2)%nat with (S (S (length reqs))) by lia.
        rewrite Hno. reflexivity. }
    run_lift. apply lift_run.
    unfold Logger.endSession, Db.addAutomationLog. unfold_m. norm_office.
    rewrite (await_ok _ _ _ Henv). norm_office. reflexivity. }
  norm_office. rewrite <- !app_assoc. repeat split.
  eapply next_ext; [| | |exact Hnext]; reflexivity.
Qed.

End CriticScenarios.

(** ** Critic and pipeline: the properties at the sample offices *)

Section DeskFacts.
Import Ledger Desk Pipeline.
Local Open Scope float_scope.

(** What the work finder returns when no query is rejected is the next
    page. *)
Lemma next_of_find env (w : World) (it : Critic.Item) :
  Spec.faultless env ->
  (Critic.findPageToCritique env w).1 = Returned (Some it) ->
  next (store w) it.
Proof.
  intros Henv Hfind. unfold next.
  unfold Critic.findPageToCritique in Hfind. unfold bind at 1 in Hfind.
  rewrite (queryDecks_ok _ _ _ _ _ Henv) in Hfind. cbn [store withCall] in Hfind.
  destruct (Db.selectDecks ANALYZING Deck.processedAt 10 (store w)) as [|dd rest] eqn:Hsel;
    [discriminate|].
  destruct (scanDecks_first env (dd :: rest) (store w)
              (withCall (QueryDecks ANALYZING) w) Henv eq_refl)
    as (r & w' & Hrun & _ & _ & Hr).
  rewrite Hrun in Hfind. cbn in Hfind. injection Hfind as ->. exact Hr.
Qed.

Lemma office_next : next (store (world office)) item.
Proof.
  apply (next_of_find Sample.env (world office)); [intros k; reflexivity|reflexivity].
Qed.

Lemma schedule_keeps_final_decks_witness :
  exists o',
    schedule [RunExtractor Sample.env; RunCritic Sample.env service;
              RunExtractor Sample.envDownloadFails] officeStranded = (Returned tt, o') /\
    decks (store (world o')) !! "d1" = Some stranded /\
    pages (store (world o')) !! "d1" = pages (store (world officeStranded)) !! "d1" /\
    insights (store (world o')) !! "d1" = insights (store (world officeStranded)) !! "d1".
Proof.
  apply (schedule_keeps_final_decks
           [RunExtractor Sample.env; RunCritic Sample.env service;
            RunExtractor Sample.envDownloadFails] officeStranded "d1" stranded).
  - reflexivity.
  - discriminate.
  - discriminate.
Defined.

Lemma pageless_deck_never_completes_witness :
  exists o',
    schedule (RunExtractor envNoPages ::
              [RunCritic envNoPages service; RunExtractor envNoPages;
               RunCritic envNoPages service]) officeUploaded = (Returned tt, o') /\
    decks (store (world o')) !! "d1" =
      Some (Deck.withProcessedAt (clock (world officeUploaded))
              (Deck.withPageCount 0 (Deck.withStatus ANALYZING Sample.uploaded))) /\
    Db.pagesOf "d1" (store (world o')) = [].
Proof.
  apply (pageless_deck_never_completes envNoPages
           [RunCritic envNoPages service; RunExtractor envNoPages;
            RunCritic envNoPages service] officeUploaded "d1" Sample.uploaded).
  - intros k. reflexivity.
  - reflexivity.
  - reflexivity.
  - intros id' d' Hne Hd'. exfalso.
    change (decks (store (world officeUploaded)))
      with (<["d1" := Sample.uploaded]> (∅ : gmap string Deck.t)) in Hd'.
    rewrite lookup_insert_ne in Hd' by congruence. rewrite lookup_empty in Hd'.
    discriminate.
  - reflexivity.
  - reflexivity.
Defined.

Lemma critiqueProblemStatement_success_witness :
  exists o',
    CriticJob.critiqueProblemStatement Sample.env service office = (Returned tt, o') /\
    insights (store (world o')) =
      <[Critic.deckId item :=
          Db.insightsOf (Critic.deckId item) (store (world office)) ++
          [Insight.mk PROBLEM (Page.pageNumber (Critic.page item)) (AI.rating verdict)
             (AI.feedback verdict) (AI.reasoning verdict) "Critic"
             (clock (world office))]]>
        (insights (store (world office))) /\
    aiCosts o' =
      aiCosts office ++
      [AICost.mk "gpt-4o-mini" 1200 80 1280
         ((1200 / 1000000) * 0.150 + (80 / 1000000) * 0.600)
         "critique_problem" "Critic" (Some (Critic.deckId item))
         (Some (Page.pageNumber (Critic.page item))) (clock (world office))] /\
    pages (store (world o')) = pages (store (world office)) /\
    decks (store (world o')) =
      (if (Deck.pageCount (Critic.deck item) * 1 <=?
           Z.of_nat (length (Db.insightsOf (Critic.deckId item) (store (world office))))
           + 1)%Z
       then <[Critic.deckId item := Deck.withStatus COMPLETE (Critic.deck item)]>
              (decks (store (world office)))
       else decks (store (world office))) /\
    requests o' =
      requests office ++
      [CreateChatCompletion (chatRequest item); AddAICost;
       AddInsight (Critic.deckId item)] /\
    Spec.critiqued (store (world o')) item.
Proof.
  apply (critiqueProblemStatement_success Sample.env service office item
           (Some answerText) [] verdict (AI.mkCompletionUsage 1200 80 1280)).
  - intros k. reflexivity.
  - intros k. reflexivity.
  - exact office_next.
  - reflexivity.
  - reflexivity.
  - reflexivity.
Defined.

Lemma critiqueProblemStatement_service_down_witness :
  exists o' r,
    CriticJob.critiqueProblemStatement Sample.env serviceDown office = (Returned tt, o') /\
    decks (store (world o')) = decks (store (world office)) /\
    pages (store (world o')) = pages (store (world office)) /\
    insights (store (world o')) = insights (store (world office)) /\
    aiCosts o' = aiCosts office /\
    requests o' = requests office ++ [CreateChatCompletion (chatRequest item)] /\
    automationLogs (store (world o')) = automationLogs (store (world office)) ++ [r] /\
    AutomationLog.status r = Failed /\
    AutomationLog.deckId r = Some (Critic.deckId item) /\
    AutomationLog.errors r =
      Some ["Critique failed: " +:+ JS.errorText (JS.ErrorObject "429 Too Many Requests")] /\
    next (store (world o')) item.
Proof.
  apply (critiqueProblemStatement_service_down Sample.env serviceDown office item
           (JS.ErrorObject "429 Too Many Requests")).
  - intros k. reflexivity.
  - reflexivity.
  - exact office_next.
Defined.

Lemma critiqueProblemStatement_answer_unparsable_witness :
  exists o' r,
    CriticJob.critiqueProblemStatement Sample.env serviceGarbled office =
      (Returned tt, o') /\
    decks (store (world o')) = decks (store (world office)) /\
    pages (store (world o')) = pages (store (world office)) /\
    insights (store (world o')) = insights (store (world office)) /\
    aiCosts o' = aiCosts office /\
    requests o' = requests office ++ [CreateChatCompletion (chatRequest item)] /\
    automationLogs (store (world o')) = automationLogs (store (world office)) ++ [r] /\
    AutomationLog.status r = Failed /\
    AutomationLog.deckId r = Some (Critic.deckId item) /\
    AutomationLog.errors r =
      Some ["Critique failed: " +:+
            JS.errorText (JS.ErrorObject "Unexpected token r in JSON at position 2")] /\
    next (store (world o')) item.
Proof.
  apply (critiqueProblemStatement_answer_unparsable Sample.env serviceGarbled office item
           (Some "{ rating: 7 }"%string) []
           (JS.ErrorObject "Unexpected token r in JSON at position 2")).
  - intros k. reflexivity.
  - reflexivity.
  - reflexivity.
  - reflexivity.
  - exact office_next.
Defined.

Lemma critiqueProblemStatement_insight_lost_witness :
  exists o' r,
    CriticJob.critiqueProblemStatement Sample.env serviceInsightFails office =
      (Returned tt, o') /\
    aiCosts o' =
      aiCosts office ++
      [AICost.mk "gpt-4o-mini" 1200 80 1280
         ((1200 / 1000000) * 0.150 + (80 / 1000000) * 0.600)
         "critique_problem" "Critic" (Some (Critic.deckId item))
         (Some (Page.pageNumber (Critic.page item))) (clock (world office))] /\
    insights (store (world o')) = insights (store (world office)) /\
    decks (store (world o')) = decks (store (world office)) /\
    pages (store (world o')) = pages (store (world office)) /\
    requests o' =
      requests office ++
      [CreateChatCompletion (chatRequest item); AddAICost;
       AddInsight (Critic.deckId item)] /\
    automationLogs (store (world o')) = automationLogs (store (world office)) ++ [r] /\
    AutomationLog.status r = Failed /\
    AutomationLog.errors r =
      Some ["Critique failed: " +:+ JS.errorText (JS.ErrorObject "UNAVAILABLE")] /\
    next (store (world o')) item.
Proof.
  apply (critiqueProblemStatement_insight_lost Sample.env serviceInsightFails office item
           (Some answerText) [] verdict (AI.mkCompletionUsage 1200 80 1280)
           (JS.ErrorObject "UNAVAILABLE")).
  - intros k. reflexivity.
  - reflexivity.
  - reflexivity.
  - reflexivity.
  - exact office_next.
  - reflexivity.
  - reflexivity.
  - reflexivity.
Defined.

Lemma critiqueProblemStatement_blocked_while_down_witness :
  exists o',
    rounds (fun run => CriticJob.critiqueProblemStatement run.1 run.2)
      [(Sample.env, serviceOff); (Sample.env, serviceOff); (Sample.env, serviceOff)]
      office = (Returned tt, o') /\
    decks (store (world o')) = decks (store (world office)) /\
    pages (store (world o')) = pages (store (world office)) /\
    insights (store (world o')) = insights (store (world office)) /\
    aiCosts o' = aiCosts office /\
    requests o' =
      requests office ++ repeat (CreateChatCompletion (chatRequest item)) 3 /\
    length (automationLogs (store (world o'))) =
      (length (automationLogs (store (world office))) + 3)%nat /\
    next (store (world o')) item.
Proof.
  apply (critiqueProblemStatement_blocked_while_down
           [(Sample.env, serviceOff); (Sample.env, serviceOff); (Sample.env, serviceOff)]
           office item).
  - repeat constructor; (intros k; reflexivity) || (intros k; eexists; reflexivity).
  - exact office_next.
Defined.

End DeskFacts.

(** ** Critic: decks that wait behind the scanned ones *)

Section CriticStarved.
Import Ledger Desk.

(** Whatever calls are rejected, an item the scan returns is one of the
    pages of the scanned decks, and has no insight of type "problem". *)
Lemma scanDecks_member env deckDocs : forall (w : World) it,
  (Critic.scanDecks env deckDocs w).1 = Returned (Some it) ->
  it ∈ Spec.candidates (store w) deckDocs /\ ~ Spec.critiqued (store w) it.
Proof.
  induction deckDocs as [|[deckId deck] rest IH]; intros w it.
  - intros [=].
  - cbn [Critic.scanDecks]. unfold Db.queryPages, Db.await. unfold_m.
    destruct (fault env (length (calls w))); [intros [=]|].
    cbn [store withCall].
    destruct (scanPages_sound env deckId deck (Db.selectPages deckId (store w))
                (withCall (QueryPages deckId) w)) as [Hst Hit].
    destruct (Critic.scanPages env deckId deck (Db.selectPages deckId (store w))
                (withCall (QueryPages deckId) w)) as [[[it'|]|e] w1] eqn:Hscan;
      cbn [fst snd store withCall] in *.
    + intros [= <-]. destruct (Hit it' eq_refl) as (H1 & H2 & H3 & H4).
      split; [|exact H4].
      unfold Spec.candidates. cbn [flat_map fst snd]. apply elem_of_app. left.
      apply list_elem_of_In, in_map_iff.
      exists (Critic.pageId it', Critic.page it'). split; [|apply list_elem_of_In, H3].
      destruct it'. cbn in *. subst. reflexivity.
    + intros Hr. destruct (IH w1 it Hr) as [Hin Hn]. rewrite Hst in Hin, Hn.
      split; [|exact Hn].
      unfold Spec.candidates. cbn [flat_map]. apply elem_of_app. right. exact Hin.
    + intros [=].
Qed.

Lemma findPageToCritique_member env (w : World) it :
  (Critic.findPageToCritique env w).1 = Returned (Some it) ->
  it ∈ Spec.candidates (store w)
         (Db.selectDecks ANALYZING Deck.processedAt 10 (store w)) /\
  ~ Spec.critiqued (store w) it.
Proof.
  unfold Critic.findPageToCritique, Db.queryDecks, Db.await. unfold_m.
  destruct (fault env (length (calls w))); [intros [=]|].
  cbn [store withCall].
  destruct (Db.selectDecks ANALYZING Deck.processedAt 10 (store w)) as [|dd rest] eqn:Hsel;
    [intros [=]|].
  intros Hr. apply (scanDecks_member env (dd :: rest) _ it Hr).
Qed.

(** *** Computations that write nothing but log records *)

Lemma logging_store {A} (m : M A) :
  (forall w, store (m w).2 = store w) -> logging 0 m.
Proof.
  intros H w. rewrite H. repeat split. exists []. rewrite app_nil_r. auto.
Qed.

Lemma logging_startSession action deckId : logging 0 (Logger.startSession action deckId).
Proof. apply logging_store. intros w. reflexivity. Qed.

Lemma logging_error message e : logging 0 (Logger.error message e).
Proof.
  apply logging_store. intros w. unfold Logger.error. unfold_m.
  destruct (session (logger w)); reflexivity.
Qed.

Lemma logging_findPageToCritique env : logging 0 (Critic.findPageToCritique env).
Proof. apply logging_store. intros w. apply findPageToCritique_sound. Qed.

Lemma logging_endSession env status metadata :
  logging 1 (Logger.endSession env status metadata).
Proof.
  intros w. unfold Logger.endSession, Db.addAutomationLog, Db.await. unfold_m.
  destruct (session (logger w)) as [s|].
  - cbn. destruct (fault env _); cbn; repeat split.
    + exists []. rewrite app_nil_r. auto.
    + eexists [_]. auto.
  - cbn. repeat split. exists []. rewrite app_nil_r. auto.
Qed.

Lemma idle_refl (o : Office) : idle 0 o o.
Proof. repeat split. exists []. rewrite app_nil_r. auto. Qed.

Lemma idle_trans (n m : nat) (o o1 o2 : Office) :
  idle n o o1 -> idle m o1 o2 -> idle (n + m) o o2.
Proof.
  intros (A1 & A2 & A3 & A4 & A5 & l & A6 & A7) (B1 & B2 & B3 & B4 & B5 & l' & B6 & B7).
  unfold idle. rewrite B1, B2, B3, B4, B5, B6, A1, A2, A3, A4, A5, A6.
  repeat split. exists (l ++ l'). rewrite app_assoc, length_app. split; [reflexivity|lia].
Qed.

(** A lifted computation returns what the computation returns, and leaves
    the cost records and the requests alone. *)
Lemma lift_logging {A} (n : nat) (m : M A) (o : Office) :
  logging n m ->
  (lift m o).1 = (m (world o)).1 /\ idle n o (lift m o).2.
Proof.
  intros H. specialize (H (world o)). unfold lift.
  destruct (m (world o)) as [r w']. cbn [fst snd] in *.
  destruct H as (H1 & H2 & H3 & H4). split; [reflexivity|].
  unfold idle. cbn [world aiCosts requests]. auto 10.
Qed.

Lemma candidates_ext (fs fs' : Firestore) :
  decks fs' = decks fs -> pages fs' = pages fs -> insights fs' = insights fs ->
  (forall x,
     x ∈ Spec.candidates fs (Db.selectDecks ANALYZING Deck.processedAt 10 fs) ->
     Spec.critiqued fs x) ->
  forall x,
    x ∈ Spec.candidates fs' (Db.selectDecks ANALYZING Deck.processedAt 10 fs') ->
    Spec.critiqued fs' x.
Proof.
  destruct fs, fs'. cbn. intros -> -> -> H. exact H.
Qed.

(** A run that finds every page of the scanned decks critiqued: whatever
    calls are rejected, it returns, sends no request and writes at most the
    record of the run. *)
Lemma critiqueProblemStatement_idle env svc (o : Office) :
  (forall x,
     x ∈ Spec.candidates (store (world o))
           (Db.selectDecks ANALYZING Deck.processedAt 10 (store (world o))) ->
     Spec.critiqued (store (world o)) x) ->
  exists o',
    CriticJob.critiqueProblemStatement env svc o = (Returned tt, o') /\ idle 1 o o'.
Proof.
  intros Hall. unfold CriticJob.critiqueProblemStatement.
  destruct (lift_logging 0 (Logger.startSession "critique_problem" None) o
              (logging_startSession _ _)) as [Hr1 Hi1].
  destruct (lift (Logger.startSession "critique_problem" None) o) as [r1 o1] eqn:E1.
  cbn [fst snd] in Hr1, Hi1.
  destruct (returns_startSession "critique_problem" None (world o)) as [[] Hs].
  rewrite Hs in Hr1. subst r1.
  rewrite (bindG_returned _ _ _ _ _ E1).
  unfold tryCatchG. unfold bindG at 1.
  destruct (lift_logging 0 (Critic.findPageToCritique env) o1
              (logging_findPageToCritique env)) as [Hr2 Hi2].
  destruct (lift (Critic.findPageToCritique env) o1) as [r2 o2] eqn:E2.
  cbn [fst snd] in Hr2, Hi2.
  pose proof (idle_trans _ _ _ _ _ Hi1 Hi2) as Hi12. cbn [Nat.add] in Hi12.
  assert (Hend : forall status metadata,
            exists o3,
              lift (Logger.endSession env status metadata) o2 = (Returned tt, o3) /\
              idle 1 o o3).
  { intros status metadata.
    destruct (lift_logging 1 (Logger.endSession env status metadata) o2
                (logging_endSession env status metadata)) as [Hr3 Hi3].
    destruct (lift (Logger.endSession env status metadata) o2) as [r3 o3] eqn:E3.
    cbn [fst snd] in Hr3, Hi3.
    destruct (returns_endSession env status metadata (world o2)) as [[] Hs3].
    rewrite Hs3 in Hr3. subst r3.
    exists o3. split; [reflexivity|].
    exact (idle_trans _ _ _ _ _ Hi12 Hi3). }
  destruct r2 as [[it|]|e].
  - exfalso.
    destruct (findPageToCritique_member env (world o1) it (eq_sym Hr2)) as [Hin Hnot].
    apply Hnot. destruct Hi1 as (A1 & A2 & A3 & _).
    apply (candidates_ext (store (world o))); assumption.
  - destruct (Hend (Some NoItemsFound) None) as (o3 & E3 & Hi3).
    rewrite E3. exists o3. split; [reflexivity|exact Hi3].
  - destruct (lift_logging 0 (Logger.error "Critique failed" (Some e)) o2
                (logging_error _ _)) as [Hr4 Hi4].
    destruct (lift (Logger.error "Critique failed" (Some e)) o2) as [r4 o4] eqn:E4.
    cbn [fst snd] in Hr4, Hi4.
    destruct (returns_error "Critique failed" (Some e) (world o2)) as [[] Hs4].
    rewrite Hs4 in Hr4. subst r4.
    rewrite (bindG_returned _ _ _ _ _ E4).
    destruct (lift_logging 1 (Logger.endSession env (Some Failed) None) o4
                (logging_endSession env _ _)) as [Hr5 Hi5].
    destruct (lift (Logger.endSession env (Some Failed) None) o4) as [r5 o5] eqn:E5.
    cbn [fst snd] in Hr5, Hi5.
    destruct (returns_endSession env (Some Failed) None (world o4)) as [[] Hs5].
    rewrite Hs5 in Hr5. subst r5.
    exists o5. split; [reflexivity|].
    pose proof (idle_trans _ _ _ _ _ Hi12 Hi4) as Hi124. cbn [Nat.add] in Hi124.
    exact (idle_trans _ _ _ _ _ Hi124 Hi5).
Qed.

(** X24: decks wait behind the scanned ones. The work finder looks at the
    ten decks under analysis that were processed first and at no other.
    When every page of those ten has its insight, for instance because the
    decks have no pages, the Critic does nothing, run after run and
    whatever calls are rejected or accepted in them, although a newer deck
    under analysis has a page without an insight: every run returns, no
    request is sent to the service, no deck, page, insight or cost record
    changes, at most one record per run is added to the automation log,
    and the page stays without an insight. *)
Theorem critiqueProblemStatement_starved (runs : list (Env * Service)) (o : Office)
    (id pageId : string) (d : Deck.t) (page : Page.t) :
  (forall x,
     x ∈ Spec.candidates (store (world o))
           (Db.selectDecks ANALYZING Deck.processedAt 10 (store (world o))) ->
     Spec.critiqued (store (world o)) x) ->
  decks (store (world o)) !! id = Some d ->
  Deck.status d = ANALYZING ->
  is_Some (Deck.processedAt d) ->
  (pageId, page) ∈ Db.pagesOf id (store (world o)) ->
  ~ Spec.hasProblemInsight (store (world o)) id (Page.pageNumber page) ->
  length (Db.selectDecks ANALYZING Deck.processedAt 10 (store (world o))) = 10 /\
  ((id, d) ∉ Db.selectDecks ANALYZING Deck.processedAt 10 (store (world o))) /\
  exists o',
    rounds (fun run => CriticJob.critiqueProblemStatement run.1 run.2) runs o =
      (Returned tt, o') /\
    decks (store (world o')) = decks (store (world o)) /\
    pages (store (world o')) = pages (store (world o)) /\
    insights (store (world o')) = insights (store (world o)) /\
    aiCosts o' = aiCosts o /\
    requests o' = requests o /\
    (exists l,
       automationLogs (store (world o')) = automationLogs (store (world o)) ++ l /\
       length l <= length runs) /\
    ~ Spec.hasProblemInsight (store (world o')) id (Page.pageNumber page).
Proof.
  intros Hall Hd Hst Hpa Hpage Hnot.
  assert (Hout : (id, d) ∉ Db.selectDecks ANALYZING Deck.processedAt 10 (store (world o))).
  { intros Hin. apply Hnot.
    apply (Hall (Critic.mkItem id pageId page d)).
    unfold Spec.candidates. apply list_elem_of_In, in_flat_map.
    exists (id, d). split; [apply list_elem_of_In, Hin|].
    apply in_map_iff. exists (pageId, page). split; [reflexivity|].
    apply list_elem_of_In. unfold Db.selectPages. rewrite merge_sort_Permutation.
    exact Hpage. }
  split.
  { apply (selectDecks_oldest ANALYZING Deck.processedAt 10 (store (world o)) id d);
      assumption. }
  split; [exact Hout|].
  assert (Hidle : exists o',
            rounds (fun run => CriticJob.critiqueProblemStatement run.1 run.2) runs o =
              (Returned tt, o') /\ idle (length runs) o o').
  { clear Hout Hd Hst Hpa Hpage Hnot.
    revert o Hall. induction runs as [|[env svc] rest IH]; intros o Hall.
    - exists o. split; [reflexivity|apply idle_refl].
    - cbn [fst snd] in *.
      destruct (critiqueProblemStatement_idle env svc o Hall) as (o1 & Hrun & Hi1).
      destruct (IH o1) as (o2 & Hrest & Hi2).
      { destruct Hi1 as (A1 & A2 & A3 & _).
        apply (candidates_ext (store (world o))); assumption. }
      exists o2. split.
      + cbn [rounds]. rewrite (bindG_returned _ _ _ _ _ Hrun). exact Hrest.
      + exact (idle_trans _ _ _ _ _ Hi1 Hi2). }
  destruct Hidle as (o' & Hrun & H1 & H2 & H3 & H4 & H5 & H6).
  exists o'. repeat (split; [assumption|]).
  unfold Spec.hasProblemInsight, Db.insightsOf in *. rewrite H3. exact Hnot.
Qed.

(** Two runs behind ten decks without pages: one in which every call is
    accepted, one in which every call is rejected. *)
Lemma critiqueProblemStatement_starved_witness :
  length (Db.selectDecks ANALYZING Deck.processedAt 10 (store (world officeCrowded))) = 10 /\
  (("b0", Sample.analyzing 2000 1) ∉
     Db.selectDecks ANALYZING Deck.processedAt 10 (store (world officeCrowded))) /\
  exists o',
    rounds (fun run => CriticJob.critiqueProblemStatement run.1 run.2)
      [(Sample.env, service); (Sample.envLogFails, serviceOff)] officeCrowded =
      (Returned tt, o') /\
    decks (store (world o')) = decks (store (world officeCrowded)) /\
    pages (store (world o')) = pages (store (world officeCrowded)) /\
    insights (store (world o')) = insights (store (world officeCrowded)) /\
    aiCosts o' = aiCosts officeCrowded /\
    requests o' = requests officeCrowded /\
    (exists l,
       automationLogs (store (world o')) =
         automationLogs (store (world officeCrowded)) ++ l /\
       length l <= 2) /\
    ~ Spec.hasProblemInsight (store (world o')) "b0"
        (Page.pageNumber (Sample.page 1 "one")).
Proof.
  apply (critiqueProblemStatement_starved
           [(Sample.env, service); (Sample.envLogFails, serviceOff)]
           officeCrowded "b0" "p1" (Sample.analyzing 2000 1) (Sample.page 1 "one")).
  - assert (Hc : Spec.candidates (store (world officeCrowded))
                   (Db.selectDecks ANALYZING Deck.processedAt 10
                      (store (world officeCrowded))) = []) by reflexivity.
    rewrite Hc. intros x Hx. inversion Hx.
  - reflexivity.
  - reflexivity.
  - eexists. reflexivity.
  - left.
  - intros H. inversion H.
Defined.

End CriticStarved.

(** ** Extractor: the words of the specification name one text *)

Section PageTextUnique.
Import Extractor.

Lemma trimStart_leading (l x : JS.Text) :
  Forall (fun c => JS.isWhiteSpace c = true) l ->
  JS.trimStart (l ++ x) = JS.trimStart x.
Proof.
  induction 1 as [|c l Hc _ IH]; [reflexivity|]. simpl. rewrite Hc. exact IH.
Qed.

Lemma trimEnd_blank (r : JS.Text) :
  Forall (fun c => JS.isWhiteSpace c = true) r -> JS.trimEnd r = [].
Proof.
  induction 1 as [|c r Hc _ IH]; [reflexivity|]. simpl. rewrite IH, Hc. reflexivity.
Qed.

Lemma trimEnd_trailing (x r : JS.Text) :
  Forall (fun c => JS.isWhiteSpace c = true) r ->
  JS.trimEnd (x ++ r) = JS.trimEnd x.
Proof.
  intros Hr. induction x as [|c x IH]; [apply trimEnd_blank, Hr|].
  simpl. rewrite IH. reflexivity.
Qed.

(** Only one text is [s] trimmed: the one [trim] returns. *)
Lemma trimmed_unique (s t : JS.Text) : Spec.trimmed s t -> t = JS.trim s.
Proof.
  intros (l & r & -> & Hl & Hr & Hh & Hlast).
  assert (Hl' : Forall (fun c => JS.isWhiteSpace c = true) l).
  { eapply Forall_impl; [exact Hl|]. intros c. apply isWhiteSpace_whiteSpace. }
  assert (Hr' : Forall (fun c => JS.isWhiteSpace c = true) r).
  { eapply Forall_impl; [exact Hr|]. intros c. apply isWhiteSpace_whiteSpace. }
  assert (Hnot : forall c, c ∉ Spec.whiteSpace -> JS.isWhiteSpace c = false).
  { intros c Hc. destruct (JS.isWhiteSpace c) eqn:E; [|reflexivity].
    exfalso. apply Hc, isWhiteSpace_whiteSpace, E. }
  unfold JS.trim. rewrite trimStart_leading by exact Hl'.
  destruct t as [|c t].
  - cbn [app]. rewrite <- (app_nil_r r), trimStart_leading by exact Hr'. reflexivity.
  - rewrite trimStart_fixed.
    + rewrite trimEnd_trailing by exact Hr'. symmetry. apply trimEnd_fixed.
      intros x Hx. apply Hnot, Hlast, Hx.
    + cbn. intros x [= <-]. apply Hnot, Hh. reflexivity.
Qed.

(** Digits read on top of [acc]: the value is [acc] shifted by the number
    of digits plus a number below that power of ten. *)
Lemma digitsValue_split (ds : JS.Text) (acc : nat) :
  Forall (fun c => (48 <= c <= 57)%N) ds ->
  exists v,
    Spec.digitsValue acc ds = acc * 10 ^ length ds + v /\ v < 10 ^ length ds.
Proof.
  unfold Spec.digitsValue. intros Hd. revert acc.
  induction Hd as [|c ds Hc _ IH]; intros acc.
  - exists 0. cbn. lia.
  - cbn [fold_left length]. destruct (IH (10 * acc + (N.to_nat c - 48))) as (v & Hv & Hlt).
    exists ((N.to_nat c - 48) * 10 ^ length ds + v). rewrite Hv.
    rewrite Nat.pow_succ_r'. split; [lia|].
    assert (N.to_nat c - 48 <= 9) by lia. nia.
Qed.

Lemma digitsValue_inj (ds ds' : JS.Text) (acc acc' : nat) :
  Forall (fun c => (48 <= c <= 57)%N) ds ->
  Forall (fun c => (48 <= c <= 57)%N) ds' ->
  length ds = length ds' ->
  Spec.digitsValue acc ds = Spec.digitsValue acc' ds' ->
  acc = acc' /\ ds = ds'.
Proof.
  unfold Spec.digitsValue. intros Hd. revert ds' acc acc'.
  induction Hd as [|c ds Hc _ IH]; intros ds' acc acc' Hd' Hlen Hv.
  - destruct ds'; [|discriminate]. cbn in Hv. auto.
  - destruct Hd' as [|c' ds' Hc' Hd']; [discriminate|].
    cbn [fold_left] in Hv. injection Hlen as Hlen.
    destruct (IH ds' _ _ Hd' Hlen Hv) as [Ha ->].
    assert (acc = acc' /\ N.to_nat c = N.to_nat c') as [-> Hcc] by lia.
    apply N2Nat.inj in Hcc. subst c'. auto.
Qed.

(** A number has one decimal numeral. *)
Lemma numeral_unique (n : nat) (ds ds' : JS.Text) :
  Spec.numeral n ds -> Spec.numeral n ds' -> ds = ds'.
Proof.
  assert (Hzero : forall ds, Spec.numeral 0 ds -> ds = [48%N]).
  { intros [|c r] (Hne & Hd & Hz & Hv); [congruence|].
    apply Hz. cbn [head]. f_equal.
    apply Forall_cons in Hd as [Hc Hr].
    unfold Spec.digitsValue in Hv. cbn [fold_left] in Hv.
    destruct (digitsValue_split r (10 * 0 + (N.to_nat c - 48)) Hr) as (v & Hv' & _).
    unfold Spec.digitsValue in Hv'. rewrite Hv' in Hv.
    assert (0 < 10 ^ length r) by (apply Nat.neq_0_lt_0, Nat.pow_nonzero; lia).
    assert (N.to_nat c - 48 = 0); [|lia].
    destruct (decide (N.to_nat c - 48 = 0)) as [E|E]; [exact E|exfalso].
    assert (1 * 10 ^ length r <= (10 * 0 + (N.to_nat c - 48)) * 10 ^ length r)
      by (apply Nat.mul_le_mono_r; lia).
    lia. }
  assert (Hlead : forall n c r, Spec.numeral n (c :: r) -> n <> 0 ->
            exists v, n = (N.to_nat c - 48) * 10 ^ length r + v /\
                      v < 10 ^ length r /\ 1 <= N.to_nat c - 48 <= 9).
  { intros m c r (_ & Hd & Hz & Hv) Hm.
    apply Forall_cons in Hd as [Hc Hr].
    unfold Spec.digitsValue in Hv. cbn [fold_left] in Hv.
    destruct (digitsValue_split r (10 * 0 + (N.to_nat c - 48)) Hr) as (v & Hv' & Hlt).
    unfold Spec.digitsValue in Hv'. rewrite Hv' in Hv.
    exists v. split; [lia|]. split; [exact Hlt|].
    split; [|lia].
    destruct (decide (c = 48%N)) as [->|Hc48]; [|lia].
    exfalso. specialize (Hz eq_refl). injection Hz as ->.
    cbn [length] in Hv, Hlt. rewrite Nat.pow_0_r in Hv, Hlt.
    change (N.to_nat 48) with 48 in Hv. lia. }
  intros H H'.
  destruct (decide (n = 0)) as [->|Hn].
  { rewrite (Hzero ds H), (Hzero ds' H'). reflexivity. }
  destruct ds as [|c r]; [destruct H as [Hne _]; congruence|].
  destruct ds' as [|c' r']; [destruct H' as [Hne _]; congruence|].
  destruct (Hlead n c r H Hn) as (v & Hv & Hlt & Hc).
  destruct (Hlead n c' r' H' Hn) as (v' & Hv' & Hlt' & Hc').
  assert (Hlen : length r = length r').
  { destruct (Nat.lt_trichotomy (length r) (length r')) as [Hl|[Hl|Hl]]; [|exact Hl|].
    - exfalso.
      assert (10 ^ S (length r) <= 10 ^ length r') by (apply Nat.pow_le_mono_r; lia).
      rewrite Nat.pow_succ_r' in *. nia.
    - exfalso.
      assert (10 ^ S (length r') <= 10 ^ length r) by (apply Nat.pow_le_mono_r; lia).
      rewrite Nat.pow_succ_r' in *. nia. }
  destruct H as (_ & Hd & _ & Hval). destruct H' as (_ & Hd' & _ & Hval').
  destruct (digitsValue_inj (c :: r) (c' :: r') 0 0 Hd Hd') as [_ Heq].
  - cbn. f_equal. exact Hlen.
  - rewrite Hval, Hval'. reflexivity.
  - exact Heq.
Qed.

(** The words of the specification name one page text: the one the loop of
    [extractPDFText] makes. *)
Lemma pageText_unique (fullText : JS.Text) (c i : nat) (t t' : JS.Text) :
  Spec.pageText fullText c i t -> Spec.pageText fullText c i t' -> t = t'.
Proof.
  intros (s & Hs & Ht) (s' & Hs' & Ht').
  apply trimmed_unique in Hs, Hs'. rewrite <- Hs' in Hs. subst s'.
  destruct s as [|x s]; [|congruence].
  destruct Ht as (ds & Hds & ->). destruct Ht' as (ds' & Hds' & ->).
  rewrite (numeral_unique i ds ds' Hds Hds'). reflexivity.
Qed.

End PageTextUnique.

(** ** Runs that do not overlap: failed extractions and the status error *)

Section WholeRuns.
Import Extractor Ledger Pipeline Desk.

Lemma noNewError_trans (w0 w1 w2 : World) :
  Spec.noNewError w0 w1 -> Spec.noNewError w1 w2 -> Spec.noNewError w0 w2.
Proof. intros H1 H2 id d Hd Hst. apply H1; [apply H2|]; assumption. Qed.

(** A whole run of either job returns normally and puts no deck in status
    error. *)
Lemma runJob_never_marks_error (r : Run) (o : Office) :
  exists o', runJob r o = (Returned tt, o') /\ Spec.noNewError (world o) (world o').
Proof.
  destruct r as [env|env svc].
  - destruct (extractPDFPages_never_marks_error env (world o)) as (w' & Hrun & H).
    exists (mkOffice w' (aiCosts o) (requests o)).
    split; [cbn; unfold lift; rewrite Hrun; reflexivity|exact H].
  - destruct (critiqueProblemStatement_outcome env svc o) as (o' & Hrun & Hpg & Hout).
    exists o'. split; [exact Hrun|]. intros id d Hd Hst.
    destruct Hout as [(H1 & _)|(it & i & c & Hw)]; [rewrite <- H1; exact Hd|].
    destruct Hw as (_ & _ & _ & _ & Hdd & _).
    destruct Hdd as [Hdd|Hdd]; rewrite Hdd in Hd; [exact Hd|].
    destruct (decide (Critic.deckId it = id)) as [Heq|Hne].
    + subst id. rewrite lookup_insert_eq in Hd. injection Hd as <-.
      cbn in Hst. discriminate.
    + rewrite lookup_insert_ne in Hd by exact Hne. exact Hd.
Qed.

(** Whole runs of the two jobs, one after the other, keep a deck that is
    neither uploaded nor under analysis. *)
Lemma schedule_keeps_deck (runs : list Run) (o : Office) (id : string) (d : Deck.t) :
  decks (store (world o)) !! id = Some d ->
  Deck.status d <> UPLOADED -> Deck.status d <> ANALYZING ->
  exists o',
    schedule runs o = (Returned tt, o') /\
    decks (store (world o')) !! id = Some d.
Proof.
  revert o. induction runs as [|r rest IH]; intros o Hd Hu Ha.
  - exists o. split; [reflexivity|exact Hd].
  - destruct (runJob_keeps_final r o id d Hd Hu Ha) as (o1 & Hrun & H1 & _).
    destruct (IH o1 H1 Hu Ha) as (o2 & Hrest & H2).
    exists o2. split; [|exact H2].
    unfold schedule. cbn [rounds]. rewrite (bindG_returned _ _ _ _ _ Hrun). exact Hrest.
Qed.

(** X10: a deck whose extraction fails is stranded, as long as runs do not
    overlap. [schedule] runs the jobs one whole run after the other: no
    call of another run falls between the calls of a run. When the first
    run, of the Extractor, claims the oldest uploaded deck and one of the
    four calls after the claim is rejected (download, parse, batch commit,
    final update), the deck is left in status extracting with the error
    message it had, and no later runs of the Extractor or the Critic, in
    any order and whatever is rejected in them, pick it up again or change
    it. *)
Theorem extractPDFPages_strands_claimed_deck env (runs : list Run) (o : Office)
    (id : string) (d : Deck.t) :
  decks (store (world o)) !! id = Some d ->
  Deck.status d = UPLOADED ->
  (forall id' d',
     id' <> id -> decks (store (world o)) !! id' = Some d' ->
     Deck.status d' = UPLOADED ->
     (Deck.uploadedAt d < Deck.uploadedAt d')%Z) ->
  fault env (length (calls (world o))) = None ->
  fault env (length (calls (world o)) + 1) = None ->
  (exists k, 2 <= k <= 5 /\ is_Some (fault env (length (calls (world o)) + k))) ->
  exists o1 o',
    runJob (RunExtractor env) o = (Returned tt, o1) /\
    decks (store (world o1)) = <[id := Deck.withStatus EXTRACTING d]> (decks (store (world o))) /\
    schedule runs o1 = (Returned tt, o') /\
    decks (store (world o')) !! id = Some (Deck.withStatus EXTRACTING d) /\
    Deck.errorMessage (Deck.withStatus EXTRACTING d) = Deck.errorMessage d.
Proof.
  intros Hd Hst Holdest H0 H1 (k & Hk & Hf).
  assert (Hsel : Db.selectDecks UPLOADED (fun d => Some (Deck.uploadedAt d)) 1
                   (store (world o)) = [(id, d)]).
  { apply (selectDecks_first _ _ _ _ _ (Deck.uploadedAt d)); auto.
    intros id' d' t' Hne Hd' Hst' [= <-]. apply (Holdest id' d'); assumption. }
  destruct (extractPDFPages_failure_after_claim env (world o) id d [] Hsel H0 H1)
    as (w1 & Hrun & Hdecks & _).
  { exists k. split; [exact Hk|]. destruct Hf as [e He]. rewrite He. discriminate. }
  destruct (schedule_keeps_deck runs (mkOffice w1 (aiCosts o) (requests o)) id
              (Deck.withStatus EXTRACTING d))
    as (o' & Hrest & H2).
  { cbn [world]. rewrite Hdecks. apply lookup_insert_eq. }
  { discriminate. }
  { discriminate. }
  exists (mkOffice w1 (aiCosts o) (requests o)), o'.
  split; [cbn; unfold lift; rewrite Hrun; reflexivity|].
  split; [exact Hdecks|]. split; [exact Hrest|]. split; [exact H2|reflexivity].
Qed.

Lemma extractPDFPages_strands_claimed_deck_witness :
  exists o1 o',
    runJob (RunExtractor Sample.envDownloadFails) (mkOffice Sample.world [] []) =
      (Returned tt, o1) /\
    decks (store (world o1)) =
      <["d1" := Deck.withStatus EXTRACTING Sample.uploaded]>
        (decks (store (world (mkOffice Sample.world [] [])))) /\
    schedule [RunExtractor Sample.env; RunCritic Sample.env service;
              RunExtractor Sample.env] o1 = (Returned tt, o') /\
    decks (store (world o')) !! "d1" = Some (Deck.withStatus EXTRACTING Sample.uploaded) /\
    Deck.errorMessage (Deck.withStatus EXTRACTING Sample.uploaded) =
      Deck.errorMessage Sample.uploaded.
Proof.
  apply (extractPDFPages_strands_claimed_deck Sample.envDownloadFails
           [RunExtractor Sample.env; RunCritic Sample.env service;
            RunExtractor Sample.env]
           (mkOffice Sample.world [] []) "d1" Sample.uploaded).
  - reflexivity.
  - reflexivity.
  - intros id' d' Hne Hd'. exfalso.
    change (decks (store (world (mkOffice Sample.world [] []))))
      with (<["d1" := Sample.uploaded]> (∅ : gmap string Deck.t)) in Hd'.
    rewrite lookup_insert_ne in Hd' by congruence. rewrite lookup_empty in Hd'.
    discriminate.
  - reflexivity.
  - reflexivity.
  - exists 2. split; [lia|]. eexists. reflexivity.
Defined.

(** X13: as long as runs do not overlap, no run throws and no deck is ever
    put in status error. [schedule] runs the jobs one whole run after the
    other: no call of another run falls between the calls of a run.
    Through any such sequence of runs of the Extractor and the Critic,
    whatever calls are rejected in them, every run returns normally, and a
    deck in status error afterwards was the same document before the
    runs. The Critic never writes that status, and in a run of the
    Extractor the handler reads the deck context after [endSession] has
    emptied it, so its update to status error is not reached. *)
Theorem schedule_never_marks_error (runs : list Run) (o : Office) :
  exists o',
    schedule runs o = (Returned tt, o') /\
    Spec.noNewError (world o) (world o').
Proof.
  revert o. induction runs as [|r rest IH]; intros o.
  - exists o. split; [reflexivity|apply noNewError_refl].
  - destruct (runJob_never_marks_error r o) as (o1 & Hrun & H1).
    destruct (IH o1) as (o2 & Hrest & H2).
    exists o2. split; [|eapply noNewError_trans; eassumption].
    unfold schedule. cbn [rounds]. rewrite (bindG_returned _ _ _ _ _ Hrun). exact Hrest.
Qed.

End WholeRuns.
